(** * ghorg: the clone-run engine, checked against its specification

    A shallow embedding of the parts of ghorg that the specification's
    claims are about:

    - [trimCollisionFilename], [hasRepoNameCollisions] (path planning),
    - [getRelativePathRepositories], [sliceContainsNamedRepo],
      [pruneRepos], [interactiveYesNoPrompt] (the pruner),
    - the exit-code policy at the end of [CloneAllRepos],
    - [writeGhorgStats] (the stats recorder),
    - [SyncDefaultBranch], [MergeFastForward], [UpdateRef] and the queries
      they use, for both Git backends (the subprocess driver [GitClient]
      and the library backend [goGitClient]).

    Go strings are byte strings, modelled by [string] (a list of 8-bit
    characters).  Go's [int] is modelled by [Z]; none of the integers
    below comes near the 64-bit bounds.  A run-time panic, [os.Exit] and
    [log.Fatal] are explicit outcomes. *)

From Stdlib Require Import ZArith Ascii String List Bool Lia.
From stdpp Require Import base option list strings gmap pretty.

Open Scope string_scope.
Open Scope Z_scope.

(** ** Outcomes of Go code *)

(** [(T, error)] results: the error is a message. *)
Definition error := string.

Inductive result (A : Type) : Type :=
| Ok (a : A)
| Err (e : error).
Arguments Ok {A} a.
Arguments Err {A} e.

(** A function that can end the process or crash instead of returning. *)
Inductive outcome (A : Type) : Type :=
| Returns (a : A)
| Exits (code : Z)        (* os.Exit(code); log.Fatal is os.Exit(1) *)
| Panics (msg : string).  (* run-time panic or panic(err) *)
Arguments Returns {A} a.
Arguments Exits {A} code.
Arguments Panics {A} msg.

(** ** The [strings] package, on byte strings *)

Module strings.

Definition len (s : string) : Z := Z.of_nat (String.length s).

(** [s[:n]] and [s[n:]] for an index already known to be in range. *)
Fixpoint take (n : nat) (s : string) : string :=
  match n, s with
  | S n', String c s' => String c (take n' s')
  | _, _ => ""
  end.

Fixpoint drop (n : nat) (s : string) : string :=
  match n, s with
  | S n', String _ s' => drop n' s'
  | _, _ => s
  end.

(** [s[:hi]] as Go evaluates it: a panic unless [0 <= hi <= len(s)]. *)
Definition slice_to (s : string) (hi : Z) : outcome string :=
  if (0 <=? hi) && (hi <=? len s)
  then Returns (take (Z.to_nat hi) s)
  else Panics "slice bounds out of range".

Fixpoint HasPrefix (s prefix : string) {struct prefix} : bool :=
  match prefix, s with
  | "", _ => true
  | String p prefix', String c s' => if Ascii.eqb c p then HasPrefix s' prefix' else false
  | String _ _, "" => false
  end.

Definition TrimPrefix (s prefix : string) : string :=
  if HasPrefix s prefix then drop (String.length prefix) s else s.

(** [strings.IndexByte(s, c)]: first index of [c], or -1. *)
Fixpoint IndexByte (s : string) (c : ascii) : Z :=
  match s with
  | "" => -1
  | String a s' =>
      if Ascii.eqb a c then 0
      else match IndexByte s' c with
           | Zneg _ => -1
           | i => 1 + i
           end
  end.

(** [strings.LastIndex(s, sep)] for a one-byte separator: last index of
    [c], or -1. *)
Fixpoint LastIndexByte (s : string) (c : ascii) : Z :=
  match s with
  | "" => -1
  | String a s' =>
      match LastIndexByte s' c with
      | Zneg _ => if Ascii.eqb a c then 0 else -1
      | i => 1 + i
      end
  end.

(** [strings.ReplaceAll(s, old, new)] for one-byte [old] and [new]. *)
Fixpoint ReplaceAllByte (s : string) (old new : ascii) : string :=
  match s with
  | "" => ""
  | String a s' =>
      String (if Ascii.eqb a old then new else a) (ReplaceAllByte s' old new)
  end.

(** [strings.Split(s, sep)] for a one-byte separator: never empty. *)
Fixpoint Split (s : string) (sep : ascii) : list string :=
  match s with
  | "" => [""]
  | String a s' =>
      if Ascii.eqb a sep then "" :: Split s' sep
      else match Split s' sep with
           | w :: ws => String a w :: ws
           | [] => [String a ""]
           end
  end.

(** [strings.Join(elems, sep)]. *)
Fixpoint Join (elems : list string) (sep : string) : string :=
  match elems with
  | [] => ""
  | [e] => e
  | e :: rest => e ++ sep ++ Join rest sep
  end.

(** ASCII white space, as [unicode.IsSpace] classifies single bytes below
    0x80.  (The two-byte and three-byte Unicode spaces are not trimmed
    by this model; no string compared below contains them.) *)
Definition isSpace (c : ascii) : bool :=
  match c with
  | "009" | "010" | "011" | "012" | "013" | " " => true
  | _ => false
  end%char.

Fixpoint TrimLeftSpace (s : string) : string :=
  match s with
  | String c s' => if isSpace c then TrimLeftSpace s' else s
  | "" => ""
  end.

Fixpoint TrimRightSpace (s : string) : string :=
  match s with
  | "" => ""
  | String c s' =>
      match TrimRightSpace s' with
      | "" => if isSpace c then "" else String c ""
      | t => String c t
      end
  end.

Definition TrimSpace (s : string) : string := TrimRightSpace (TrimLeftSpace s).

Definition toLowerByte (c : ascii) : ascii :=
  let n := nat_of_ascii c in
  if (Nat.leb 65 n && Nat.leb n 90)%bool then ascii_of_nat (n + 32) else c.

(** [strings.ToLower] on ASCII input. *)
Fixpoint ToLower (s : string) : string :=
  match s with
  | "" => ""
  | String c s' => String (toLowerByte c) (ToLower s')
  end.

(** [strings.Contains]. *)
Fixpoint Contains (s substr : string) : bool :=
  HasPrefix s substr
  || match s with
     | "" => false
     | String _ s' => Contains s' substr
     end.

(** [strings.Fields]: the maximal runs of non-space bytes. *)
Definition Fields (s : string) : list string := String.words s.

End strings.

(** ** Path planning: [trimCollisionFilename] *)

(** [[
func trimCollisionFilename(filename string) string {
	maxLen := 248
	if len(filename) > maxLen {
		return filename[:strings.LastIndex(filename[:maxLen], "_")]
	}
	return filename
}
]]
    Both slice expressions are evaluated as Go does, with the bounds
    check that makes an out-of-range index a panic. *)
Definition maxLen : Z := 248.

Definition trimCollisionFilename (filename : string) : outcome string :=
  if strings.len filename >? maxLen then
    match strings.slice_to filename maxLen with
    | Returns head => strings.slice_to filename (strings.LastIndexByte head "_")
    | Exits c => Exits c
    | Panics m => Panics m
    end
  else Returns filename.

(** A string of [n] copies of one byte, for test inputs. *)
Fixpoint repeat_byte (c : ascii) (n : nat) : string :=
  match n with
  | O => ""
  | S n' => String c (repeat_byte c n')
  end.

(** ** The [path/filepath] package on a Unix host

    The standard library is not part of the repository; these follow its
    documented behaviour.  A path is split at ['/'] into elements,
    the elements are normalised lexically, and the result is printed
    back. *)

Module filepath.

Definition isRooted (path : string) : bool := strings.HasPrefix path "/".

(** Lexical normalisation of the elements of a path, as [Clean] does it:
    empty elements and ["."] vanish, [".."] cancels the element before
    it, is dropped at the root, and is kept at the front of a relative
    path.  [stack] holds the elements kept so far, last one first. *)
Fixpoint cleanElems (rooted : bool) (stack elems : list string) : list string :=
  match elems with
  | [] => rev stack
  | e :: rest =>
      if String.eqb e "" || String.eqb e "."
      then cleanElems rooted stack rest
      else if String.eqb e ".."
      then match stack with
           | top :: stack' =>
               if String.eqb top ".."
               then cleanElems rooted (".." :: stack) rest
               else cleanElems rooted stack' rest
           | [] =>
               if rooted then cleanElems rooted [] rest
               else cleanElems rooted [".."] rest
           end
      else cleanElems rooted (e :: stack) rest
  end.

Definition elemsOf (path : string) : list string :=
  cleanElems (isRooted path) [] (strings.Split path "/").

(** [filepath.Clean]. *)
Definition Clean (path : string) : string :=
  let out := strings.Join (elemsOf path) "/" in
  if isRooted path then "/" ++ out
  else if String.eqb out "" then "." else out.

(** [filepath.Join]: leading empty elements are ignored, the rest is
    joined with the separator and cleaned. *)
Fixpoint Join (elem : list string) : string :=
  match elem with
  | [] => ""
  | e :: rest =>
      if String.eqb e "" then Join rest else Clean (strings.Join elem "/")
  end.

(** The elements [Rel] compares: those of a cleaned path, the root
    ["/"] counting as the one empty element before its slash. *)
Definition relElems (cleaned : string) : list string :=
  if String.eqb cleaned "" then []
  else if String.eqb cleaned "/" then [""]
  else strings.Split cleaned "/".

Fixpoint stripCommon (base targ : list string) : list string * list string :=
  match base, targ with
  | b :: base', t :: targ' =>
      if String.eqb b t then stripCommon base' targ' else (base, targ)
  | _, _ => (base, targ)
  end.

(** [filepath.Rel(basepath, targpath)]. *)
Definition Rel (basepath targpath : string) : result string :=
  let base := Clean basepath in
  let targ := Clean targpath in
  if String.eqb targ base then Ok "."
  else
    let base := if String.eqb base "." then "" else base in
    if negb (Bool.eqb (isRooted base) (isRooted targ))
    then Err ("Rel: can't make " ++ targpath ++ " relative to " ++ basepath)
    else
      match stripCommon (relElems base) (relElems targ) with
      | ([], trest) => Ok (strings.Join trest "/")
      | (b :: brest, []) => Ok (strings.Join (map (fun _ => "..") (b :: brest)) "/")
      | (b :: brest, t :: trest) =>
          if String.eqb b ".."
          then Err ("Rel: can't make " ++ targpath ++ " relative to " ++ basepath)
          else Ok (strings.Join (map (fun _ => "..") (b :: brest) ++ t :: trest)%list "/")
      end.

End filepath.

(** ** The file system

    A tree of directories and files.  The entries of a directory are
    kept in the order [os.ReadDir] lists them.  Paths are resolved from
    the root of the tree; there are no symbolic links.  [locked] lists
    the (clean) paths whose removal the operating system refuses. *)

#[warnings="-register-all"] Inductive node : Type :=
| File (content : string)
| Dir (entries : list (string * node)).

Definition IsDir (n : node) : bool :=
  match n with Dir _ => true | File _ => false end.

Fixpoint findEntry (name : string) (entries : list (string * node)) : option node :=
  match entries with
  | [] => None
  | (n, c) :: rest => if String.eqb n name then Some c else findEntry name rest
  end.

Fixpoint lookupElems (d : node) (elems : list string) : option node :=
  match elems with
  | [] => Some d
  | e :: rest =>
      match d with
      | Dir entries =>
          match findEntry e entries with
          | Some c => lookupElems c rest
          | None => None
          end
      | File _ => None
      end
  end.

Fixpoint removeElems (d : node) (elems : list string) : node :=
  match elems, d with
  | [], _ => d
  | [e], Dir entries =>
      Dir (List.filter (fun p => negb (String.eqb (fst p) e)) entries)
  | e :: rest, Dir entries =>
      Dir (map (fun p => if String.eqb (fst p) e
                         then (fst p, removeElems (snd p) rest) else p) entries)
  | _ :: _, File _ => d
  end.

Definition absElems (path : string) : list string :=
  filepath.cleanElems true [] (strings.Split path "/").

(** [os.Stat(path)]: the node at [path], if there is one. *)
Definition Stat (fs : node) (path : string) : option node :=
  lookupElems fs (absElems path).

(** The process as the pruner sees it: the file system, the lines still
    to be read from standard input (one per read, as a terminal delivers
    them), and a record of what was done: the paths handed to
    [os.RemoveAll] and the prompts printed, oldest first. *)
Record World : Type := mkWorld {
  fs : node;
  locked : list string;
  stdin : list string;
  removed : list string;
  prompts : list string
}.

(** [os.RemoveAll(path)]: removes the tree at [path]; no error when there
    is nothing there; an error, and nothing removed, when the path is
    locked. *)
Definition RemoveAll (w : World) (path : string) : option error * World :=
  if existsb (String.eqb (filepath.Clean path)) (locked w)
  then (Some ("unlinkat " ++ path ++ ": permission denied"),
        mkWorld (fs w) (locked w) (stdin w) (removed w ++ [path])%list (prompts w))
  else (None,
        mkWorld (removeElems (fs w) (absElems path)) (locked w) (stdin w)
                (removed w ++ [path])%list (prompts w)).

(** [filepath.WalkDir]: the entries visited, in order, each with its
    path; a directory is followed by its entries. *)
Fixpoint walkDir (path : string) (d : node) {struct d} : list (string * node) :=
  (path, d) ::
  match d with
  | File _ => []
  | Dir entries =>
      (fix walkEntries (es : list (string * node)) : list (string * node) :=
         match es with
         | [] => []
         | (name, c) :: es' =>
             (walkDir (filepath.Join [path; name]) c ++ walkEntries es')%list
         end) entries
  end.

(** A name a directory entry can have. *)
Definition validName (n : string) : bool :=
  negb (String.eqb n "") && negb (String.eqb n ".") && negb (String.eqb n "..")
  && (strings.IndexByte n "/" <? 0).

(** The absolute path with the given elements: ["/"] for none. *)
Definition absPath (elems : list string) : string := "/" ++ strings.Join elems "/".

Fixpoint distinctNames (names : list string) : bool :=
  match names with
  | [] => true
  | n :: rest => negb (existsb (String.eqb n) rest) && distinctNames rest
  end.

(** A tree as a file system holds it: in every directory the names are
    valid and no name occurs twice. *)
Fixpoint wfNode (d : node) : bool :=
  match d with
  | File _ => true
  | Dir entries =>
      forallb validName (map fst entries) && distinctNames (map fst entries)
      && (fix wfEntries (es : list (string * node)) : bool :=
            match es with
            | [] => true
            | (_, c) :: es' => wfNode c && wfEntries es'
            end) entries
  end.

(** ** Repositories *)

(** [scm.Repo]. *)
Record Repo : Type := mkRepo {
  Name : string;
  Path : string;
  URL : string;
  CloneURL : string;
  CloneBranch : string;
  HostPath : string;
  IsWiki : bool;
  IsGitLabSnippet : bool;
  IsGitLabRootLevelSnippet : bool;
  URLOfRepo : string   (* GitLabSnippetInfo.URLOfRepo *)
}.

(** The process environment, [os.Getenv]: unset variables read as [""]. *)
Definition Getenv (env : gmap string string) (key : string) : string :=
  default "" (env !! key).

(** ** The pruner *)

(** [[
func isGitRepository(path string) bool {
	stat, err := os.Stat(filepath.Join(path, ".git"))
	return err == nil && stat.IsDir()
}
]] *)
Definition isGitRepository (fs : node) (path : string) : bool :=
  match Stat fs (filepath.Join [path; ".git"]) with
  | Some stat => IsDir stat
  | None => false
  end.

(** [getRelativePathRepositories(root)]: the callback of the walk, run
    over the visited entries; its first error ends the walk. *)
Fixpoint collectRepositories (fs : node) (outputDirAbsolutePath : string)
    (visited : list (string * node)) (relativePaths : list string)
  : result (list string) :=
  match visited with
  | [] => Ok relativePaths
  | (path, file) :: rest =>
      if negb (String.eqb path outputDirAbsolutePath) && IsDir file
         && isGitRepository fs path
      then match filepath.Rel outputDirAbsolutePath path with
           | Ok rel => collectRepositories fs outputDirAbsolutePath rest
                         (relativePaths ++ [rel])%list
           | Err e => Err e
           end
      else collectRepositories fs outputDirAbsolutePath rest relativePaths
  end.

Definition getRelativePathRepositories (fs : node)
    (outputDirAbsolutePath root : string) : result (list string) :=
  match Stat fs root with
  | None => Err ("lstat " ++ root ++ ": no such file or directory")
  | Some d => collectRepositories fs outputDirAbsolutePath (walkDir root d) []
  end.

(** The normalisation [sliceContainsNamedRepo] applies to both sides:
    one leading slash dropped, then backslashes turned into slashes
    ([filepath.ToSlash] is the identity on a Unix host). *)
Definition normalizePath (p : string) : string :=
  strings.ReplaceAllByte (strings.TrimPrefix p "/") "\" "/".

Definition sliceContainsNamedRepo (haystack : list Repo) (needle : string) : bool :=
  let needle := normalizePath needle in
  existsb (fun repo => String.eqb (normalizePath (Path repo)) needle) haystack.

(** [[
func interactiveYesNoPrompt(prompt string) bool {
	reader := bufio.NewReader(os.Stdin)
	fmt.Print(strings.TrimSpace(prompt) + " (y/N) ")
	s, err := reader.ReadString('\n')
	if err != nil { panic(err) }
	s = strings.TrimSpace(s)
	s = strings.ToLower(s)
	if s == "y" || s == "yes" { return true }
	return false
}
]] *)
Definition isYes (line : string) : bool :=
  let s := strings.ToLower (strings.TrimSpace line) in
  String.eqb s "y" || String.eqb s "yes".

Definition interactiveYesNoPrompt (prompt : string) (w : World) : outcome bool * World :=
  let w1 := mkWorld (fs w) (locked w) (stdin w) (removed w)
                    (prompts w ++ [(strings.TrimSpace prompt ++ " (y/N) ")%string])%list in
  match stdin w with
  | [] => (Panics "EOF", w1)
  | s :: rest =>
      (Returns (isYes s),
       mkWorld (fs w1) (locked w1) rest (removed w1) (prompts w1))
  end.

(** The loop of [pruneRepos] over the repositories found on disk, with
    its two local variables [count] and [userAgreesToDelete]; it hands
    back both.
[[
	for _, repository := range repositories {
		absolutePathToDelete := filepath.Join(outputDirAbsolutePath, repository)
		if !strings.HasPrefix(absolutePathToDelete, outputDirAbsolutePath) {
			colorlog.PrintErrorAndExit(...)
		}
		if userAgreesToDelete && !sliceContainsNamedRepo(cloneTargets, repository) {
			userAgreesToDelete = pruneNoConfirm || interactiveYesNoPrompt(...)
			if userAgreesToDelete {
				err = os.RemoveAll(absolutePathToDelete)
				count++
				if err != nil { log.Fatal(err) }
			} else { ... }
		}
	}
]] *)
Definition prunePrompt (repository absolutePathToDelete : string) : string :=
  repository ++ " was not found in remote.  Do you want to prune it? "
  ++ absolutePathToDelete.

Fixpoint pruneLoop (cloneTargets : list Repo) (outputDirAbsolutePath : string)
    (pruneNoConfirm : bool) (repositories : list string)
    (count : Z) (userAgreesToDelete : bool) (w : World)
  : outcome (Z * bool) * World :=
  match repositories with
  | [] => (Returns (count, userAgreesToDelete), w)
  | repository :: rest =>
      let absolutePathToDelete := filepath.Join [outputDirAbsolutePath; repository] in
      if negb (strings.HasPrefix absolutePathToDelete outputDirAbsolutePath)
      then (Exits 1, w)   (* colorlog.PrintErrorAndExit *)
      else if userAgreesToDelete && negb (sliceContainsNamedRepo cloneTargets repository)
      then
        let (answer, w1) :=
          if pruneNoConfirm then (Returns true, w)
          else interactiveYesNoPrompt (prunePrompt repository absolutePathToDelete) w in
        match answer with
        | Returns true =>
            let (err, w2) := RemoveAll w1 absolutePathToDelete in
            match err with
            | None => pruneLoop cloneTargets outputDirAbsolutePath pruneNoConfirm
                        rest (count + 1) true w2
            | Some _ => (Exits 1, w2)   (* log.Fatal(err) *)
            end
        | Returns false =>
            pruneLoop cloneTargets outputDirAbsolutePath pruneNoConfirm
              rest count false w1
        | Exits c => (Exits c, w1)
        | Panics m => (Panics m, w1)
        end
      else pruneLoop cloneTargets outputDirAbsolutePath pruneNoConfirm
             rest count userAgreesToDelete w
  end.

Definition returnCount (r : outcome (Z * bool)) : outcome Z :=
  match r with
  | Returns (count, _) => Returns count
  | Exits c => Exits c
  | Panics m => Panics m
  end.

Definition pruneRepos (env : gmap string string) (outputDirAbsolutePath : string)
    (cloneTargets : list Repo) (w : World) : outcome Z * World :=
  match getRelativePathRepositories (fs w) outputDirAbsolutePath outputDirAbsolutePath with
  | Err _ => (Exits 1, w)   (* log.Fatal(err) *)
  | Ok repositories =>
      let (r, w') :=
        pruneLoop cloneTargets outputDirAbsolutePath
          (String.eqb (Getenv env "GHORG_PRUNE_NO_CONFIRM") "true")
          repositories 0 true w in
      (returnCount r, w')
  end.

(** ** Exit codes at the end of [CloneAllRepos] *)

Module strconv.

Definition digit (c : ascii) : option Z :=
  let n := Z.of_nat (nat_of_ascii c) in
  if (48 <=? n) && (n <=? 57) then Some (n - 48) else None.

Fixpoint digits (s : string) (acc : Z) : option Z :=
  match s with
  | "" => Some acc
  | String c s' =>
      match digit c with
      | Some d => digits s' (10 * acc + d)
      | None => None
      end
  end.

(** [strconv.Atoi]: an optional sign and at least one decimal digit;
    a value outside the 64-bit range is an error. *)
Definition Atoi (s : string) : result Z :=
  let (neg, body) :=
    match s with
    | String "-" r => (true, r)
    | String "+" r => (false, r)
    | _ => (false, s)
    end in
  match body with
  | "" => Err ("strconv.Atoi: parsing " ++ s ++ ": invalid syntax")
  | _ =>
      match digits body 0 with
      | None => Err ("strconv.Atoi: parsing " ++ s ++ ": invalid syntax")
      | Some n =>
          let v := if neg : bool then - n else n in
          if (- 2 ^ 63 <=? v) && (v <=? 2 ^ 63 - 1) then Ok v
          else Err ("strconv.Atoi: parsing " ++ s ++ ": value out of range")
      end
  end.

End strconv.

(** The last statements of [CloneAllRepos]:
[[
	if os.Getenv("GHORG_DONT_EXIT_UNDER_TEST") != "true" {
		if os.Getenv("GHORG_EXIT_CODE_ON_CLONE_INFOS") != "0" && cloneInfosCount > 0 {
			exitCode, err := strconv.Atoi(os.Getenv("GHORG_EXIT_CODE_ON_CLONE_INFOS"))
			if err != nil { ...; os.Exit(1) }
			os.Exit(exitCode)
		}
	}
	if os.Getenv("GHORG_DONT_EXIT_UNDER_TEST") != "true" {
		if cloneErrorsCount > 0 {
			exitCode, err := strconv.Atoi(os.Getenv("GHORG_EXIT_CODE_ON_CLONE_ISSUES"))
			if err != nil { ...; os.Exit(1) }
			os.Exit(exitCode)
		}
	} else {
		cloneErrorsCount = 0
	}
]] *)
Definition exitOnCloneInfos (env : gmap string string) (cloneInfosCount : Z) : outcome unit :=
  if negb (String.eqb (Getenv env "GHORG_DONT_EXIT_UNDER_TEST") "true")
  then
    if negb (String.eqb (Getenv env "GHORG_EXIT_CODE_ON_CLONE_INFOS") "0")
       && (cloneInfosCount >? 0)
    then match strconv.Atoi (Getenv env "GHORG_EXIT_CODE_ON_CLONE_INFOS") with
         | Err _ => Exits 1
         | Ok exitCode => Exits exitCode
         end
    else Returns tt
  else Returns tt.

Definition exitOnCloneIssues (env : gmap string string) (cloneErrorsCount : Z) : outcome unit :=
  if negb (String.eqb (Getenv env "GHORG_DONT_EXIT_UNDER_TEST") "true")
  then
    if cloneErrorsCount >? 0
    then match strconv.Atoi (Getenv env "GHORG_EXIT_CODE_ON_CLONE_ISSUES") with
         | Err _ => Exits 1
         | Ok exitCode => Exits exitCode
         end
    else Returns tt
  else Returns tt.

Definition cloneAllReposExit (env : gmap string string)
    (cloneInfosCount cloneErrorsCount : Z) : outcome unit :=
  match exitOnCloneInfos env cloneInfosCount with
  | Returns _ => exitOnCloneIssues env cloneErrorsCount
  | Exits c => Exits c
  | Panics m => Panics m
  end.

(** The exit code of the process: when [CloneAllRepos] returns,
    [CloneCommand.Run] returns 0 and [main] passes it to [os.Exit]; a
    panic ends a Go program with status 2. *)
Definition processExitCode (env : gmap string string)
    (cloneInfosCount cloneErrorsCount : Z) : Z :=
  match cloneAllReposExit env cloneInfosCount cloneErrorsCount with
  | Returns _ => 0
  | Exits c => c
  | Panics _ => 2
  end.

(** ** The stats recorder *)

(** Files by the path they are opened with.  Every path below comes out
    of [filepath.Join]. *)
Abbreviation FileStore := (gmap string string).

Definition getGhorgStatsFilePath (env : gmap string string) : string :=
  let absolutePath := Getenv env "GHORG_ABSOLUTE_PATH_TO_CLONE_TO" in
  if String.eqb (Getenv env "GHORG_PRESERVE_SCM_HOSTNAME") "true"
  then filepath.Join [Getenv env "GHORG_ORIGINAL_ABSOLUTE_PATH_TO_CLONE_TO"; "_ghorg_stats.csv"]
  else filepath.Join [absolutePath; "_ghorg_stats.csv"].

(** [bufio.MaxScanTokenSize]: a first line of this many bytes or more
    makes the scanner fail with [ErrTooLong]. *)
Definition MaxScanTokenSize : Z := 64 * 1024.

Definition dropCR (line : string) : string :=
  match String.rev line with
  | String "013" r => String.rev r
  | _ => line
  end.

(** [readFirstLine]: the first token of a [bufio.Scanner] with the default
    line splitter; [""] for an empty file. *)
Definition readFirstLine (files : FileStore) (filePath : string) : result string :=
  match files !! filePath with
  | None => Err ("open " ++ filePath ++ ": no such file or directory")
  | Some content =>
      if String.eqb content "" then Ok ""
      else
        let i := strings.IndexByte content "010" in
        let n := if i <? 0 then strings.len content else i in
        if n >=? MaxScanTokenSize then Err "bufio.Scanner: token too long"
        else Ok (dropCR (strings.take (Z.to_nat n) content))
  end.

(** [os.OpenFile(path, O_APPEND|O_CREATE|O_WRONLY)] followed by
    [WriteString]: the file is created empty when absent, and the string
    goes at its end. *)
Definition appendCreate (files : FileStore) (path data : string) : FileStore :=
  <[path := (default "" (files !! path) ++ data)%string]> files.

(** [os.OpenFile(path, O_APPEND|O_WRONLY)]: the file must exist. *)
Definition appendExisting (files : FileStore) (path data : string) : result FileStore :=
  match files !! path with
  | Some content => Ok (<[path := (content ++ data)%string]> files)
  | None => Err ("open " ++ path ++ ": no such file or directory")
  end.

Definition header : string :=
  "datetime,clonePath,scm,cloneType,cloneTarget,totalCount,newClonesCount,existingResourcesPulledCount,dirSizeInMB,newCommits,syncedCount,cloneInfosCount,cloneErrorsCount,updateRemoteCount,pruneCount,hasCollisions,ghorgignore,ghorgonly,totalDurationSeconds,ghorgVersion"
  ++ String "010" "".

Definition hexDigit (n : N) : ascii :=
  match n with
  | 0 => "0" | 1 => "1" | 2 => "2" | 3 => "3" | 4 => "4" | 5 => "5"
  | 6 => "6" | 7 => "7" | 8 => "8" | 9 => "9" | 10 => "a" | 11 => "b"
  | 12 => "c" | 13 => "d" | 14 => "e" | _ => "f"
  end%N%char.

(** [fmt.Sprintf("%x", bytes)]: two lower-case hexadecimal digits a byte. *)
Fixpoint hex (bytes : string) : string :=
  match bytes with
  | "" => ""
  | String c rest =>
      let n := N_of_ascii c in
      String (hexDigit (n / 16)) (String (hexDigit (n mod 16)) (hex rest))
  end.

Definition fmtBool (b : bool) : string := if b then "true" else "false".

(** What [writeGhorgStats] reads besides its arguments: package variables
    and helpers of other packages.  [cachedDirSizeMB] is a float; the row
    takes it already printed with [%.2f]. *)
Record StatsGlobals : Type := mkStatsGlobals {
  outputDirAbsolutePath : string;
  targetCloneSource : string;
  cachedDirSizeMB_2f : string;
  GhorgIgnoreDetected : bool;
  GhorgOnlyDetected : bool;
  GetVersion : string
}.

(** The arguments of [writeGhorgStats]. *)
Record StatsRow : Type := mkStatsRow {
  date : string;
  allReposToCloneCount : Z;
  cloneCount : Z;
  pulledCount : Z;
  cloneInfosCount : Z;
  cloneErrorsCount : Z;
  updateRemoteCount : Z;
  newCommits : Z;
  syncedCount : Z;
  pruneCount : Z;
  totalDurationSeconds : Z;
  hasCollisions : bool
}.

Definition statsData (env : gmap string string) (g : StatsGlobals) (a : StatsRow) : string :=
  strings.Join
    [date a; outputDirAbsolutePath g; Getenv env "GHORG_SCM_TYPE";
     Getenv env "GHORG_CLONE_TYPE"; targetCloneSource g;
     pretty (allReposToCloneCount a); pretty (cloneCount a); pretty (pulledCount a);
     cachedDirSizeMB_2f g; pretty (newCommits a); pretty (syncedCount a);
     pretty (cloneInfosCount a); pretty (cloneErrorsCount a);
     pretty (updateRemoteCount a); pretty (pruneCount a);
     fmtBool (hasCollisions a); fmtBool (GhorgIgnoreDetected g);
     fmtBool (GhorgOnlyDetected g); pretty (totalDurationSeconds a); GetVersion g]
    ","
  ++ String "010" "".

Section Stats.

(** [sha256.Sum256], from the standard library: the 32-byte digest. *)
Variable Sum256 : string -> string.

Definition newHeaderFilePath (env : gmap string string) : string :=
  filepath.Join [Getenv env "GHORG_ABSOLUTE_PATH_TO_CLONE_TO";
                 "ghorg_stats_new_header_" ++ hex (Sum256 header) ++ ".csv"].

(** [writeGhorgStats]: the returned error and the files afterwards. *)
Definition writeGhorgStats (env : gmap string string) (g : StatsGlobals)
    (a : StatsRow) (files : FileStore) : option error * FileStore :=
  let statsFilePath := getGhorgStatsFilePath env in
  let fileExists := bool_decide (is_Some (files !! statsFilePath)) in
  let data := statsData env g a in
  if fileExists then
    match readFirstLine files statsFilePath with
    | Err e => (Some e, files)
    | Ok existingHeader =>
        if negb (String.eqb (existingHeader ++ String "010" "") header)
        then
          let files1 := appendCreate files (newHeaderFilePath env) header in
          (None, appendCreate files1 (newHeaderFilePath env) data)
        else
          match appendExisting files statsFilePath data with
          | Err e => (Some e, files)
          | Ok files1 => (None, files1)
          end
    end
  else
    let files1 := appendCreate files statsFilePath header in
    (None, appendCreate files1 statsFilePath data).

End Stats.

(** ** Name collisions *)

(** [[
func hasRepoNameCollisions(repos []scm.Repo) (map[string]bool, bool) {
	repoNameWithCollisions := make(map[string]bool)
	if os.Getenv("GHORG_GITLAB_TOKEN") == "" { return repoNameWithCollisions, false }
	if os.Getenv("GHORG_PRESERVE_DIRECTORY_STRUCTURE") == "true" { return repoNameWithCollisions, false }
	hasCollisions := false
	for _, repo := range repos {
		if repo.IsGitLabSnippet { continue }
		if repo.IsWiki { continue }
		if _, ok := repoNameWithCollisions[repo.Name]; ok {
			repoNameWithCollisions[repo.Name] = true
			hasCollisions = true
		} else {
			repoNameWithCollisions[repo.Name] = false
		}
	}
	return repoNameWithCollisions, hasCollisions
}
]] *)
Fixpoint collisionLoop (repos : list Repo) (repoNameWithCollisions : gmap string bool)
    (hasCollisions : bool) : gmap string bool * bool :=
  match repos with
  | [] => (repoNameWithCollisions, hasCollisions)
  | repo :: rest =>
      if IsGitLabSnippet repo then collisionLoop rest repoNameWithCollisions hasCollisions
      else if IsWiki repo then collisionLoop rest repoNameWithCollisions hasCollisions
      else match repoNameWithCollisions !! Name repo with
           | Some _ => collisionLoop rest (<[Name repo := true]> repoNameWithCollisions) true
           | None => collisionLoop rest (<[Name repo := false]> repoNameWithCollisions) hasCollisions
           end
  end.

Definition hasRepoNameCollisions (env : gmap string string) (repos : list Repo)
  : gmap string bool * bool :=
  if String.eqb (Getenv env "GHORG_GITLAB_TOKEN") "" then (∅, false)
  else if String.eqb (Getenv env "GHORG_PRESERVE_DIRECTORY_STRUCTURE") "true" then (∅, false)
  else collisionLoop repos ∅ false.

(** [[
func getAppNameFromURL(url string) string {
	withGit := strings.Split(url, "/")
	appName := withGit[len(withGit)-1]
	split := strings.Split(appName, ".")
	return strings.Join(split[0:len(split)-1], ".")
}
]] *)
Definition getAppNameFromURL (url : string) : string :=
  let withGit := strings.Split url "/" in
  let appName := List.last withGit "" in
  let split := strings.Split appName "." in
  strings.Join (removelast split) ".".

Definition isPathSegmentSafe (seg : string) : bool :=
  strings.IndexByte seg "/" <? 0.

(** The slug [CloneAllRepos] computes for a repository before it hands it
    to the processor. *)
Definition repoSlugOf (env : gmap string string) (repo : Repo) : string :=
  if String.eqb (Getenv env "GHORG_SCM_TYPE") "sourcehut" then Name repo
  else if IsGitLabSnippet repo && negb (IsGitLabRootLevelSnippet repo)
  then getAppNameFromURL (URLOfRepo repo)
  else if IsGitLabRootLevelSnippet repo then Name repo
  else getAppNameFromURL (URL repo).

(** Modelled from the spec: the collision resolution of the Path Planner,
    which the repository does in [RepositoryProcessor.ProcessRepository];
    that file is not among the sources.  Section 4.4: "HostPath = root /
    safe(Repo.Name)"; "for every non-snippet non-wiki repo whose short
    Name collides with another, appends the namespace path to
    disambiguate.  Colliding names that would exceed a platform-safe
    length (248 characters) are truncated at the last underscore inside
    the limit."  Section 9: the collision map is "a mapping from short name
    to a boolean collided flag built in one pass before dispatch; the
    Processor reads but does not write it".  The suffix is the Repo's
    [Path] with its separators turned into underscores. *)
Definition namespaceSuffix (repo : Repo) : string :=
  strings.ReplaceAllByte (Path repo) "/" "_".

Definition planSlug (repoNameWithCollisions : gmap string bool) (hasCollisions : bool)
    (repo : Repo) (repoSlug : string) : outcome string :=
  if hasCollisions && negb (IsGitLabSnippet repo) && negb (IsWiki repo)
     && default false (repoNameWithCollisions !! Name repo)
  then trimCollisionFilename (repoSlug ++ "_" ++ namespaceSuffix repo)
  else Returns repoSlug.

Definition planHostPath (outputDirAbsolutePath : string)
    (repoNameWithCollisions : gmap string bool) (hasCollisions : bool)
    (repo : Repo) (repoSlug : string) : outcome string :=
  match planSlug repoNameWithCollisions hasCollisions repo repoSlug with
  | Returns slug => Returns (filepath.Join [outputDirAbsolutePath; slug])
  | Exits c => Exits c
  | Panics m => Panics m
  end.

(** The destinations of a kept set: the collision map is built once, then
    every repository gets its slug from [CloneAllRepos] (its [Path] under
    directory preservation) and its destination from the planner. *)
Definition planAll (env : gmap string string) (outputDirAbsolutePath : string)
    (repos : list Repo) : list (outcome string) :=
  let (repoNameWithCollisions, hasCollisions) := hasRepoNameCollisions env repos in
  map (fun repo =>
         let repoSlug := repoSlugOf env repo in
         let repoSlug :=
           if negb (String.eqb (Path repo) "")
              && String.eqb (Getenv env "GHORG_PRESERVE_DIRECTORY_STRUCTURE") "true"
           then Path repo else repoSlug in
         planHostPath outputDirAbsolutePath repoNameWithCollisions hasCollisions
                      repo repoSlug)
      repos.

(** ** Git repositories

    What the two backends read and change: the clones on disk, by their
    directory, and the remotes, by their URL.  A commit is known by its
    hash; the object store maps a commit to its parents.  [HEAD] is
    either attached to a branch or detached at a commit, and
    [refs/remotes/origin/HEAD], when present, is a symbolic reference.
    All other references hold a hash. *)

Module git.

Definition Hash := string.

Inductive StatusCode : Type :=
| Unmodified | Untracked | Modified | Added | Deleted | Renamed | Copied
| UpdatedButUnmerged.

Record FileStatus : Type := mkFileStatus {
  Staging : StatusCode;
  Worktree : StatusCode
}.

(** The working tree: the commit whose files were last checked out, and
    what differs from it, file by file. *)
Record WorkTree : Type := mkWorkTree {
  tree : Hash;
  status : list (string * FileStatus)
}.

Inductive HeadState : Type :=
| OnBranch (branch : string)    (* HEAD is the symbolic ref refs/heads/<branch> *)
| Detached (commit : Hash).

Record Repository : Type := mkRepository {
  HEAD : HeadState;
  refs : gmap string Hash;
  originHEAD : option string;        (* target of refs/remotes/origin/HEAD *)
  commits : gmap Hash (list Hash);
  remotes : gmap string (list string);  (* remote name to its URLs *)
  upstreams : gmap string string;    (* branch to the ref it tracks *)
  worktree : option WorkTree         (* None: a bare repository *)
}.

Record Remote : Type := mkRemote {
  heads : gmap string Hash;          (* branch name to commit *)
  remoteHEAD : option string;        (* the ref the remote's HEAD names *)
  remoteCommits : gmap Hash (list Hash)
}.

(** State-changing Git operations, as they are issued. *)
Inductive Action : Type :=
| RanFetch (dir branch : string)
| RanMerge (dir rev : string)
| RanReset (dir : string) (commit : Hash)
| RanSetRef (dir name : string) (commit : Hash).

Record Host : Type := mkHost {
  env : gmap string string;
  disk : gmap string Repository;
  network : gmap string Remote;
  journal : list Action
}.

Definition withRepo (h : Host) (dir : string) (r : Repository) (a : Action) : Host :=
  mkHost (env h) (<[dir := r]> (disk h)) (network h) (journal h ++ [a])%list.

Definition note (h : Host) (a : Action) : Host :=
  mkHost (env h) (disk h) (network h) (journal h ++ [a])%list.

Definition setRef (r : Repository) (name : string) (c : Hash) : Repository :=
  mkRepository (HEAD r) (<[name := c]> (refs r)) (originHEAD r) (commits r)
               (remotes r) (upstreams r) (worktree r).

Definition parentsOf (g : gmap Hash (list Hash)) (c : Hash) : list Hash :=
  default [] (g !! c).

Fixpoint reaches (fuel : nat) (g : gmap Hash (list Hash)) (from : list Hash)
    (target : Hash) : bool :=
  match fuel with
  | O => false
  | S fuel' =>
      existsb (String.eqb target) from
      || reaches fuel' g (flat_map (parentsOf g) from) target
  end.

(** [a] is [b] or one of its ancestors.  A path without repetition
    passes through at most [size g] commits that have parents. *)
Definition isAncestor (g : gmap Hash (list Hash)) (a b : Hash) : bool :=
  reaches (S (size g)) g [b] a.

(** What a fetch of [branch] from [origin] does to a clone. *)
Definition fetched (r : Repository) (rm : Remote) (branch : string) (c : Hash)
  : Repository :=
  mkRepository (HEAD r) (<[("refs/remotes/origin/" ++ branch)%string := c]> (refs r))
               (originHEAD r) (commits r ∪ remoteCommits rm)
               (remotes r) (upstreams r) (worktree r).

Definition isUntracked (e : string * FileStatus) : bool :=
  match Staging (snd e), Worktree (snd e) with
  | Untracked, Untracked => true
  | _, _ => false
  end.

(** The branch [HEAD] is attached to, or [HEAD] itself, set to [c], and
    index and files made those of [c]; untracked files stay. *)
Definition moveHead (r : Repository) (c : Hash) : Repository :=
  let wt := match worktree r with
            | Some w => Some (mkWorkTree c (List.filter isUntracked (status w)))
            | None => None
            end in
  match HEAD r with
  | OnBranch b =>
      mkRepository (HEAD r) (<[("refs/heads/" ++ b)%string := c]> (refs r))
                   (originHEAD r) (commits r) (remotes r) (upstreams r) wt
  | Detached _ =>
      mkRepository (Detached c) (refs r) (originHEAD r) (commits r)
                   (remotes r) (upstreams r) wt
  end.

Definition statusCodeToChar (code : StatusCode) : string :=
  match code with
  | Unmodified => " "
  | Untracked => "?"
  | Modified => "M"
  | Added => "A"
  | Deleted => "D"
  | Renamed => "R"
  | Copied => "C"
  | UpdatedButUnmerged => "U"
  end.

Definition isUnmodified (code : StatusCode) : bool :=
  match code with Unmodified => true | _ => false end.

(** One line for each file that is not unmodified on both sides. *)
Fixpoint statusLines (st : list (string * FileStatus)) : string :=
  match st with
  | [] => ""
  | (file, s) :: rest =>
      if negb (isUnmodified (Staging s)) || negb (isUnmodified (Worktree s))
      then statusCodeToChar (Staging s) ++ statusCodeToChar (Worktree s) ++ " "
           ++ file ++ String "010" "" ++ statusLines rest
      else statusLines rest
  end.

Definition wrap (msg : string) (e : error) : error := msg ++ ": " ++ e.

End git.

(** ** The library backend: go-git, then [goGitClient]

    The calls of the go-git library that [goGitClient] makes, on the model
    above, and then the methods of [goGitClient] themselves. *)

Module gogit.
Import git.

Inductive Reference : Type :=
| HashReference (name : string) (hash : Hash)
| SymbolicReference (name target : string).

Definition isSymbolic (ref : Reference) : bool :=
  match ref with SymbolicReference _ _ => true | HashReference _ _ => false end.
Definition refName (ref : Reference) : string :=
  match ref with SymbolicReference n _ => n | HashReference n _ => n end.
Definition refHash (ref : Reference) : Hash :=
  match ref with SymbolicReference _ _ => "" | HashReference _ c => c end.
Definition refTarget (ref : Reference) : string :=
  match ref with SymbolicReference _ t => t | HashReference _ _ => "" end.

(** [ReferenceName.Short]: the name without its [refs/heads/],
    [refs/tags/], [refs/remotes/] or [refs/] prefix. *)
Definition Short (name : string) : string :=
  if strings.HasPrefix name "refs/heads/" then strings.TrimPrefix name "refs/heads/"
  else if strings.HasPrefix name "refs/tags/" then strings.TrimPrefix name "refs/tags/"
  else if strings.HasPrefix name "refs/remotes/" then strings.TrimPrefix name "refs/remotes/"
  else strings.TrimPrefix name "refs/".

Definition IsBranch (name : string) : bool := strings.HasPrefix name "refs/heads/".

Definition PlainOpen (h : Host) (path : string) : result Repository :=
  match disk h !! path with
  | Some r => Ok r
  | None => Err "repository does not exist"
  end.

(** [r.Storer.Reference(name)]: the reference as stored. *)
Definition storerReference (r : Repository) (name : string) : result Reference :=
  if String.eqb name "HEAD" then
    match HEAD r with
    | OnBranch b => Ok (SymbolicReference "HEAD" ("refs/heads/" ++ b))
    | Detached c => Ok (HashReference "HEAD" c)
    end
  else
    match (if String.eqb name "refs/remotes/origin/HEAD" then originHEAD r else None) with
    | Some target => Ok (SymbolicReference name target)
    | None =>
        match refs r !! name with
        | Some c => Ok (HashReference name c)
        | None => Err "reference not found"
        end
    end.

Definition MaxResolveRecursion : nat := 1024.

Fixpoint resolveReference (fuel : nat) (r : Repository) (ref : Reference)
  : result Reference :=
  match ref with
  | HashReference _ _ => Ok ref
  | SymbolicReference _ target =>
      match fuel with
      | O => Err "max. recursion level reached"
      | S fuel' =>
          match storerReference r target with
          | Err e => Err e
          | Ok t => resolveReference fuel' r t
          end
      end
  end.

(** [r.Reference(name, resolved)]. *)
Definition Reference_ (r : Repository) (name : string) (resolved : bool)
  : result Reference :=
  match storerReference r name with
  | Err e => Err e
  | Ok ref => if resolved then resolveReference (S MaxResolveRecursion) r ref else Ok ref
  end.

(** [r.Head()]. *)
Definition Head (r : Repository) : result Reference := Reference_ r "HEAD" true.

(** [r.Remote(name)], giving the URLs of its configuration. *)
Definition RemoteURLs (r : Repository) (name : string) : result (list string) :=
  match remotes r !! name with
  | Some urls => Ok urls
  | None => Err "remote not found"
  end.

(** [rem.List]: the references the remote advertises, [HEAD] first. *)
Definition List (h : Host) (urls : list string) : result (list Reference) :=
  match urls with
  | [] => Err "remote has no URL"
  | url :: _ =>
      match network h !! url with
      | None => Err "repository not found"
      | Some rm =>
          Ok (match remoteHEAD rm with
              | Some target => [SymbolicReference "HEAD" target]
              | None => []
              end
              ++ map (fun p => HashReference ("refs/heads/" ++ fst p) (snd p))
                     (map_to_list (heads rm)))%list
      end
  end.

(** [r.CommitObject(hash)]. *)
Definition CommitObject (r : Repository) (c : Hash) : result Hash :=
  match commits r !! c with
  | Some _ => Ok c
  | None => Err "object not found"
  end.

(** [r.Worktree()]. *)
Definition Worktree_ (r : Repository) : result WorkTree :=
  match worktree r with
  | Some w => Ok w
  | None => Err "worktree not available in a bare repository"
  end.

(** [w.Reset(&ResetOptions{Commit: c, Mode: HardReset})]: the commit must
    be in the object store; the branch [HEAD] is attached to, or a
    detached [HEAD], is set to it whatever their relation, and index
    and files follow. *)
Definition ResetHard (r : Repository) (c : Hash) : result Repository :=
  match CommitObject r c with
  | Err e => Err (wrap "invalid reset option" e)
  | Ok _ => Ok (moveHead r c)
  end.

(** [r.Fetch] with the one refspec
    [+refs/heads/<b>:refs/remotes/origin/<b>]; [None] is success,
    [NoErrAlreadyUpToDate] its own error. *)
Definition NoErrAlreadyUpToDate : error := "already up-to-date".

Definition Fetch (h : Host) (r : Repository) (branch : string)
  : option error * Repository :=
  match RemoteURLs r "origin" with
  | Err e => (Some e, r)
  | Ok [] => (Some "remote has no URL", r)
  | Ok (url :: _) =>
      match network h !! url with
      | None => (Some "repository not found", r)
      | Some rm =>
          match heads rm !! branch with
          | None => (Some "couldn't find remote ref", r)
          | Some c =>
              if bool_decide (refs r !! ("refs/remotes/origin/" ++ branch)%string = Some c)
              then (Some NoErrAlreadyUpToDate, r)
              else (None, fetched r rm branch c)
          end
      end
  end.

End gogit.

Module goGitClient.
Import git gogit.

Definition GetRemoteURL (h : Host) (repo : Repo) (remote : string) : result string :=
  match PlainOpen h (HostPath repo) with
  | Err e => Err e
  | Ok r =>
      match RemoteURLs r remote with
      | Err e => Err e
      | Ok [] => Err ("no URLs configured for remote " ++ remote)
      | Ok (url :: _) => Ok url
      end
  end.

Definition ShortStatus (h : Host) (repo : Repo) : result string :=
  match PlainOpen h (HostPath repo) with
  | Err e => Err e
  | Ok r =>
      match Worktree_ r with
      | Err e => Err e
      | Ok w => Ok (strings.TrimSpace (statusLines (status w)))
      end
  end.

Definition HasLocalChanges (h : Host) (repo : Repo) : result bool :=
  match ShortStatus h repo with
  | Err e => Err e
  | Ok status => Ok (negb (String.eqb status ""))
  end.

Definition HasUnpushedCommits (h : Host) (repo : Repo) : result bool :=
  match PlainOpen h (HostPath repo) with
  | Err e => Err e
  | Ok r =>
      match Head r with
      | Err e => Err e
      | Ok head =>
          let branchName := Short (refName head) in
          let upstreamRef := "refs/remotes/origin/" ++ branchName in
          match Reference_ r upstreamRef true with
          | Err _ => Ok false   (* no upstream tracking branch *)
          | Ok upstream =>
              match CommitObject r (refHash head) with
              | Err e => Err e
              | Ok headCommit =>
                  match CommitObject r (refHash upstream) with
                  | Err e => Err (wrap "failed to get upstream commit object" e)
                  | Ok upstreamCommit =>
                      let isAnc := isAncestor (commits r) upstreamCommit headCommit in
                      Ok (isAnc && negb (String.eqb (refHash head) (refHash upstream)))
                  end
              end
          end
      end
  end.

Definition GetCurrentBranch (h : Host) (repo : Repo) : result string :=
  match PlainOpen h (HostPath repo) with
  | Err e => Err e
  | Ok r =>
      match Head r with
      | Err e => Err e
      | Ok head =>
          if IsBranch (refName head) then Ok (Short (refName head))
          else Ok (strings.take 7 (refHash head))   (* detached HEAD *)
      end
  end.

Fixpoint findRemoteHead (refs : list Reference) : option string :=
  match refs with
  | [] => None
  | ref :: rest =>
      if isSymbolic ref && String.eqb (refName ref) "HEAD"
         && strings.HasPrefix (refTarget ref) "refs/heads/"
      then Some (strings.TrimPrefix (refTarget ref) "refs/heads/")
      else findRemoteHead rest
  end.

Definition GetRemoteDefaultBranch (h : Host) (repo : Repo) : result string :=
  match PlainOpen h (HostPath repo) with
  | Err e => Err e
  | Ok r =>
      let fallback :=
        match RemoteURLs r "origin" with
        | Err e => Err (wrap "failed to get origin remote" e)
        | Ok urls =>
            match List h urls with
            | Err e => Err (wrap "failed to list remote references" e)
            | Ok refs =>
                match findRemoteHead refs with
                | Some b => Ok b
                | None => Err "could not determine default branch from remote"
                end
            end
        end in
      match Reference_ r "refs/remotes/origin/HEAD" true with
      | Ok headRef =>
          if isSymbolic headRef
          then Ok (List.last (strings.Split (Short (refTarget headRef)) "/") "")
          else fallback
      | Err _ => fallback
      end
  end.

Definition GetRefHash (h : Host) (repo : Repo) (ref : string) : result string :=
  match PlainOpen h (HostPath repo) with
  | Err e => Err e
  | Ok r =>
      match Reference_ r ref true with
      | Err e => Err e
      | Ok refObj => Ok (refHash refObj)
      end
  end.

Definition FetchCloneBranch (h : Host) (repo : Repo) : option error * Host :=
  match PlainOpen h (HostPath repo) with
  | Err e => (Some e, h)
  | Ok r =>
      let (err, r') := Fetch h r (CloneBranch repo) in
      let h' := withRepo h (HostPath repo) r' (RanFetch (HostPath repo) (CloneBranch repo)) in
      match err with
      | Some e => if String.eqb e NoErrAlreadyUpToDate then (None, h') else (Some e, h')
      | None => (None, h')
      end
  end.

(** [[
func (g goGitClient) MergeFastForward(repo scm.Repo) error {
	r, err := gogit.PlainOpen(repo.HostPath)
	if err != nil { return err }
	remoteBranch := fmt.Sprintf("refs/remotes/origin/%s", repo.CloneBranch)
	remoteRef, err := r.Reference(plumbing.ReferenceName(remoteBranch), true)
	if err != nil { return fmt.Errorf("failed to get remote branch: %w", err) }
	w, err := r.Worktree()
	if err != nil { return err }
	// Fast-forward by resetting to the remote branch commit
	return w.Reset(&gogit.ResetOptions{Commit: remoteRef.Hash(), Mode: gogit.HardReset})
}
]] *)
Definition MergeFastForward (h : Host) (repo : Repo) : option error * Host :=
  match PlainOpen h (HostPath repo) with
  | Err e => (Some e, h)
  | Ok r =>
      let remoteBranch := "refs/remotes/origin/" ++ CloneBranch repo in
      match Reference_ r remoteBranch true with
      | Err e => (Some (wrap "failed to get remote branch" e), h)
      | Ok remoteRef =>
          match Worktree_ r with
          | Err e => (Some e, h)
          | Ok _ =>
              match ResetHard r (refHash remoteRef) with
              | Err e => (Some e, note h (RanReset (HostPath repo) (refHash remoteRef)))
              | Ok r' =>
                  (None, withRepo h (HostPath repo) r'
                                  (RanReset (HostPath repo) (refHash remoteRef)))
              end
          end
      end
  end.

Definition UpdateRef (h : Host) (repo : Repo) (refName commitRef : string)
  : option error * Host :=
  match PlainOpen h (HostPath repo) with
  | Err e => (Some e, h)
  | Ok r =>
      match Reference_ r commitRef true with
      | Err e => (Some (wrap ("failed to resolve ref " ++ commitRef) e), h)
      | Ok ref =>
          (None, withRepo h (HostPath repo) (setRef r refName (refHash ref))
                          (RanSetRef (HostPath repo) refName (refHash ref)))
      end
  end.

Definition withCloneBranch (repo : Repo) (b : string) : Repo :=
  mkRepo (Name repo) (Path repo) (URL repo) (CloneURL repo) b (HostPath repo)
         (IsWiki repo) (IsGitLabSnippet repo) (IsGitLabRootLevelSnippet repo)
         (URLOfRepo repo).

(** The part of [SyncDefaultBranch] from the fetch on, the same text in
    both backends up to the methods called. *)
Definition syncFrom (h : Host) (repo : Repo) (currentBranch defaultBranch : string)
  : (bool * option error) * Host :=
  let refName := "refs/heads/" ++ defaultBranch in
  let beforeHash := match GetRefHash h repo refName with Ok x => x | Err _ => "" end in
  let repo' := withCloneBranch repo defaultBranch in
  match FetchCloneBranch h repo' with
  | (Some e, h1) => ((false, Some (wrap "failed to fetch default branch" e)), h1)
  | (None, h1) =>
      let (err, h2) :=
        if String.eqb currentBranch defaultBranch
        then let (e, h2) := MergeFastForward h1 repo' in
             (option_map (wrap "failed to merge remote changes") e, h2)
        else let commitRef := "refs/remotes/origin/" ++ defaultBranch in
             let (e, h2) := UpdateRef h1 repo refName commitRef in
             (option_map (wrap "failed to update branch reference") e, h2) in
      match err with
      | Some e => ((false, Some e), h2)
      | None =>
          match GetRefHash h2 repo refName with
          | Err _ => ((true, None), h2)
          | Ok afterHash => ((negb (String.eqb beforeHash afterHash), None), h2)
          end
      end
  end.

(** [goGitClient.SyncDefaultBranch], in the order of the source: enabled,
    origin, working directory, current branch, default branch, unpushed
    commits, and then the sync. *)
Definition SyncDefaultBranch (h : Host) (repo : Repo) : (bool * option error) * Host :=
  if negb (String.eqb (Getenv (env h) "GHORG_SYNC_DEFAULT_BRANCH") "true")
  then ((false, None), h)
  else
  match GetRemoteURL h repo "origin" with
  | Err _ => ((false, None), h)
  | Ok _ =>
  match HasLocalChanges h repo with
  | Err e => ((false, Some (wrap "failed to check working directory status" e)), h)
  | Ok true => ((false, None), h)
  | Ok false =>
  match GetCurrentBranch h repo with
  | Err e => ((false, Some (wrap "failed to get current branch" e)), h)
  | Ok currentBranch =>
  let detected :=
    match GetRemoteDefaultBranch h repo with
    | Ok b => Ok b
    | Err e => if String.eqb (CloneBranch repo) "" then Err e else Ok (CloneBranch repo)
    end in
  match detected with
  | Err e => ((false, Some (wrap "failed to determine default branch" e)), h)
  | Ok defaultBranch =>
      let unsafe :=
        if String.eqb currentBranch defaultBranch
        then match HasUnpushedCommits h repo with
             | Err _ => true
             | Ok hasUnpushedCommits => hasUnpushedCommits
             end
        else false in
      if unsafe then ((false, None), h)
      else syncFrom h repo currentBranch defaultBranch
  end end end end.

End goGitClient.

(** ** The subprocess backend: the [git] executable, then [GitClient]

    The command lines [GitClient] runs, one constructor each, with what
    the executable does on the model; then [GitClient]'s methods and
    [SyncDefaultBranch] of [sync.go].  Debug printing is left out. *)

Module gitcli.
Import git.

Inductive Command : Type :=
| RemoteGetURL (remote : string)        (* git remote get-url <remote> *)
| SymbolicRef (name : string)           (* git symbolic-ref <name> *)
| LsRemoteSymrefHEAD                    (* git ls-remote --symref origin HEAD *)
| RevParseAbbrevRefHEAD                 (* git rev-parse --abbrev-ref HEAD *)
| StatusShort                           (* git status --short *)
| RevListCountUpstreamToHEAD            (* git rev-list --count @{u}..HEAD *)
| RevParse (rev : string)               (* git rev-parse <rev> *)
| FetchOrigin (depth branch : string)   (* git fetch [--depth=<n>] origin <branch> *)
| MergeFFOnly (rev : string)            (* git merge --ff-only <rev> *)
| UpdateRefTo (name sha : string).      (* git update-ref <name> <sha> *)

Definition nl : string := String "010" "".
Definition tab : string := String "009" "".

(** The commit a reference name stands for. *)
Definition resolveName (r : Repository) (name : string) : option Hash :=
  if String.eqb name "HEAD" then
    match HEAD r with
    | OnBranch b => refs r !! ("refs/heads/" ++ b)%string
    | Detached c => Some c
    end
  else
    match (if String.eqb name "refs/remotes/origin/HEAD" then originHEAD r else None) with
    | Some target => refs r !! target
    | None => refs r !! name
    end.

Fixpoint firstResolved (r : Repository) (names : list string) : option Hash :=
  match names with
  | [] => None
  | name :: rest =>
      match resolveName r name with
      | Some c => Some c
      | None => firstResolved r rest
      end
  end.

(** A revision on the command line: the first of the reference names
    Git tries for it, or else an object name. *)
Definition revParse (r : Repository) (rev : string) : option Hash :=
  match firstResolved r
          [rev; "refs/" ++ rev; "refs/tags/" ++ rev; "refs/heads/" ++ rev;
           "refs/remotes/" ++ rev; "refs/remotes/" ++ rev ++ "/HEAD"]%string with
  | Some c => Some c
  | None => match commits r !! rev with Some _ => Some rev | None => None end
  end.

(** The commits reachable from [from] and not from [upto]. *)
Definition countBetween (r : Repository) (upto from : Hash) : Z :=
  Z.of_nat (length (List.filter
    (fun p => isAncestor (commits r) (fst p) from
              && negb (isAncestor (commits r) (fst p) upto))
    (map_to_list (commits r)))).

Definition hasTrackedChanges (w : WorkTree) : bool :=
  existsb (fun e => negb (isUntracked e)
                    && (negb (isUnmodified (Staging (snd e)))
                        || negb (isUnmodified (Worktree (snd e)))))
          (status w).

(** Running a command in directory [dir]: what it prints on standard
    output when it exits with status 0, an error otherwise, and the
    host afterwards. *)
Definition run (cmd : Command) (dir : string) (h : Host) : result string * Host :=
  match disk h !! dir with
  | None => (Err "exit status 128", h)   (* not a git repository *)
  | Some r =>
      match cmd with
      | RemoteGetURL remote =>
          match remotes r !! remote with
          | Some (url :: _) => (Ok (url ++ nl), h)
          | _ => (Err "exit status 2", h)
          end
      | SymbolicRef name =>
          if String.eqb name "HEAD" then
            match HEAD r with
            | OnBranch b => (Ok ("refs/heads/" ++ b ++ nl), h)
            | Detached _ => (Err "exit status 128", h)
            end
          else if String.eqb name "refs/remotes/origin/HEAD" then
            match originHEAD r with
            | Some target => (Ok (target ++ nl), h)
            | None => (Err "exit status 128", h)
            end
          else (Err "exit status 128", h)
      | LsRemoteSymrefHEAD =>
          match remotes r !! "origin" with
          | Some (url :: _) =>
              match network h !! url with
              | Some rm =>
                  match remoteHEAD rm with
                  | Some target =>
                      (Ok ("ref: " ++ target ++ tab ++ "HEAD" ++ nl
                           ++ match heads rm !! strings.TrimPrefix target "refs/heads/" with
                              | Some c => c ++ tab ++ "HEAD" ++ nl
                              | None => ""
                              end), h)
                  | None => (Ok "", h)
                  end
              | None => (Err "exit status 128", h)
              end
          | _ => (Err "exit status 128", h)
          end
      | RevParseAbbrevRefHEAD =>
          match HEAD r with
          | OnBranch b =>
              match refs r !! ("refs/heads/" ++ b)%string with
              | Some _ => (Ok (b ++ nl), h)
              | None => (Err "exit status 128", h)
              end
          | Detached _ => (Ok ("HEAD" ++ nl), h)
          end
      | StatusShort =>
          match worktree r with
          | Some w => (Ok (statusLines (status w)), h)
          | None => (Err "exit status 128", h)
          end
      | RevListCountUpstreamToHEAD =>
          match HEAD r with
          | OnBranch b =>
              match upstreams r !! b, refs r !! ("refs/heads/" ++ b)%string with
              | Some u, Some c =>
                  match refs r !! u with
                  | Some cu => (Ok (pretty (countBetween r cu c) ++ nl), h)
                  | None => (Err "exit status 128", h)
                  end
              | _, _ => (Err "exit status 128", h)
              end
          | Detached _ => (Err "exit status 128", h)
          end
      | RevParse rev =>
          match revParse r rev with
          | Some c => (Ok (c ++ nl), h)
          | None => (Err "exit status 128", h)
          end
      | FetchOrigin _ branch =>
          let h' := note h (RanFetch dir branch) in
          match remotes r !! "origin" with
          | Some (url :: _) =>
              match network h !! url with
              | Some rm =>
                  match heads rm !! branch with
                  | Some c => (Ok "", withRepo h dir (fetched r rm branch c)
                                               (RanFetch dir branch))
                  | None => (Err "exit status 128", h')
                  end
              | None => (Err "exit status 128", h')
              end
          | _ => (Err "exit status 128", h')
          end
      | MergeFFOnly rev =>
          let h' := note h (RanMerge dir rev) in
          match worktree r, revParse r rev, resolveName r "HEAD" with
          | Some w, Some theirs, Some ours =>
              if isAncestor (commits r) theirs ours
              then (Ok ("Already up to date." ++ nl), h')
              else if isAncestor (commits r) ours theirs
              then if hasTrackedChanges w
                   then (Err "exit status 1", h')
                   else (Ok ("Fast-forward" ++ nl),
                         withRepo h dir (moveHead r theirs) (RanMerge dir rev))
              else (Err "exit status 128", h')   (* Not possible to fast-forward *)
          | _, _, _ => (Err "exit status 128", h')
          end
      | UpdateRefTo name sha =>
          match commits r !! sha with
          | Some _ => (Ok "", withRepo h dir (setRef r name sha) (RanSetRef dir name sha))
          | None => (Err "exit status 128", note h (RanSetRef dir name sha))
          end
      end
  end.

End gitcli.

Module GitClient.
Import git gitcli.

(** [runGitCommand]: the error of the command. *)
Definition runGitCommand (cmd : Command) (repo : Repo) (h : Host) : option error * Host :=
  match run cmd (HostPath repo) h with
  | (Ok _, h') => (None, h')
  | (Err e, h') => (Some e, h')
  end.

(** [runGitCommandWithOutput]: the output, trimmed. *)
Definition runGitCommandWithOutput (cmd : Command) (repo : Repo) (h : Host)
  : result string * Host :=
  match run cmd (HostPath repo) h with
  | (Ok output, h') => (Ok (strings.TrimSpace output), h')
  | (Err e, h') => (Err e, h')
  end.

Definition GetRemoteURL (h : Host) (repo : Repo) (remote : string) : result string :=
  fst (runGitCommandWithOutput (RemoteGetURL remote) repo h).

Definition ShortStatus (h : Host) (repo : Repo) : result string :=
  fst (runGitCommandWithOutput StatusShort repo h).

Definition HasLocalChanges (h : Host) (repo : Repo) : result bool :=
  match ShortStatus h repo with
  | Err e => Err e
  | Ok status => Ok (negb (String.eqb status ""))
  end.

Definition HasUnpushedCommits (h : Host) (repo : Repo) : result bool :=
  match fst (runGitCommandWithOutput RevListCountUpstreamToHEAD repo h) with
  | Err e => Err e
  | Ok output =>
      match strconv.Atoi output with
      | Err e => Err (wrap "failed to parse unpushed commit count" e)
      | Ok count => Ok (count >? 0)
      end
  end.

Definition GetCurrentBranch (h : Host) (repo : Repo) : result string :=
  fst (runGitCommandWithOutput RevParseAbbrevRefHEAD repo h).

Definition GetRefHash (h : Host) (repo : Repo) (ref : string) : result string :=
  fst (runGitCommandWithOutput (RevParse ref) repo h).

Fixpoint findSymrefLine (lines : list string) : option string :=
  match lines with
  | [] => None
  | line :: rest =>
      let trimmed := strings.TrimSpace line in
      let next := findSymrefLine rest in
      if strings.HasPrefix trimmed "ref:" && strings.Contains trimmed "refs/heads/"
      then match strings.Fields trimmed with
           | _ :: refPath :: _ =>
               if strings.HasPrefix refPath "refs/heads/"
               then Some (strings.TrimPrefix refPath "refs/heads/")
               else next
           | _ => next
           end
      else next
  end.

Definition GetRemoteDefaultBranch (h : Host) (repo : Repo) : result string :=
  match fst (runGitCommandWithOutput (SymbolicRef "refs/remotes/origin/HEAD") repo h) with
  | Ok output =>
      Ok (List.last (strings.Split (strings.TrimSpace output) "/") "")
  | Err _ =>
      match fst (runGitCommandWithOutput LsRemoteSymrefHEAD repo h) with
      | Err e => Err e
      | Ok output =>
          match findSymrefLine (strings.Split output "010") with
          | Some b => Ok b
          | None => Err "could not determine default branch from ls-remote output"
          end
      end
  end.

Definition FetchCloneBranch (h : Host) (repo : Repo) : option error * Host :=
  runGitCommand (FetchOrigin (Getenv (env h) "GHORG_CLONE_DEPTH") (CloneBranch repo)) repo h.

(** [[
func (g GitClient) MergeFastForward(repo scm.Repo) error {
	remoteBranch := fmt.Sprintf("origin/%s", repo.CloneBranch)
	cmd := exec.Command("git", "merge", "--ff-only", remoteBranch)
	cmd.Dir = repo.HostPath
	return runGitCommand(cmd, repo)
}
]] *)
Definition MergeFastForward (h : Host) (repo : Repo) : option error * Host :=
  runGitCommand (MergeFFOnly ("origin/" ++ CloneBranch repo)) repo h.

Definition UpdateRef (h : Host) (repo : Repo) (refName commitRef : string)
  : option error * Host :=
  match runGitCommandWithOutput (RevParse commitRef) repo h with
  | (Err e, h1) => (Some (wrap ("failed to resolve ref " ++ commitRef) e), h1)
  | (Ok sha, h1) => runGitCommand (UpdateRefTo refName sha) repo h1
  end.

Definition syncFrom (h : Host) (repo : Repo) (currentBranch defaultBranch : string)
  : (bool * option error) * Host :=
  let refName := "refs/heads/" ++ defaultBranch in
  let beforeHash := match GetRefHash h repo refName with Ok x => x | Err _ => "" end in
  let repo' := goGitClient.withCloneBranch repo defaultBranch in
  match FetchCloneBranch h repo' with
  | (Some e, h1) => ((false, Some (wrap "failed to fetch default branch" e)), h1)
  | (None, h1) =>
      let (err, h2) :=
        if String.eqb currentBranch defaultBranch
        then let (e, h2) := MergeFastForward h1 repo' in
             (option_map (wrap "failed to merge remote changes") e, h2)
        else let commitRef := "refs/remotes/origin/" ++ defaultBranch in
             let (e, h2) := UpdateRef h1 repo refName commitRef in
             (option_map (wrap "failed to update branch reference") e, h2) in
      match err with
      | Some e => ((false, Some e), h2)
      | None =>
          match GetRefHash h2 repo refName with
          | Err _ => ((true, None), h2)
          | Ok afterHash => ((negb (String.eqb beforeHash afterHash), None), h2)
          end
      end
  end.

(** [GitClient.SyncDefaultBranch] of [sync.go], in the order of the
    source: enabled, origin, default branch, current branch, working
    directory, unpushed commits, and then the sync. *)
Definition SyncDefaultBranch (h : Host) (repo : Repo) : (bool * option error) * Host :=
  if negb (String.eqb (Getenv (env h) "GHORG_SYNC_DEFAULT_BRANCH") "true")
  then ((false, None), h)
  else
  match GetRemoteURL h repo "origin" with
  | Err _ => ((false, None), h)
  | Ok _ =>
  let detected :=
    match GetRemoteDefaultBranch h repo with
    | Ok b => Ok b
    | Err e => if String.eqb (CloneBranch repo) "" then Err e else Ok (CloneBranch repo)
    end in
  match detected with
  | Err e => ((false, Some (wrap "failed to determine default branch" e)), h)
  | Ok defaultBranch =>
  match GetCurrentBranch h repo with
  | Err e => ((false, Some (wrap "failed to get current branch" e)), h)
  | Ok currentBranch =>
  match HasLocalChanges h repo with
  | Err e => ((false, Some (wrap "failed to check working directory status" e)), h)
  | Ok true => ((false, None), h)
  | Ok false =>
      let unsafe :=
        if String.eqb currentBranch defaultBranch
        then match HasUnpushedCommits h repo with
             | Err _ => true
             | Ok hasUnpushedCommits => hasUnpushedCommits
             end
        else false in
      if unsafe then ((false, None), h)
      else syncFrom h repo currentBranch defaultBranch
  end end end end.

End GitClient.

(** ** The [Gitter] interface and the choice of backend *)

(** The operations of the interface that the claims are about. *)
Record Gitter : Type := mkGitter {
  GetRemoteURL : git.Host -> Repo -> string -> result string;
  GetRemoteDefaultBranch : git.Host -> Repo -> result string;
  GetCurrentBranch : git.Host -> Repo -> result string;
  HasLocalChanges : git.Host -> Repo -> result bool;
  HasUnpushedCommits : git.Host -> Repo -> result bool;
  GetRefHash : git.Host -> Repo -> string -> result string;
  FetchCloneBranch : git.Host -> Repo -> option error * git.Host;
  MergeFastForward : git.Host -> Repo -> option error * git.Host;
  UpdateRef : git.Host -> Repo -> string -> string -> option error * git.Host;
  SyncDefaultBranch : git.Host -> Repo -> (bool * option error) * git.Host
}.

Definition execGit : Gitter :=
  mkGitter GitClient.GetRemoteURL GitClient.GetRemoteDefaultBranch
    GitClient.GetCurrentBranch GitClient.HasLocalChanges GitClient.HasUnpushedCommits
    GitClient.GetRefHash GitClient.FetchCloneBranch GitClient.MergeFastForward
    GitClient.UpdateRef GitClient.SyncDefaultBranch.

Definition goGit : Gitter :=
  mkGitter goGitClient.GetRemoteURL goGitClient.GetRemoteDefaultBranch
    goGitClient.GetCurrentBranch goGitClient.HasLocalChanges goGitClient.HasUnpushedCommits
    goGitClient.GetRefHash goGitClient.FetchCloneBranch goGitClient.MergeFastForward
    goGitClient.UpdateRef goGitClient.SyncDefaultBranch.

(** [[
func NewGit() Gitter {
	backend := os.Getenv(envGitBackend)
	switch backend {
	case BackendExec: return GitClient{}
	default: return GoGitClient()
	}
}
]] *)
Definition NewGit (env : gmap string string) : Gitter :=
  if String.eqb (Getenv env "GHORG_GIT_BACKEND") "exec" then execGit else goGit.

(** The default branch [SyncDefaultBranch] works with: the one the remote
    declares, or else the configured [CloneBranch] when it is not empty. *)
Definition defaultBranchOf (g : Gitter) (h : git.Host) (repo : Repo) : result string :=
  match GetRemoteDefaultBranch g h repo with
  | Ok b => Ok b
  | Err e => if String.eqb (CloneBranch repo) "" then Err e else Ok (CloneBranch repo)
  end.

Definition syncEnabled (h : git.Host) : bool :=
  String.eqb (Getenv (git.env h) "GHORG_SYNC_DEFAULT_BRANCH") "true".

(** The part of [SyncDefaultBranch] from the fetch on, over the
    interface: what [GitClient.syncFrom] and [goGitClient.syncFrom] are
    for the two backends. *)
Definition syncFromWith (g : Gitter) (h : git.Host) (repo : Repo)
    (currentBranch defaultBranch : string) : (bool * option error) * git.Host :=
  let refName := "refs/heads/" ++ defaultBranch in
  let beforeHash := match GetRefHash g h repo refName with Ok x => x | Err _ => "" end in
  let repo' := goGitClient.withCloneBranch repo defaultBranch in
  match FetchCloneBranch g h repo' with
  | (Some e, h1) => ((false, Some (git.wrap "failed to fetch default branch" e)), h1)
  | (None, h1) =>
      let (err, h2) :=
        if String.eqb currentBranch defaultBranch
        then let (e, h2) := MergeFastForward g h1 repo' in
             (option_map (git.wrap "failed to merge remote changes") e, h2)
        else let commitRef := "refs/remotes/origin/" ++ defaultBranch in
             let (e, h2) := UpdateRef g h1 repo refName commitRef in
             (option_map (git.wrap "failed to update branch reference") e, h2) in
      match err with
      | Some e => ((false, Some e), h2)
      | None =>
          match GetRefHash g h2 repo refName with
          | Err _ => ((true, None), h2)
          | Ok afterHash => ((negb (String.eqb beforeHash afterHash), None), h2)
          end
      end
  end.

Definition isFetchOrSetRef (a : git.Action) : bool :=
  match a with
  | git.RanFetch _ _ | git.RanSetRef _ _ _ => true
  | git.RanMerge _ _ | git.RanReset _ _ => false
  end.

(* ================================================================== *)
(** * Inputs of the examples, and notions the statements use *)
(* ================================================================== *)

Definition testTree : node :=
  Dir [("tmp", Dir [("out", Dir [
     ("prunnable", Dir [(".git", Dir [])]);
     ("repository", Dir [(".git", Dir []); ("submodule", Dir [(".git", File "gitdir: ../.git/modules/submodule")])])])])].

Module Fixture.
Import git.

Definition X : Hash := "1111111111111111111111111111111111111111".
Definition Y : Hash := "2222222222222222222222222222222222222222".
Definition L : Hash := "3333333333333333333333333333333333333333".
Definition url : string := "https://example.com/org/repo.git".
Definition dir : string := "/clones/org/repo".

Definition origin : Remote :=
  mkRemote {[ "main" := Y ]} (Some "refs/heads/main") {[ X := []; Y := [X] ]}.

Definition repo : Repo :=
  mkRepo "repo" "org/repo" url url "main" dir false false false "".

(** On [main] at [X], clean, in step with [origin/main]. *)
Definition onDefault : Repository :=
  mkRepository (OnBranch "main")
    {[ "refs/heads/main" := X; "refs/remotes/origin/main" := X ]}
    (Some "refs/remotes/origin/main") {[ X := [] ]}
    {[ "origin" := [url] ]} {[ "main" := "refs/remotes/origin/main" ]}
    (Some (mkWorkTree X [])).

(** On [feature], also at [X]. *)
Definition onFeature : Repository :=
  mkRepository (OnBranch "feature")
    {[ "refs/heads/main" := X; "refs/heads/feature" := X;
       "refs/remotes/origin/main" := X ]}
    (Some "refs/remotes/origin/main") {[ X := [] ]}
    {[ "origin" := [url] ]} {[ "main" := "refs/remotes/origin/main" ]}
    (Some (mkWorkTree X [])).

(** On [main] with a local commit [L] on top of [X] that was never
    pushed, while [origin/main] already points to [Y]. *)
Definition diverged : Repository :=
  mkRepository (OnBranch "main")
    {[ "refs/heads/main" := L; "refs/remotes/origin/main" := Y ]}
    (Some "refs/remotes/origin/main") {[ X := []; Y := [X]; L := [X] ]}
    {[ "origin" := [url] ]} {[ "main" := "refs/remotes/origin/main" ]}
    (Some (mkWorkTree L [])).

Definition dirty (r : Repository) : Repository :=
  mkRepository (HEAD r) (refs r) (originHEAD r) (commits r) (remotes r) (upstreams r)
    (Some (mkWorkTree X [("README.md", mkFileStatus Unmodified Modified)])).

Definition host (r : Repository) : Host :=
  mkHost {[ "GHORG_SYNC_DEFAULT_BRANCH" := "true" ]} {[ dir := r ]} {[ url := origin ]} [].

Definition after (res : (bool * option error) * Host) : option Repository :=
  disk (snd res) !! dir.

End Fixture.

Definition infosAndIssuesEnv : gmap string string :=
  {[ "GHORG_EXIT_CODE_ON_CLONE_INFOS" := "3"; "GHORG_EXIT_CODE_ON_CLONE_ISSUES" := "1" ]}.

Definition onlyInfosEnv : gmap string string :=
  {[ "GHORG_EXIT_CODE_ON_CLONE_INFOS" := "7"; "GHORG_EXIT_CODE_ON_CLONE_ISSUES" := "4" ]}.

Definition containedIn (outputDirAbsolutePath repository : string) : bool :=
  strings.HasPrefix (filepath.Join [outputDirAbsolutePath; repository]) outputDirAbsolutePath.

Definition afterAbort {A : Type} (r : outcome (Z * bool)) : outcome A :=
  match r with
  | Returns _ => Exits 1
  | Exits c => Exits c
  | Panics m => Panics m
  end.

(** A clone root with three clones, none of them on the remote any more,
    and a user who answers yes, then no. *)
Definition threeClones : node :=
  Dir [("clones", Dir [("org", Dir [
     ("a", Dir [(".git", Dir [])]);
     ("b", Dir [(".git", Dir [])]);
     ("c", Dir [(".git", Dir [])])])])].

Definition yesThenNo : World :=
  mkWorld threeClones [] ["y" ++ String "010" ""; "no" ++ String "010" ""; "y" ++ String "010" ""] [] [].

(** What one visited entry contributes to the list of repositories. *)
Definition repositoryOf (fs : node) (out : string) (v : string * node) : list string :=
  if negb (String.eqb (fst v) out) && IsDir (snd v) && isGitRepository fs (fst v)
  then match filepath.Rel out (fst v) with
       | Ok rel => [rel]
       | Err _ => []
       end
  else [].

Definition isCandidate (targets : list Repo) (rel : string) : bool :=
  negb (sliceContainsNamedRepo targets rel).

Definition keptRepository : Repo := mkRepo "repository" "/repository" "" "" "" "" false false false "".

Definition noConfirmEnv : gmap string string := {[ "GHORG_PRUNE_NO_CONFIRM" := "true" ]}.

Definition lastElem (path : string) : string := List.last (strings.Split path "/") "".

Definition sideFileName (digest : string) : string :=
  "ghorg_stats_new_header_" ++ hex digest ++ ".csv".

(** A stats file written under an older, shorter header. *)
Definition oldHeader : string := "datetime,clonePath,scm" ++ String "010" "".
Definition oldStats : gmap string string :=
  {[ "/clones/_ghorg_stats.csv" := oldHeader ++ "2023-12-01 15:04:05,/clones/org,github" ++ String "010" "" ]}.
Definition statsEnv : gmap string string :=
  {[ "GHORG_ABSOLUTE_PATH_TO_CLONE_TO" := "/clones/"; "GHORG_SCM_TYPE" := "github";
     "GHORG_CLONE_TYPE" := "org" ]}.
Definition someGlobals : StatsGlobals := mkStatsGlobals "/clones/org" "org" "12.50" false false "v1.0.0".
Definition someRow : StatsRow := mkStatsRow "2024-01-01 10:00:00" 5 3 2 1 0 1 10 0 0 45 false.
Definition fakeDigest (s : string) : string := "ab".

Definition eligible (repo : Repo) : bool :=
  negb (IsGitLabSnippet repo) && negb (IsWiki repo).

Definition noTokenEnv : gmap string string :=
  {[ "GHORG_SCM_TYPE" := "gitlab"; "GHORG_NO_TOKEN" := "true" ]}.
Definition appOfTeamA : Repo :=
  mkRepo "app" "group/team-a/app" "https://gitlab.example.com/group/team-a/app.git"
         "https://gitlab.example.com/group/team-a/app.git" "main" "" false false false "".
Definition appOfTeamB : Repo :=
  mkRepo "app" "group/team-b/app" "https://gitlab.example.com/group/team-b/app.git"
         "https://gitlab.example.com/group/team-b/app.git" "main" "" false false false "".

Definition tokenEnv : gmap string string :=
  {[ "GHORG_SCM_TYPE" := "gitlab"; "GHORG_GITLAB_TOKEN" := "glpat-example" ]}.

(** A clone made from an empty remote, with a file edited since, on a
    machine that cannot reach the remote; no branch was configured. *)
Definition offlineDirty : git.Repository :=
  git.mkRepository (git.OnBranch "main") {[ "refs/heads/main" := Fixture.X ]} None
    {[ Fixture.X := [] ]} {[ "origin" := [Fixture.url] ]} ∅
    (Some (git.mkWorkTree Fixture.X [("README.md", git.mkFileStatus git.Unmodified git.Modified)])).

Definition offlineHost : git.Host :=
  git.mkHost {[ "GHORG_SYNC_DEFAULT_BRANCH" := "true"; "GHORG_GIT_BACKEND" := "exec" ]}
    {[ Fixture.dir := offlineDirty ]} ∅ [].

Definition repoWithoutBranch : Repo :=
  mkRepo "repo" "org/repo" Fixture.url Fixture.url "" Fixture.dir false false false "".

Ltac sync_finish :=
  intros; cbn [fst snd] in *;
  repeat match goal with
         | H : Ok _ = Ok _ |- _ => injection H as H
         | H : Err _ = Ok _ |- _ => discriminate H
         | H : Ok _ = Err _ |- _ => discriminate H
         | H : true = false |- _ => discriminate H
         | H : false = true |- _ => discriminate H
         | H : ?x <> ?x |- _ => destruct (H eq_refl)
         end;
  subst; rewrite ?String.eqb_refl; cbn [fst snd];
  try reflexivity; try congruence.

(** A string that does not start with white space. *)
Definition noLeadingSpace (s : string) : Prop :=
  match s with
  | "" => True
  | String c _ => strings.isSpace c = false
  end.

Ltac by_prefix :=
  let E := fresh "E" in
  intros E; apply (f_equal (strings.take 6)) in E; discriminate E.

(* ================================================================== *)
(** * More of [clone.go] *)
(* ================================================================== *)

(** [[
func getCloneableInventory(allRepos []scm.Repo) (int, int, int, int) {
	var wikis, snippets, repos, total int
	for _, repo := range allRepos {
		if repo.IsGitLabSnippet {
			snippets++
		} else if repo.IsWiki {
			wikis++
		} else {
			repos++
		}
	}
	total = repos + snippets + wikis
	return total, repos, snippets, wikis
}
]] *)
Fixpoint inventoryLoop (allRepos : list Repo) (wikis snippets repos : Z) : Z * Z * Z :=
  match allRepos with
  | [] => (wikis, snippets, repos)
  | repo :: rest =>
      if IsGitLabSnippet repo then inventoryLoop rest wikis (snippets + 1) repos
      else if IsWiki repo then inventoryLoop rest (wikis + 1) snippets repos
      else inventoryLoop rest wikis snippets (repos + 1)
  end.

Definition getCloneableInventory (allRepos : list Repo) : Z * Z * Z * Z :=
  let '(wikis, snippets, repos) := inventoryLoop allRepos 0 0 0 in
  let total := repos + snippets + wikis in
  (total, repos, snippets, wikis).






(** The number of eligible repositories named [n] in a list. *)
Definition occurrences (n : string) (repos : list Repo) : nat :=
  length (List.filter (fun r => eligible r && String.eqb (Name r) n) repos).

(** What [hasRepoNameCollisions] records for a name that occurs [k]
    times. *)
Definition collisionMark (k : nat) : option bool :=
  match k with
  | O => None
  | 1%nat => Some false
  | _ => Some true
  end.

(** The count [printDryRun] prints when pruning is on and the clone root
    is a directory:
[[
	if os.Getenv("GHORG_PRUNE") == "true" {
		if stat, err := os.Stat(outputDirAbsolutePath); err == nil && stat.IsDir() {
			repositories, err := getRelativePathRepositories(outputDirAbsolutePath)
			if err != nil {
				log.Fatal(err)
			}
			eligibleForPrune := 0
			for _, repository := range repositories {
				if !sliceContainsNamedRepo(repos, repository) {
					eligibleForPrune++
					...
				}
			}
			colorlog.PrintSuccess(fmt.Sprintf("Local clones eligible for pruning: %d", eligibleForPrune))
		}
	}
]] *)
Fixpoint eligibleForPruneLoop (repos : list Repo) (repositories : list string)
    (eligibleForPrune : Z) : Z :=
  match repositories with
  | [] => eligibleForPrune
  | repository :: rest =>
      if negb (sliceContainsNamedRepo repos repository)
      then eligibleForPruneLoop repos rest (eligibleForPrune + 1)
      else eligibleForPruneLoop repos rest eligibleForPrune
  end.

(** [printDryRun]: the count printed, [None] when nothing is scanned. *)
Definition printDryRun (env : gmap string string) (outputDirAbsolutePath : string)
    (repos : list Repo) (fs : node) : outcome (option Z) :=
  if String.eqb (Getenv env "GHORG_PRUNE") "true" then
    match Stat fs outputDirAbsolutePath with
    | Some stat =>
        if IsDir stat then
          match getRelativePathRepositories fs outputDirAbsolutePath outputDirAbsolutePath with
          | Err _ => Exits 1
          | Ok repositories => Returns (Some (eligibleForPruneLoop repos repositories 0))
          end
        else Returns None
    | None => Returns None
    end
  else Returns None.


Definition longName : string :=
  repeat_byte "a" 100 ++ "_" ++ repeat_byte "b" 100 ++ "_" ++ repeat_byte "c" 100.

Definition pruneEnv : gmap string string :=
  {[ "GHORG_PRUNE" := "true"; "GHORG_PRUNE_NO_CONFIRM" := "true" ]}.

Ltac pair_eq :=
  repeat match goal with |- (_, _) = (_, _) => apply f_equal2 end.

Definition badExitEnv : gmap string string :=
  {[ "GHORG_EXIT_CODE_ON_CLONE_INFOS" := "three"; "GHORG_EXIT_CODE_ON_CLONE_ISSUES" := "1" ]}.

(* ================================================================== *)
(** * More of [git.go]: the command lines *)
(* ================================================================== *)

Definition isDebugMode (env : gmap string string) : bool :=
  negb (String.eqb (Getenv env "GHORG_DEBUG") "").
Definition getCloneDepth (env : gmap string string) : string :=
  Getenv env "GHORG_CLONE_DEPTH".
Definition includeSubmodules (env : gmap string string) : bool :=
  String.eqb (Getenv env "GHORG_INCLUDE_SUBMODULES") "true".
Definition getGitFilter (env : gmap string string) : string :=
  Getenv env "GHORG_GIT_FILTER".
Definition isBackupMode (env : gmap string string) : bool :=
  String.eqb (Getenv env "GHORG_BACKUP") "true".

(** [[
func insertArg(args []string, index int, arg string) []string {
	args = append(args[:index+1], args[index:]...)
	args[index] = arg
	return args
}
]]
    A slice is given by its elements and its capacity.  The slice
    expression [args[:index+1]] may reach past the length, up to the
    capacity; [args[index:]] may not.  Where both are in range, [append]
    shifts the elements from [index] on by one place, in the same array
    or in a new one, and the assignment fills the gap. *)
Definition insertArg (args : list string) (capacity : Z) (index : Z) (arg : string)
  : outcome (list string) :=
  if (0 <=? index + 1) && (index + 1 <=? capacity)
  then if (0 <=? index) && (index <=? Z.of_nat (length args))
       then Returns (firstn (Z.to_nat index) args ++ arg :: skipn (Z.to_nat index) args)%list
       else Panics "slice bounds out of range"
  else Panics "slice bounds out of range".

Definition andThen {A B : Type} (r : outcome A) (k : A -> outcome B) : outcome B :=
  match r with
  | Returns a => k a
  | Exits c => Exits c
  | Panics m => Panics m
  end.

Section CommandLines.

(** The capacity the run time gave a slice with these elements; it is at
    least the length, and that of a composite literal is its length. *)
Variable capacityOf : list string -> Z.

Definition insertIf (cond : bool) (args : list string) (arg : string)
  : outcome (list string) :=
  if cond then insertArg args (capacityOf args) 1 arg else Returns args.

(** [[
func (g GitClient) Clone(repo scm.Repo) error {
	args := []string{"clone", repo.CloneURL, repo.HostPath}
	if includeSubmodules() {
		args = insertArg(args, 1, "--recursive")
	}
	if depth := getCloneDepth(); depth != "" {
		args = insertArg(args, 1, fmt.Sprintf("--depth=%s", depth))
	}
	if filter := getGitFilter(); filter != "" {
		args = insertArg(args, 1, fmt.Sprintf("--filter=%s", filter))
	}
	if isBackupMode() {
		args = append(args, "--mirror")
	}
	cmd := exec.Command("git", args...)
	return runGitCommand(cmd, repo)
}
]] *)
Definition cloneArgs (env : gmap string string) (repo : Repo) : outcome (list string) :=
  let args := ["clone"; CloneURL repo; HostPath repo] in
  andThen (insertIf (includeSubmodules env) args "--recursive") (fun args =>
  andThen (insertIf (negb (String.eqb (getCloneDepth env) "")) args
             ("--depth=" ++ getCloneDepth env)) (fun args =>
  andThen (insertIf (negb (String.eqb (getGitFilter env) "")) args
             ("--filter=" ++ getGitFilter env)) (fun args =>
  Returns (if isBackupMode env then args ++ ["--mirror"] else args)%list))).

(** [[
func (g GitClient) Pull(repo scm.Repo) error {
	args := []string{"pull", "origin", repo.CloneBranch}
	if includeSubmodules() {
		args = insertArg(args, 1, "--recurse-submodules")
	}
	if depth := getCloneDepth(); depth != "" {
		args = insertArg(args, 1, fmt.Sprintf("--depth=%s", depth))
	}
	...
}
]] *)
Definition pullArgs (env : gmap string string) (repo : Repo) : outcome (list string) :=
  let args := ["pull"; "origin"; CloneBranch repo] in
  andThen (insertIf (includeSubmodules env) args "--recurse-submodules") (fun args =>
  insertIf (negb (String.eqb (getCloneDepth env) "")) args
    ("--depth=" ++ getCloneDepth env)).

(** [[
func (g GitClient) FetchAll(repo scm.Repo) error {
	args := []string{"fetch", "--all"}
	if depth := getCloneDepth(); depth != "" {
		args = insertArg(args, 1, fmt.Sprintf("--depth=%s", depth))
	}
	...
}
]] *)
Definition fetchAllArgs (env : gmap string string) : outcome (list string) :=
  insertIf (negb (String.eqb (getCloneDepth env) "")) ["fetch"; "--all"]
    ("--depth=" ++ getCloneDepth env).

(** [[
func (g GitClient) FetchCloneBranch(repo scm.Repo) error {
	args := []string{"fetch", "origin", repo.CloneBranch}
	if depth := getCloneDepth(); depth != "" {
		args = insertArg(args, 1, fmt.Sprintf("--depth=%s", depth))
	}
	...
}
]] *)
Definition fetchCloneBranchArgs (env : gmap string string) (repo : Repo)
  : outcome (list string) :=
  insertIf (negb (String.eqb (getCloneDepth env) "")) ["fetch"; "origin"; CloneBranch repo]
    ("--depth=" ++ getCloneDepth env).

End CommandLines.

(** The flag a setting contributes to a command line, if it is set. *)
Definition flagIf (cond : bool) (flag : string) : list string :=
  if cond then [flag] else [].

(** A string without white space. *)
Fixpoint noSpace (s : string) : bool :=
  match s with
  | "" => true
  | String c s' => negb (strings.isSpace c) && noSpace s'
  end.

(** A file that is not as it was committed, or is not tracked. *)
Definition isChanged (e : string * git.FileStatus) : bool :=
  negb (git.isUnmodified (git.Staging (snd e)))
  || negb (git.isUnmodified (git.Worktree (snd e))).

(** Inputs of the examples. *)
Definition fullCloneEnv : gmap string string :=
  {[ "GHORG_INCLUDE_SUBMODULES" := "true"; "GHORG_CLONE_DEPTH" := "1";
     "GHORG_GIT_FILTER" := "blob:none"; "GHORG_BACKUP" := "true" ]}.

Definition withUntracked (r : git.Repository) : git.Repository :=
  git.mkRepository (git.HEAD r) (git.refs r) (git.originHEAD r) (git.commits r)
    (git.remotes r) (git.upstreams r)
    (Some (git.mkWorkTree Fixture.X [("notes.txt", git.mkFileStatus git.Untracked git.Untracked)])).

Definition execEnv : gmap string string :=
  {[ "GHORG_SYNC_DEFAULT_BRANCH" := "true"; "GHORG_GIT_BACKEND" := "exec" ]}.

Definition execHost (r : git.Repository) : git.Host :=
  git.mkHost execEnv {[ Fixture.dir := r ]} {[ Fixture.url := Fixture.origin ]} [].

(** A clone whose [origin/HEAD] names the branch [release/1.0]. *)
Definition onRelease : git.Repository :=
  git.mkRepository (git.OnBranch "release/1.0")
    {[ "refs/heads/release/1.0" := Fixture.X; "refs/remotes/origin/release/1.0" := Fixture.X ]}
    (Some "refs/remotes/origin/release/1.0") {[ Fixture.X := [] ]}
    {[ "origin" := [Fixture.url] ]} ∅ (Some (git.mkWorkTree Fixture.X [])).

(** In the clone at [dir], branch [b] is checked out and points to [c] or
    to a descendant of [c]. *)
Definition movedForward (b : string) (c : git.Hash) (dir : string) (h' : git.Host) : Prop :=
  exists r' c',
    git.disk h' !! dir = Some r'
    /\ git.HEAD r' = git.OnBranch b
    /\ git.refs r' !! ("refs/heads/" ++ b)%string = Some c'
    /\ (c' = c \/ git.isAncestor (git.commits r') c c' = true).

(* ================================================================== *)
(** * More of [clone.go]: the ignore file *)
(* ================================================================== *)

(** The tokens a [bufio.Scanner] with the default line splitter delivers
    for a file, given the pieces between its line feeds, and the error it
    ends with: a piece of [MaxScanTokenSize] bytes or more stops it with
    [ErrTooLong]; nothing is delivered for the empty piece after a final
    line feed; a carriage return at the end of a line is dropped. *)
Fixpoint scanTokens (parts : list string) : list string * option error :=
  match parts with
  | [] => ([], None)
  | [final] =>
      if String.eqb final "" then ([], None)
      else if strings.len final >=? MaxScanTokenSize
      then ([], Some "bufio.Scanner: token too long")
      else ([dropCR final], None)
  | p :: rest =>
      if strings.len p >=? MaxScanTokenSize
      then ([], Some "bufio.Scanner: token too long")
      else let (tokens, err) := scanTokens rest in (dropCR p :: tokens, err)
  end.

(** [[
	var lines []string
	scanner := bufio.NewScanner(file)
	for scanner.Scan() {
		if scanner.Text() != "" {
			lines = append(lines, scanner.Text())
		}
	}
	return lines, scanner.Err()
]]
    the body shared by [readGhorgIgnore], [readGhorgOnly] and
    [readTargetReposFile], on the content of the opened file. *)
Definition readLines (content : string) : list string * option error :=
  let (tokens, err) := scanTokens (strings.Split content "010") in
  (List.filter (fun text => negb (String.eqb text "")) tokens, err).

(** The inner loop of [filterByGhorgignore], with its variable [flag]. *)
Fixpoint ignoreFlag (url : string) (toIgnore : list string) (flag : bool) : bool :=
  match toIgnore with
  | [] => flag
  | ignore :: rest =>
      ignoreFlag url rest (if strings.Contains url ignore then true else flag)
  end.

(** The outer loop, with [filteredCloneTargets]. *)
Fixpoint ghorgignoreLoop (toIgnore : list string) (cloneTargets filteredCloneTargets : list Repo)
  : list Repo :=
  match cloneTargets with
  | [] => filteredCloneTargets
  | cloned :: rest =>
      let flag := ignoreFlag (URL cloned) toIgnore false in
      ghorgignoreLoop toIgnore rest
        (if negb flag then filteredCloneTargets ++ [cloned] else filteredCloneTargets)%list
  end.

Section Ghorgignore.

(** [configs.GhorgIgnoreLocation()], of another package: the path of the
    ignore file. *)
Variable GhorgIgnoreLocation : string.

(** [[
func filterByGhorgignore(cloneTargets []scm.Repo) []scm.Repo {
	_, err := os.Stat(configs.GhorgIgnoreLocation())
	if !os.IsNotExist(err) {
		toIgnore, err := readGhorgIgnore()
		if err != nil {
			colorlog.PrintErrorAndExit(...)
		}
		filteredCloneTargets := []scm.Repo{}
		var flag bool
		for _, cloned := range cloneTargets {
			flag = false
			for _, ignore := range toIgnore {
				if strings.Contains(cloned.URL, ignore) {
					flag = true
				}
			}
			if !flag {
				filteredCloneTargets = append(filteredCloneTargets, cloned)
			}
		}
		cloneTargets = filteredCloneTargets
	}
	return cloneTargets
}
]] *)
Definition filterByGhorgignore (files : FileStore) (cloneTargets : list Repo)
  : outcome (list Repo) :=
  match files !! GhorgIgnoreLocation with
  | None => Returns cloneTargets
  | Some content =>
      let (toIgnore, err) := readLines content in
      match err with
      | Some _ => Exits 1
      | None => Returns (ghorgignoreLoop toIgnore cloneTargets [])
      end
  end.

End Ghorgignore.

(** The lines of an ignore file that count: the pieces between line
    feeds, without a final carriage return, that are not empty. *)
Definition ignoreLines (content : string) : list string :=
  List.filter (fun text => negb (String.eqb text ""))
    (map dropCR (strings.Split content "010")).

Definition ignored (toIgnore : list string) (repo : Repo) : bool :=
  existsb (strings.Contains (URL repo)) toIgnore.

Definition ignoreFile : string :=
  "archived" ++ String "013" (String "010" "") ++ String "010" "" ++ "team-b/" ++ String "010" "".

(** A user who answers yes three times, in three spellings. *)
Definition allYes : World :=
  mkWorld threeClones []
    ["y" ++ String "010" ""; " YES " ++ String "010" ""; "Yes" ++ String "013" (String "010" "")]
    [] [].

(* ================================================================== *)
(** * More of the library backend *)
(* ================================================================== *)

(** [[
func (g goGitClient) getHTTPAuth() *http.BasicAuth {
	tokens := []string{
		"GHORG_GITHUB_TOKEN",
		"GHORG_GITLAB_TOKEN",
		"GHORG_GITEA_TOKEN",
		"GHORG_BITBUCKET_APP_PASSWORD",
	}
	for _, tokenEnv := range tokens {
		if token := os.Getenv(tokenEnv); token != "" {
			username := "x-access-token"
			if tokenEnv == "GHORG_BITBUCKET_APP_PASSWORD" {
				username = os.Getenv("GHORG_BITBUCKET_USERNAME")
			}
			return &http.BasicAuth{Username: username, Password: token}
		}
	}
	return nil
}
]] *)
Record BasicAuth : Type := mkBasicAuth {
  Username : string;
  Password : string
}.

Fixpoint httpAuthLoop (env : gmap string string) (tokens : list string) : option BasicAuth :=
  match tokens with
  | [] => None
  | tokenEnv :: rest =>
      let token := Getenv env tokenEnv in
      if negb (String.eqb token "") then
        let username :=
          if String.eqb tokenEnv "GHORG_BITBUCKET_APP_PASSWORD"
          then Getenv env "GHORG_BITBUCKET_USERNAME"
          else "x-access-token" in
        Some (mkBasicAuth username token)
      else httpAuthLoop env rest
  end.

Definition getHTTPAuth (env : gmap string string) : option BasicAuth :=
  httpAuthLoop env
    ["GHORG_GITHUB_TOKEN"; "GHORG_GITLAB_TOKEN"; "GHORG_GITEA_TOKEN";
     "GHORG_BITBUCKET_APP_PASSWORD"].

Definition twoTokensEnv : gmap string string :=
  {[ "GHORG_GITLAB_TOKEN" := "glpat-1"; "GHORG_BITBUCKET_APP_PASSWORD" := "app-2";
     "GHORG_BITBUCKET_USERNAME" := "alice" ]}.

(* ================================================================== *)
(** * Theorems *)
(* ================================================================== *)

Example trim_short : trimCollisionFilename "group_sub_repo" = Returns "group_sub_repo".
Proof. reflexivity. Qed.

Example trim_long :
  trimCollisionFilename (repeat_byte "a" 100 ++ "_" ++ repeat_byte "b" 100 ++ "_" ++ repeat_byte "c" 100)
  = Returns (repeat_byte "a" 100 ++ "_" ++ repeat_byte "b" 100).
Proof. vm_compute. reflexivity. Qed.

Example trim_no_underscore :
  trimCollisionFilename (repeat_byte "a" 249) = Panics "slice bounds out of range".
Proof. vm_compute. reflexivity. Qed.

Example clean_examples :
  map filepath.Clean ["/a/b/"; "/a//b/./c/.."; ""; "/.."; "a/../../b"; "/"]
  = ["/a/b"; "/a/b"; "."; "/"; "../b"; "/"].
Proof. vm_compute. reflexivity. Qed.

Example rel_examples :
  map (filepath.Rel "/tmp/out") ["/tmp/out/repository"; "/tmp/out/deeply/nested/repository"; "/tmp/out"; "/tmp"; "/tmp/x/y"]
  = [Ok "repository"; Ok "deeply/nested/repository"; Ok "."; Ok ".."; Ok "../x/y"].
Proof. vm_compute. reflexivity. Qed.

Example rel_root : filepath.Rel "/" "/a/b" = Ok "a/b".
Proof. vm_compute. reflexivity. Qed.

Example walk_test :
  getRelativePathRepositories testTree "/tmp/out" "/tmp/out" = Ok ["prunnable"; "repository"].
Proof. vm_compute. reflexivity. Qed.

Example prune_test :
  let w := mkWorld testTree [] [] [] [] in
  let r := pruneRepos {[ "GHORG_PRUNE_NO_CONFIRM" := "true" ]} "/tmp/out"
             [mkRepo "repository" "/repository" "" "" "" "" false false false ""] w in
  fst r = Returns 1 /\ removed (snd r) = ["/tmp/out/prunnable"]
  /\ Stat (fs (snd r)) "/tmp/out/prunnable" = None
  /\ isGitRepository (fs (snd r)) "/tmp/out/repository" = true.
Proof. vm_compute. repeat split; reflexivity. Qed.

Example atoi_examples :
  map strconv.Atoi ["0"; "7"; "-3"; "+12"; "00"]
  = [Ok 0; Ok 7; Ok (-3); Ok 12; Ok 0]
  /\ (exists e, strconv.Atoi "" = Err e) /\ (exists e, strconv.Atoi "1x" = Err e).
Proof. vm_compute. eauto. Qed.

Example app_name : getAppNameFromURL "https://gitlab.com/group/sub/my.app.git" = "my.app".
Proof. vm_compute. reflexivity. Qed.

(** ** Fixtures: a clone of a remote whose default branch advanced *)

Example sync_on_default_exec :
  let res := GitClient.SyncDefaultBranch (Fixture.host Fixture.onDefault) Fixture.repo in
  fst res = (true, None)
  /\ (git.refs <$> Fixture.after res) ≫= (fun m => m !! "refs/heads/main") = Some Fixture.Y
  /\ (git.worktree <$> Fixture.after res) = Some (Some (git.mkWorkTree Fixture.Y [])).
Proof. vm_compute. repeat split; reflexivity. Qed.

Example sync_on_default_gogit :
  let res := goGitClient.SyncDefaultBranch (Fixture.host Fixture.onDefault) Fixture.repo in
  fst res = (true, None)
  /\ (git.refs <$> Fixture.after res) ≫= (fun m => m !! "refs/heads/main") = Some Fixture.Y
  /\ (git.worktree <$> Fixture.after res) = Some (Some (git.mkWorkTree Fixture.Y [])).
Proof. vm_compute. repeat split; reflexivity. Qed.

Example sync_on_feature_exec :
  let res := GitClient.SyncDefaultBranch (Fixture.host Fixture.onFeature) Fixture.repo in
  fst res = (true, None)
  /\ (git.refs <$> Fixture.after res) ≫= (fun m => m !! "refs/heads/main") = Some Fixture.Y
  /\ (git.refs <$> Fixture.after res) ≫= (fun m => m !! "refs/heads/feature") = Some Fixture.X
  /\ (git.HEAD <$> Fixture.after res) = Some (git.OnBranch "feature")
  /\ (git.worktree <$> Fixture.after res) = Some (Some (git.mkWorkTree Fixture.X [])).
Proof. vm_compute. repeat split; reflexivity. Qed.

Example sync_on_feature_gogit :
  let res := goGitClient.SyncDefaultBranch (Fixture.host Fixture.onFeature) Fixture.repo in
  fst res = (true, None)
  /\ (git.refs <$> Fixture.after res) ≫= (fun m => m !! "refs/heads/main") = Some Fixture.Y
  /\ (git.refs <$> Fixture.after res) ≫= (fun m => m !! "refs/heads/feature") = Some Fixture.X
  /\ (git.HEAD <$> Fixture.after res) = Some (git.OnBranch "feature")
  /\ (git.worktree <$> Fixture.after res) = Some (Some (git.mkWorkTree Fixture.X [])).
Proof. vm_compute. repeat split; reflexivity. Qed.

Example sync_dirty :
  fst (GitClient.SyncDefaultBranch (Fixture.host (Fixture.dirty Fixture.onDefault)) Fixture.repo) = (false, None)
  /\ fst (goGitClient.SyncDefaultBranch (Fixture.host (Fixture.dirty Fixture.onDefault)) Fixture.repo) = (false, None).
Proof. vm_compute. split; reflexivity. Qed.

Example sync_diverged_exec :
  GitClient.SyncDefaultBranch (Fixture.host Fixture.diverged) Fixture.repo
  = ((false, None), Fixture.host Fixture.diverged).
Proof. vm_compute. reflexivity. Qed.

(** ** Strings: basic facts *)

Lemma len_nonneg s : 0 <= strings.len s.
Proof. unfold strings.len. lia. Qed.

Lemma LastIndexByte_range s c :
  -1 <= strings.LastIndexByte s c < strings.len s.
Proof.
  unfold strings.len. induction s as [|a s IH]; [simpl; lia|].
  cbn [strings.LastIndexByte String.length].
  destruct (strings.LastIndexByte s c) as [|p|p]; [lia | lia |].
  destruct (Ascii.eqb a c); lia.
Qed.

Lemma length_take n s :
  (n <= String.length s)%nat -> String.length (strings.take n s) = n.
Proof.
  revert s. induction n as [|n IH]; intros [|a s] H; simpl in *; try lia.
  rewrite IH; lia.
Qed.

Lemma sapp_nil (t : string) : "" ++ t = t.
Proof. reflexivity. Qed.

Lemma sapp_cons (a : ascii) (s t : string) : String a s ++ t = String a (s ++ t).
Proof. reflexivity. Qed.

Lemma sapp_nil_r (s : string) : s ++ "" = s.
Proof. induction s as [|a s IH]; [reflexivity|]. now rewrite sapp_cons, IH. Qed.

Lemma sapp_assoc (s t u : string) : (s ++ t) ++ u = s ++ t ++ u.
Proof. induction s as [|a s IH]; [reflexivity|]. now rewrite !sapp_cons, IH. Qed.

Lemma HasPrefix_app s t : strings.HasPrefix (s ++ t) s = true.
Proof.
  induction s as [|a s IH]; [reflexivity|].
  rewrite sapp_cons. simpl. now rewrite Ascii.eqb_refl.
Qed.

Lemma HasPrefix_refl s : strings.HasPrefix s s = true.
Proof.
  induction s as [|a s IH]; simpl; [reflexivity|].
  now rewrite Ascii.eqb_refl.
Qed.

(** ** [trimCollisionFilename] *)

(** What the function does on every input: unchanged up to 248 bytes;
    beyond that, cut before the last underscore of the first 248 bytes
    when there is one, and a panic when there is none. *)
Lemma trimCollisionFilename_cases filename :
  (strings.len filename <= 248 -> trimCollisionFilename filename = Returns filename)
  /\ (248 < strings.len filename ->
      forall i, strings.LastIndexByte (strings.take 248 filename) "_" = i ->
        (0 <= i -> (i < 248
                    /\ trimCollisionFilename filename
                       = Returns (strings.take (Z.to_nat i) filename)))
        /\ (i < 0 -> trimCollisionFilename filename = Panics "slice bounds out of range")).
Proof.
  unfold trimCollisionFilename, maxLen. split.
  - intros H. destruct (strings.len filename >? 248) eqn:E; [|reflexivity].
    apply Z.gtb_lt in E. lia.
  - intros H i Hi.
    assert (E : (strings.len filename >? 248) = true) by (apply Z.gtb_lt; lia).
    rewrite E. unfold strings.slice_to.
    assert (E2 : ((0 <=? 248) && (248 <=? strings.len filename))%bool = true).
    { apply andb_true_intro. split; apply Z.leb_le; lia. }
    rewrite E2. change (Z.to_nat 248) with 248%nat. rewrite Hi.
    pose proof (LastIndexByte_range (strings.take 248 filename) "_") as R.
    rewrite Hi in R.
    assert (L : strings.len (strings.take 248 filename) = 248).
    { unfold strings.len in *. rewrite length_take; lia. }
    rewrite L in R. split.
    + intros Hpos. split; [lia|].
      assert (E3 : ((0 <=? i) && (i <=? strings.len filename))%bool = true).
      { apply andb_true_intro. split; apply Z.leb_le; lia. }
      now rewrite E3.
    + intros Hneg.
      assert (E3 : (0 <=? i) = false) by (apply Z.leb_gt; lia).
      now rewrite E3.
Qed.

(** C7: the claim says [trimCollisionFilename] is total with its slice
    indices always in bounds.  On a name of 249 bytes without an
    underscore, [strings.LastIndex] gives -1 and the slice expression
    [filename[:-1]] panics. *)
Theorem C7_trimCollisionFilename_panics :
  strings.len (repeat_byte "a" 249) = 249
  /\ strings.LastIndexByte (strings.take 248 (repeat_byte "a" 249)) "_" = -1
  /\ trimCollisionFilename (repeat_byte "a" 249) = Panics "slice bounds out of range".
Proof. vm_compute. repeat split; reflexivity. Qed.

(** ** Exit codes *)

(** C9, as stated, fails: with one info event and one error event, and
    the info exit code configured as 3, the process exits with 3 and not
    with the configured issues code 1. *)
Lemma C9_counterexample :
  strconv.Atoi (Getenv infosAndIssuesEnv "GHORG_EXIT_CODE_ON_CLONE_ISSUES") = Ok 1
  /\ processExitCode infosAndIssuesEnv 1 1 = 3
  /\ processExitCode infosAndIssuesEnv 1 1 <> 1.
Proof.
  split; [vm_compute; reflexivity|].
  split; [vm_compute; reflexivity | vm_compute; discriminate].
Qed.

(** C9, amended: outside the test mode, with the exit codes configured as
    integers, (1) with info events and no error event the exit code is
    [exit_code_on_clone_infos]; (2) with an error event and either no info
    event or [exit_code_on_clone_infos] set to ["0"], the exit code is
    [exit_code_on_clone_issues]; (3) with both kinds of event and
    [exit_code_on_clone_infos] not ["0"], the exit code is
    [exit_code_on_clone_infos]. *)
Theorem C9_exit_codes (env : gmap string string) (infos errors cInfos cIssues : Z) :
  Getenv env "GHORG_DONT_EXIT_UNDER_TEST" <> "true" ->
  strconv.Atoi (Getenv env "GHORG_EXIT_CODE_ON_CLONE_INFOS") = Ok cInfos ->
  strconv.Atoi (Getenv env "GHORG_EXIT_CODE_ON_CLONE_ISSUES") = Ok cIssues ->
  0 <= infos -> 0 <= errors ->
  (0 < infos -> errors = 0 -> processExitCode env infos errors = cInfos)
  /\ (0 < errors ->
      infos = 0 \/ Getenv env "GHORG_EXIT_CODE_ON_CLONE_INFOS" = "0" ->
      processExitCode env infos errors = cIssues)
  /\ (0 < errors -> 0 < infos ->
      Getenv env "GHORG_EXIT_CODE_ON_CLONE_INFOS" <> "0" ->
      processExitCode env infos errors = cInfos).
Proof.
  intros Htest Hi Hs Hin Her.
  unfold processExitCode, cloneAllReposExit, exitOnCloneInfos, exitOnCloneIssues.
  apply String.eqb_neq in Htest. rewrite Htest. simpl negb. cbv iota.
  rewrite Hi, Hs.
  destruct (String.eqb (Getenv env "GHORG_EXIT_CODE_ON_CLONE_INFOS") "0") eqn:E0.
  - apply String.eqb_eq in E0. rewrite E0 in Hi. vm_compute in Hi.
    injection Hi as <-. simpl.
    repeat split.
    + intros _ ->. reflexivity.
    + intros He _. assert ((errors >? 0) = true) as -> by (apply Z.gtb_lt; lia).
      reflexivity.
    + intros _ _ Hne. congruence.
  - apply String.eqb_neq in E0. simpl negb. rewrite andb_true_l.
    repeat split.
    + intros Hp ->. assert ((infos >? 0) = true) as -> by (apply Z.gtb_lt; lia).
      reflexivity.
    + intros He [-> | Hz]; [|congruence]. simpl.
      assert ((errors >? 0) = true) as -> by (apply Z.gtb_lt; lia). reflexivity.
    + intros _ Hp _. assert ((infos >? 0) = true) as -> by (apply Z.gtb_lt; lia).
      reflexivity.
Qed.

Lemma C9_exit_codes_witness :
  processExitCode onlyInfosEnv 2 0 = 7
  /\ processExitCode onlyInfosEnv 0 5 = 4
  /\ processExitCode onlyInfosEnv 2 5 = 7.
Proof.
  assert (H := C9_exit_codes onlyInfosEnv).
  split; [|split].
  - refine (proj1 (H 2 0 7 4 _ _ _ _ _) _ _);
      [vm_compute; discriminate | reflexivity | reflexivity | lia | lia | lia | reflexivity].
  - refine (proj1 (proj2 (H 0 5 7 4 _ _ _ _ _)) _ _);
      [vm_compute; discriminate | reflexivity | reflexivity | lia | lia | lia | left; reflexivity].
  - refine (proj2 (proj2 (H 2 5 7 4 _ _ _ _ _)) _ _ _);
      [vm_compute; discriminate | reflexivity | reflexivity | lia | lia | lia | lia
      | vm_compute; discriminate].
Defined.

(** ** The pruner *)

(** The loop over two stretches of repositories is the loop over the
    first, resumed over the second. *)
Lemma pruneLoop_app targets out noConfirm pre post count agrees w :
  pruneLoop targets out noConfirm (pre ++ post)%list count agrees w
  = match pruneLoop targets out noConfirm pre count agrees w with
    | (Returns (c1, a1), w1) => pruneLoop targets out noConfirm post c1 a1 w1
    | other => other
    end.
Proof.
  revert count agrees w.
  induction pre as [|r pre IH]; intros count agrees w; [reflexivity|].
  rewrite <- app_comm_cons. cbn [pruneLoop].
  destruct (negb (strings.HasPrefix (filepath.Join [out; r]) out)); [reflexivity|].
  destruct (agrees && negb (sliceContainsNamedRepo targets r)); [|apply IH].
  destruct (if noConfirm then _ else _) as [[[]|c|m] w1]; try reflexivity; [|apply IH].
  destruct (RemoveAll w1 (filepath.Join [out; r])) as [[e|] w2]; [reflexivity|apply IH].
Qed.

(** Every path the loop hands to [os.RemoveAll] passed the containment
    check, and is the join of the clone root with a listed repository. *)
Lemma pruneLoop_removed targets out noConfirm repositories count agrees w :
  exists new,
    removed (snd (pruneLoop targets out noConfirm repositories count agrees w))
    = (removed w ++ new)%list
    /\ Forall (fun p => strings.HasPrefix p out = true
                        /\ exists rel, In rel repositories /\ p = filepath.Join [out; rel])
              new.
Proof.
  revert count agrees w.
  induction repositories as [|r rest IH]; intros count agrees w.
  - exists []. split; [now rewrite app_nil_r | constructor].
  - assert (weaken : forall new,
      Forall (fun p => strings.HasPrefix p out = true
                       /\ exists rel, In rel rest /\ p = filepath.Join [out; rel]) new ->
      Forall (fun p => strings.HasPrefix p out = true
                       /\ exists rel, In rel (r :: rest) /\ p = filepath.Join [out; rel]) new).
    { intros new HF. eapply Forall_impl; [exact HF|]. intros p [Hp [rel [Hin ->]]].
      split; [exact Hp|]. exists rel. split; [now right | reflexivity]. }
    cbn [pruneLoop].
    destruct (negb (strings.HasPrefix (filepath.Join [out; r]) out)) eqn:Hc.
    { exists []. split; [now rewrite app_nil_r | constructor]. }
    apply negb_false_iff in Hc.
    destruct (agrees && negb (sliceContainsNamedRepo targets r)).
    2:{ destruct (IH count agrees w) as [new [E F]]. exists new. split; [exact E | now apply weaken]. }
    destruct noConfirm.
    + unfold RemoveAll.
      destruct (existsb _ (locked w)); cbn [snd].
      * exists [filepath.Join [out; r]]. split; [reflexivity|].
        constructor; [|constructor]. split; [exact Hc|]. exists r. split; [now left | reflexivity].
      * match goal with |- context [pruneLoop _ _ _ rest ?c ?a ?w2] =>
          destruct (IH c a w2) as [new [E F]] end.
        exists (filepath.Join [out; r] :: new). cbn [removed] in E. rewrite E.
        split; [now rewrite <- app_assoc|].
        constructor; [|now apply weaken]. split; [exact Hc|]. exists r.
        split; [now left | reflexivity].
    + unfold interactiveYesNoPrompt. destruct (stdin w) as [|line lines].
      { exists []. split; [now rewrite app_nil_r | constructor]. }
      destruct (isYes line).
      * unfold RemoveAll. cbn [locked fs stdin removed prompts].
        destruct (existsb _ (locked w)); cbn [snd].
        -- exists [filepath.Join [out; r]]. split; [reflexivity|].
           constructor; [|constructor]. split; [exact Hc|]. exists r.
           split; [now left | reflexivity].
        -- match goal with |- context [pruneLoop _ _ _ rest ?c ?a ?w2] =>
             destruct (IH c a w2) as [new [E F]] end.
           exists (filepath.Join [out; r] :: new). cbn [removed] in E. rewrite E.
           split; [now rewrite <- app_assoc|].
           constructor; [|now apply weaken]. split; [exact Hc|]. exists r.
           split; [now left | reflexivity].
      * match goal with |- context [pruneLoop _ _ _ rest ?c ?a ?w2] =>
          destruct (IH c a w2) as [new [E F]] end.
        exists new. cbn [removed] in E. split; [exact E | now apply weaken].
Qed.

(** A repository that fails the containment check ends the loop there
    with exit status 1. *)
Lemma pruneLoop_abort targets out noConfirm r post count agrees w :
  containedIn out r = false ->
  pruneLoop targets out noConfirm (r :: post) count agrees w = (Exits 1, w).
Proof. unfold containedIn. intros H. cbn [pruneLoop]. now rewrite H. Qed.

(** Once [userAgreesToDelete] is false, the rest of the loop deletes
    nothing, prompts for nothing and reads nothing. *)
Lemma pruneLoop_declined targets out noConfirm repositories count w :
  snd (pruneLoop targets out noConfirm repositories count false w) = w
  /\ (fst (pruneLoop targets out noConfirm repositories count false w) = Returns (count, false)
      \/ fst (pruneLoop targets out noConfirm repositories count false w) = Exits 1).
Proof.
  induction repositories as [|r rest IH]; cbn [pruneLoop].
  - split; [reflexivity | now left].
  - destruct (negb (strings.HasPrefix (filepath.Join [out; r]) out)).
    + split; [reflexivity | now right].
    + cbn [andb]. exact IH.
Qed.

(** C3: every path [pruneRepos] hands to [os.RemoveAll] is the clone root
    joined with a repository found by the walk and begins with the clone
    root; and when the check fails for a repository, the run ends there
    with a fatal exit: the state is the one reached before that
    repository, so neither it nor any later one is deleted. *)
Theorem C3_prune_containment (env : gmap string string) (out : string)
    (targets : list Repo) (w : World) :
  (exists new,
     removed (snd (pruneRepos env out targets w)) = (removed w ++ new)%list
     /\ Forall (fun p => strings.HasPrefix p out = true) new)
  /\ (forall pre r post,
        getRelativePathRepositories (fs w) out out = Ok (pre ++ r :: post)%list ->
        containedIn out r = false ->
        let before := pruneLoop targets out
                        (String.eqb (Getenv env "GHORG_PRUNE_NO_CONFIRM") "true")
                        pre 0 true w in
        pruneRepos env out targets w = (afterAbort (fst before), snd before)).
Proof.
  split.
  - unfold pruneRepos.
    destruct (getRelativePathRepositories (fs w) out out) as [repositories|e].
    + destruct (pruneLoop_removed targets out
                  (String.eqb (Getenv env "GHORG_PRUNE_NO_CONFIRM") "true")
                  repositories 0 true w) as [new [E F]].
      destruct (pruneLoop _ _ _ repositories 0 true w) as [r w'] eqn:L.
      exists new. split; [exact E|].
      eapply Forall_impl; [exact F|]. now intros p [Hp _].
    + exists []. split; [now rewrite app_nil_r | constructor].
  - intros pre r post Hwalk Hfail before. unfold pruneRepos. rewrite Hwalk.
    rewrite pruneLoop_app. subst before.
    destruct (pruneLoop targets out _ pre 0 true w) as [[[c1 a1]|c|m] w1]; try reflexivity.
    now rewrite pruneLoop_abort.
Qed.

(** C8: in interactive mode, when the prompt for a candidate is answered
    with anything but yes, the run deletes nothing from then on and asks
    nothing more: the files, the record of removals and the unread input
    stay as they were after that one answer, whatever repositories
    follow. *)
Theorem C8_prune_stops_after_no (env : gmap string string) (out : string)
    (targets : list Repo) (w w1 : World) (pre post : list string) (r : string)
    (c1 : Z) (line : string) (rest : list string) :
  Getenv env "GHORG_PRUNE_NO_CONFIRM" <> "true" ->
  getRelativePathRepositories (fs w) out out = Ok (pre ++ r :: post)%list ->
  pruneLoop targets out false pre 0 true w = (Returns (c1, true), w1) ->
  containedIn out r = true ->
  sliceContainsNamedRepo targets r = false ->
  stdin w1 = line :: rest ->
  isYes line = false ->
  let run := pruneRepos env out targets w in
  fs (snd run) = fs w1
  /\ removed (snd run) = removed w1
  /\ stdin (snd run) = rest
  /\ prompts (snd run)
     = (prompts w1
        ++ [(strings.TrimSpace (prunePrompt r (filepath.Join [out; r])) ++ " (y/N) ")%string])%list
  /\ (fst run = Returns c1 \/ fst run = Exits 1).
Proof.
  intros Hmode Hwalk Hpre Hc Hcand Hin Hno run. subst run.
  unfold pruneRepos. rewrite Hwalk.
  apply String.eqb_neq in Hmode. rewrite Hmode.
  rewrite pruneLoop_app, Hpre. cbn [pruneLoop].
  unfold containedIn in Hc. rewrite Hc, Hcand. cbn [negb andb].
  unfold interactiveYesNoPrompt. rewrite Hin, Hno.
  match goal with |- context [pruneLoop _ _ _ post c1 false ?w2] =>
    destruct (pruneLoop_declined targets out false post c1 w2) as [Hw Hr];
    destruct (pruneLoop targets out false post c1 false w2) as [res w'] end.
  cbn [fst snd] in *. subst w'. cbn [fs removed stdin prompts].
  repeat split; try reflexivity.
  destruct Hr as [-> | ->]; [now left | now right].
Qed.

Lemma C8_prune_stops_after_no_witness :
  let run := pruneRepos ∅ "/clones/org" [] yesThenNo in
  removed (snd run) = ["/clones/org/a"]
  /\ stdin (snd run) = ["y" ++ String "010" ""]
  /\ length (prompts (snd run)) = 2%nat
  /\ isGitRepository (fs (snd run)) "/clones/org/b" = true
  /\ isGitRepository (fs (snd run)) "/clones/org/c" = true
  /\ fst run = Returns 1.
Proof.
  pose proof (C8_prune_stops_after_no ∅ "/clones/org" [] yesThenNo
                (snd (pruneLoop [] "/clones/org" false ["a"] 0 true yesThenNo))
                ["a"] ["c"] "b" 1 ("no" ++ String "010" "") ["y" ++ String "010" ""]) as H.
  cbv zeta in H.
  destruct H as (Hfs & Hrm & Hin & Hpr & Hres);
    [vm_compute; discriminate | vm_compute; reflexivity | vm_compute; reflexivity
    | vm_compute; reflexivity | vm_compute; reflexivity | vm_compute; reflexivity
    | vm_compute; reflexivity |].
  cbv zeta. rewrite Hfs, Hrm, Hin, Hpr.
  repeat split; try (vm_compute; reflexivity).
Defined.

Lemma C3_prune_containment_witness :
  getRelativePathRepositories testTree "/tmp//out" "/tmp//out" = Ok ["prunnable"; "repository"]
  /\ containedIn "/tmp//out" "prunnable" = false
  /\ pruneRepos {[ "GHORG_PRUNE_NO_CONFIRM" := "true" ]} "/tmp//out" []
       (mkWorld testTree [] [] [] [])
     = (Exits 1, mkWorld testTree [] [] [] []).
Proof.
  split; [vm_compute; reflexivity|]. split; [vm_compute; reflexivity|].
  exact (proj2 (C3_prune_containment {[ "GHORG_PRUNE_NO_CONFIRM" := "true" ]} "/tmp//out" []
                  (mkWorld testTree [] [] [] []))
               [] "prunnable" ["repository"] eq_refl eq_refl).
Defined.

(** ** Paths: splitting, joining and cleaning *)

Lemma IndexByte_ge s c : -1 <= strings.IndexByte s c.
Proof.
  induction s as [|a s IH]; simpl; [lia|].
  destruct (Ascii.eqb a c); [lia|].
  destruct (strings.IndexByte s c); lia.
Qed.

Lemma safe_cons a e :
  isPathSegmentSafe (String a e) = true <-> a <> "/"%char /\ isPathSegmentSafe e = true.
Proof.
  unfold isPathSegmentSafe. simpl.
  pose proof (IndexByte_ge e "/") as G.
  destruct (Ascii.eqb_spec a "/") as [->|Hne].
  - split; [intros H; apply Z.ltb_lt in H; lia | intros [H _]; congruence].
  - destruct (strings.IndexByte e "/") as [|p|p].
    + split; [intros H; discriminate | intros [_ H]; discriminate].
    + split; [intros H; apply Z.ltb_lt in H; lia | intros [_ H]; discriminate].
    + split; [intros _; split; [exact Hne | reflexivity] | intros _; reflexivity].
Qed.

Lemma Split_nonempty s c : strings.Split s c <> [].
Proof.
  destruct s as [|a s]; simpl; [discriminate|].
  destruct (Ascii.eqb a c); [discriminate|].
  destruct (strings.Split s c); discriminate.
Qed.

Lemma Split_app_sep a c b :
  strings.Split (a ++ String c b) c = (strings.Split a c ++ strings.Split b c)%list.
Proof.
  induction a as [|x a IH].
  - rewrite sapp_nil. simpl. now rewrite Ascii.eqb_refl.
  - rewrite sapp_cons. simpl. rewrite IH.
    destruct (Ascii.eqb x c); [reflexivity|].
    pose proof (Split_nonempty a c).
    destruct (strings.Split a c) as [|w ws]; [congruence|reflexivity].
Qed.

Lemma Split_safe e : isPathSegmentSafe e = true -> strings.Split e "/" = [e].
Proof.
  induction e as [|a e IH]; intros H; [reflexivity|].
  apply safe_cons in H as [Hne He]. simpl.
  destruct (Ascii.eqb_spec a "/"); [congruence|]. now rewrite IH.
Qed.

Lemma Join_cons2 e e' rest sep :
  strings.Join (e :: e' :: rest) sep = e ++ sep ++ strings.Join (e' :: rest) sep.
Proof. reflexivity. Qed.

Lemma Join_snoc es e sep :
  es <> [] -> strings.Join (es ++ [e]) sep = strings.Join es sep ++ sep ++ e.
Proof.
  induction es as [|x es IH]; [congruence|]. intros _.
  destruct es as [|y es]; [reflexivity|].
  change ((x :: y :: es) ++ [e])%list with (x :: ((y :: es) ++ [e]))%list.
  change ((y :: es) ++ [e])%list with (y :: (es ++ [e]))%list at 1.
  rewrite Join_cons2. change (y :: (es ++ [e]))%list with ((y :: es) ++ [e])%list.
  rewrite IH by discriminate. rewrite Join_cons2. now rewrite !sapp_assoc.
Qed.

Lemma Join_app es cs sep :
  es <> [] -> cs <> [] ->
  strings.Join (es ++ cs) sep = strings.Join es sep ++ sep ++ strings.Join cs sep.
Proof.
  intros Hes Hcs. induction es as [|x es IH]; [congruence|].
  destruct es as [|y es].
  - destruct cs as [|c cs]; [congruence|]. reflexivity.
  - change ((x :: y :: es) ++ cs)%list with (x :: y :: (es ++ cs))%list.
    rewrite Join_cons2. change (y :: (es ++ cs))%list with ((y :: es) ++ cs)%list.
    rewrite IH by discriminate. rewrite Join_cons2. now rewrite !sapp_assoc.
Qed.

Lemma Split_Join es :
  Forall (fun e => isPathSegmentSafe e = true) es -> es <> [] ->
  strings.Split (strings.Join es "/") "/" = es.
Proof.
  induction 1 as [|e es He Hes IH]; [congruence|]. intros _.
  destruct es as [|e' es]; [now apply Split_safe|].
  rewrite Join_cons2.
  change ("/" ++ strings.Join (e' :: es) "/") with (String "/" (strings.Join (e' :: es) "/")).
  rewrite Split_app_sep, Split_safe by exact He.
  now rewrite IH by discriminate.
Qed.

Lemma validName_safe n : validName n = true -> isPathSegmentSafe n = true.
Proof. unfold validName, isPathSegmentSafe. intros H. now apply andb_prop in H as [_ H]. Qed.

Lemma validName_spec n :
  validName n = true ->
  String.eqb n "" = false /\ String.eqb n "." = false /\ String.eqb n ".." = false.
Proof.
  unfold validName. intros H.
  apply andb_prop in H as [H _]. apply andb_prop in H as [H H3].
  apply andb_prop in H as [H1 H2].
  apply negb_true_iff in H1, H2, H3. now repeat split.
Qed.

Lemma Forall_valid_safe es :
  Forall (fun n => validName n = true) es -> Forall (fun e => isPathSegmentSafe e = true) es.
Proof. intros H. eapply Forall_impl; [exact H|]. intros n. apply validName_safe. Qed.

(** Valid names pass through the normalisation unchanged. *)
Lemma cleanElems_valid rooted stack es :
  Forall (fun n => validName n = true) es ->
  filepath.cleanElems rooted stack es = (rev stack ++ es)%list.
Proof.
  intros H. revert stack.
  induction H as [|e es He Hes IH]; intros stack; simpl.
  - now rewrite app_nil_r.
  - apply validName_spec in He as (E1 & E2 & E3). rewrite E1, E2, E3. simpl.
    rewrite IH. simpl. now rewrite <- app_assoc.
Qed.

Lemma cleanElems_snoc rooted stack es n :
  validName n = true ->
  filepath.cleanElems rooted stack (es ++ [n])
  = (filepath.cleanElems rooted stack es ++ [n])%list.
Proof.
  intros Hn. revert stack.
  induction es as [|e es IH]; intros stack.
  - simpl. apply validName_spec in Hn as (E1 & E2 & E3). now rewrite E1, E2, E3.
  - rewrite <- app_comm_cons. cbn [filepath.cleanElems].
    destruct (String.eqb e "" || String.eqb e "."); [apply IH|].
    destruct (String.eqb e ".."); [|apply IH].
    destruct stack as [|top stack']; [destruct rooted; apply IH|].
    destruct (String.eqb top ".."); apply IH.
Qed.

Lemma cleanElems_empty rooted stack es :
  filepath.cleanElems rooted stack ("" :: es) = filepath.cleanElems rooted stack es.
Proof. reflexivity. Qed.

Lemma absPath_rooted es : filepath.isRooted (absPath es) = true.
Proof. reflexivity. Qed.

Lemma Split_absPath es :
  Forall (fun n => validName n = true) es ->
  strings.Split (absPath es) "/" = "" :: match es with [] => [""] | _ => es end.
Proof.
  intros H. unfold absPath.
  change ("/" ++ strings.Join es "/") with ("" ++ String "/" (strings.Join es "/")).
  rewrite Split_app_sep. simpl strings.Split at 1. simpl app. f_equal.
  destruct es as [|e es]; [reflexivity|].
  apply Split_Join; [now apply Forall_valid_safe | discriminate].
Qed.

Lemma absElems_absPath es :
  Forall (fun n => validName n = true) es -> absElems (absPath es) = es.
Proof.
  intros H. unfold absElems. rewrite Split_absPath by exact H.
  rewrite cleanElems_empty. destruct es as [|e es]; [reflexivity|].
  now rewrite cleanElems_valid.
Qed.

Lemma elemsOf_absPath es :
  Forall (fun n => validName n = true) es -> filepath.elemsOf (absPath es) = es.
Proof. intros H. unfold filepath.elemsOf. rewrite absPath_rooted. now apply absElems_absPath. Qed.

Lemma Clean_absPath es :
  Forall (fun n => validName n = true) es -> filepath.Clean (absPath es) = absPath es.
Proof.
  intros H. unfold filepath.Clean. rewrite absPath_rooted, elemsOf_absPath by exact H.
  reflexivity.
Qed.

Lemma absPath_inj es es' :
  Forall (fun n => validName n = true) es -> Forall (fun n => validName n = true) es' ->
  absPath es = absPath es' -> es = es'.
Proof.
  intros H H' E. rewrite <- (absElems_absPath es H), <- (absElems_absPath es' H').
  now rewrite E.
Qed.

Lemma absPath_not_empty es : String.eqb (absPath es) "" = false.
Proof. reflexivity. Qed.

Lemma Join_valid_not_empty cs :
  Forall (fun n => validName n = true) cs -> cs <> [] ->
  String.eqb (strings.Join cs "/") "" = false.
Proof.
  intros H Hne. destruct cs as [|c cs]; [congruence|].
  apply Forall_cons_1 in H as [Hc _]. apply validName_spec in Hc as (E1 & _).
  destruct c as [|a c]; [discriminate|].
  destruct cs; [reflexivity|]. rewrite Join_cons2, sapp_cons. reflexivity.
Qed.

(** Joining the clone root with a relative path made of valid names. *)
Lemma Join_absPath es cs :
  Forall (fun n => validName n = true) es ->
  Forall (fun n => validName n = true) cs -> cs <> [] ->
  filepath.Join [absPath es; strings.Join cs "/"] = absPath (es ++ cs).
Proof.
  intros Hes Hcs Hne. cbn [filepath.Join]. rewrite absPath_not_empty.
  assert (Hall : Forall (fun n => validName n = true) (es ++ cs)) by now apply Forall_app.
  rewrite <- (Clean_absPath (es ++ cs) Hall).
  unfold filepath.Clean, filepath.elemsOf.
  assert (R : filepath.isRooted (strings.Join [absPath es; strings.Join cs "/"] "/") = true)
    by reflexivity.
  rewrite R, absPath_rooted. f_equal. f_equal.
  rewrite Split_absPath by exact Hall.
  cbn [strings.Join].
  change (absPath es ++ "/" ++ strings.Join cs "/")
    with (absPath es ++ String "/" (strings.Join cs "/")).
  rewrite Split_app_sep, Split_absPath by exact Hes.
  rewrite Split_Join by (try apply Forall_valid_safe; assumption).
  destruct es as [|e es].
  - simpl app. rewrite !cleanElems_empty. destruct cs; [congruence|reflexivity].
  - reflexivity.
Qed.

Lemma Join_child es n :
  Forall (fun n => validName n = true) es -> validName n = true ->
  filepath.Join [absPath es; n] = absPath (es ++ [n]).
Proof.
  intros Hes Hn.
  change n with (strings.Join [n] "/") at 1.
  apply Join_absPath; [exact Hes | now constructor | discriminate].
Qed.

Lemma absPath_prefix es cs : strings.HasPrefix (absPath (es ++ cs)) (absPath es) = true.
Proof.
  destruct es as [|e es]; [reflexivity|].
  destruct cs as [|c cs]; [rewrite app_nil_r; apply HasPrefix_refl|].
  unfold absPath. rewrite Join_app by discriminate.
  rewrite <- sapp_assoc. apply HasPrefix_app.
Qed.

Lemma stripCommon_prefix es cs : filepath.stripCommon es (es ++ cs)%list = ([], cs).
Proof.
  induction es as [|e es IH]; simpl; [now destruct cs|].
  now rewrite String.eqb_refl.
Qed.

Lemma absPath_not_root es :
  Forall (fun n => validName n = true) es -> es <> [] -> String.eqb (absPath es) "/" = false.
Proof.
  intros H Hne. destruct es as [|e es]; [congruence|].
  apply Forall_cons_1 in H as [He _]. apply validName_spec in He as (E1 & _).
  destruct e as [|a e]; [discriminate|].
  destruct es; reflexivity.
Qed.

Lemma relElems_absPath es :
  Forall (fun n => validName n = true) es -> filepath.relElems (absPath es) = "" :: es.
Proof.
  intros H. unfold filepath.relElems. rewrite absPath_not_empty.
  destruct es as [|e es]; [reflexivity|].
  rewrite absPath_not_root by (try discriminate; exact H).
  now rewrite Split_absPath.
Qed.

(** The path of a descendant, relative to the clone root. *)
Lemma Rel_absPath es cs :
  Forall (fun n => validName n = true) es ->
  Forall (fun n => validName n = true) cs -> cs <> [] ->
  filepath.Rel (absPath es) (absPath (es ++ cs)) = Ok (strings.Join cs "/").
Proof.
  intros Hes Hcs Hne.
  assert (Hall : Forall (fun n => validName n = true) (es ++ cs)) by now apply Forall_app.
  unfold filepath.Rel. rewrite !Clean_absPath by assumption.
  destruct (String.eqb_spec (absPath (es ++ cs)) (absPath es)) as [E|_].
  { apply absPath_inj in E; [|assumption..].
    rewrite <- (app_nil_r es) in E at 2. apply app_inv_head in E. congruence. }
  assert (D : String.eqb (absPath es) "." = false) by reflexivity.
  rewrite D, !absPath_rooted. cbn [Bool.eqb negb].
  rewrite !relElems_absPath by assumption.
  change ("" :: es ++ cs)%list with (("" :: es) ++ cs)%list.
  rewrite stripCommon_prefix. reflexivity.
Qed.

(** ** The walk *)

Lemma node_induction (P : node -> Prop) :
  (forall c, P (File c)) ->
  (forall entries, Forall (fun p => P (snd p)) entries -> P (Dir entries)) ->
  forall d, P d.
Proof.
  intros HF HD. fix IH 1. intros [c|entries]; [apply HF|].
  apply HD. induction entries as [|[n c] entries IHe]; constructor; [apply IH | exact IHe].
Qed.

Lemma walkDir_Dir path entries :
  walkDir path (Dir entries)
  = (path, Dir entries)
    :: flat_map (fun p => walkDir (filepath.Join [path; fst p]) (snd p)) entries.
Proof.
  cbn [walkDir]. f_equal.
  induction entries as [|[n c] entries IH]; [reflexivity|].
  cbn [flat_map fst snd]. now rewrite <- IH.
Qed.

Lemma wfNode_Dir entries :
  wfNode (Dir entries) = true ->
  Forall (fun p => validName (fst p) = true) entries
  /\ distinctNames (map fst entries) = true
  /\ Forall (fun p => wfNode (snd p) = true) entries.
Proof.
  cbn [wfNode]. intros H.
  apply andb_prop in H as [H H3]. apply andb_prop in H as [H1 H2].
  repeat split; [|exact H2|].
  - clear H2 H3. induction entries as [|[n c] es IH]; constructor.
    + cbn in H1. now apply andb_prop in H1 as [H1 _].
    + apply IH. cbn in H1. now apply andb_prop in H1 as [_ H1].
  - clear H1 H2. induction entries as [|[n c] es IH]; constructor.
    + now apply andb_prop in H3 as [H3 _].
    + apply IH. now apply andb_prop in H3 as [_ H3].
Qed.

Lemma findEntry_In name c entries :
  distinctNames (map fst entries) = true -> In (name, c) entries ->
  findEntry name entries = Some c.
Proof.
  induction entries as [|[n x] es IH]; intros Hd Hin; [destruct Hin|].
  cbn in Hd. apply andb_prop in Hd as [Hn Hd]. cbn [findEntry].
  destruct Hin as [E|Hin].
  - injection E as -> ->. now rewrite String.eqb_refl.
  - destruct (String.eqb_spec n name) as [->|_]; [|now apply IH].
    apply negb_true_iff in Hn.
    assert (existsb (String.eqb name) (map fst es) = true); [|congruence].
    apply existsb_exists. exists name. split; [|apply String.eqb_refl].
    apply in_map_iff. now exists (name, c).
Qed.

Lemma findEntry_Some name c entries :
  findEntry name entries = Some c -> In (name, c) entries.
Proof.
  induction entries as [|[n x] es IH]; [discriminate|]. cbn [findEntry].
  destruct (String.eqb_spec n name) as [->|_].
  - intros [= ->]. now left.
  - intros H. right. now apply IH.
Qed.

Lemma lookupElems_app d a b :
  lookupElems d (a ++ b) = match lookupElems d a with
                           | Some x => lookupElems x b
                           | None => None
                           end.
Proof.
  revert d. induction a as [|e a IH]; intros d; [reflexivity|].
  rewrite <- app_comm_cons. cbn [lookupElems].
  destruct d as [c|entries]; [reflexivity|].
  destruct (findEntry e entries); [apply IH | reflexivity].
Qed.

(** What can be looked up in a well-formed tree has valid names and is
    itself well formed. *)
Lemma lookupElems_wf d cs x :
  wfNode d = true -> lookupElems d cs = Some x ->
  Forall (fun n => validName n = true) cs /\ wfNode x = true.
Proof.
  revert d. induction cs as [|n cs IH]; intros d Hwf Hl.
  - injection Hl as <-. split; [constructor | exact Hwf].
  - cbn [lookupElems] in Hl. destruct d as [c|entries]; [discriminate|].
    destruct (findEntry n entries) as [c|] eqn:Hf; [|discriminate].
    apply findEntry_Some in Hf. apply wfNode_Dir in Hwf as (Hv & _ & Hw).
    rewrite List.Forall_forall in Hv, Hw.
    destruct (IH c (Hw _ Hf) Hl) as [Hcs Hx].
    split; [constructor; [exact (Hv _ Hf) | exact Hcs] | exact Hx].
Qed.

(** The walk from a directory visits exactly what can be looked up below
    it, each entry under its absolute path. *)
Lemma walkDir_visits d : forall es p x,
  wfNode d = true -> Forall (fun n => validName n = true) es ->
  (In (p, x) (walkDir (absPath es) d)
   <-> exists cs, p = absPath (es ++ cs) /\ lookupElems d cs = Some x).
Proof.
  induction d as [c|entries IH] using node_induction; intros es p x Hwf Hes.
  - cbn [walkDir]. split.
    + intros [E|[]]. injection E as <- <-. exists []. now rewrite app_nil_r.
    + intros [[|n cs] [-> Hl]]; [|discriminate].
      injection Hl as <-. rewrite app_nil_r. now left.
  - rewrite walkDir_Dir. pose proof (wfNode_Dir _ Hwf) as (Hv & Hd & Hw).
    rewrite List.Forall_forall in IH, Hv, Hw. split.
    + intros [E|Hin].
      * injection E as <- <-. exists []. now rewrite app_nil_r.
      * apply in_flat_map in Hin as [[n c] [Hnc Hin]]. cbn [fst snd] in Hin.
        rewrite Join_child in Hin by (try exact Hes; exact (Hv _ Hnc)).
        apply (IH _ Hnc) in Hin as [cs [-> Hl]];
          [|exact (Hw _ Hnc) | apply Forall_app; split; [exact Hes|]; constructor;
                               [exact (Hv _ Hnc) | constructor]].
        exists (n :: cs). rewrite <- app_assoc. split; [reflexivity|].
        cbn [lookupElems]. now rewrite (findEntry_In n c entries Hd Hnc).
    + intros [[|n cs] [-> Hl]].
      * injection Hl as <-. rewrite app_nil_r. now left.
      * right. cbn [lookupElems] in Hl.
        destruct (findEntry n entries) as [c|] eqn:Hf; [|discriminate].
        apply findEntry_Some in Hf. apply in_flat_map. exists (n, c).
        split; [exact Hf|]. cbn [fst snd].
        rewrite Join_child by (try exact Hes; exact (Hv _ Hf)).
        apply (IH _ Hf);
          [exact (Hw _ Hf) | apply Forall_app; split; [exact Hes|]; constructor;
                             [exact (Hv _ Hf) | constructor] |].
        exists cs. now rewrite <- app_assoc.
Qed.

Lemma validName_dotgit : validName ".git" = true.
Proof. reflexivity. Qed.

(** [isGitRepository] looks at the [.git] entry of the directory, and
    wants a directory. *)
Lemma isGitRepository_absPath fs es :
  Forall (fun n => validName n = true) es ->
  isGitRepository fs (absPath es)
  = match lookupElems fs (es ++ [".git"]) with
    | Some g => IsDir g
    | None => false
    end.
Proof.
  intros H. unfold isGitRepository, Stat.
  rewrite Join_child by (try exact H; reflexivity).
  rewrite absElems_absPath; [reflexivity|].
  apply Forall_app. split; [exact H | now constructor].
Qed.

Lemma collectRepositories_flat fs out visited acc :
  (forall v, In v visited -> fst v = out \/ exists rel, filepath.Rel out (fst v) = Ok rel) ->
  collectRepositories fs out visited acc
  = Ok (acc ++ flat_map (repositoryOf fs out) visited)%list.
Proof.
  revert acc. induction visited as [|[p x] rest IH]; intros acc H.
  - cbn. now rewrite app_nil_r.
  - cbn [collectRepositories flat_map]. unfold repositoryOf at 1. cbn [fst snd].
    assert (Hrest : forall v, In v rest ->
                      fst v = out \/ exists rel, filepath.Rel out (fst v) = Ok rel)
      by (intros v Hv; apply H; now right).
    destruct (H (p, x) (or_introl eq_refl)) as [E | [rel E]]; cbn [fst] in E.
    + subst p. rewrite String.eqb_refl. cbn [negb andb]. now apply IH.
    + rewrite E.
      destruct (negb (String.eqb p out) && IsDir x && isGitRepository fs p).
      * rewrite IH by exact Hrest. now rewrite <- app_assoc.
      * now apply IH.
Qed.

(** The repositories [getRelativePathRepositories] lists for a clone root
    given by a clean absolute path: the relative paths of the directories
    below the root whose [.git] entry is a directory. *)
Lemma getRelativePathRepositories_spec fs oelems droot :
  wfNode fs = true ->
  Forall (fun n => validName n = true) oelems ->
  lookupElems fs oelems = Some droot ->
  exists repositories,
    getRelativePathRepositories fs (absPath oelems) (absPath oelems) = Ok repositories
    /\ forall rel,
         In rel repositories
         <-> exists cs d g,
               rel = strings.Join cs "/" /\ cs <> []
               /\ lookupElems droot cs = Some d /\ IsDir d = true
               /\ lookupElems d [".git"] = Some g /\ IsDir g = true.
Proof.
  intros Hwf Ho Hroot.
  destruct (lookupElems_wf fs oelems droot Hwf Hroot) as [_ Hwfr].
  unfold getRelativePathRepositories, Stat. rewrite absElems_absPath, Hroot by exact Ho.
  assert (Hvis : forall v, In v (walkDir (absPath oelems) droot) ->
            exists cs, Forall (fun n => validName n = true) cs
                       /\ fst v = absPath (oelems ++ cs)
                       /\ lookupElems droot cs = Some (snd v)).
  { intros [p x] Hin. apply (walkDir_visits droot oelems p x Hwfr Ho) in Hin as [cs [-> Hl]].
    exists cs. destruct (lookupElems_wf droot cs x Hwfr Hl) as [Hcs _]. now repeat split. }
  rewrite collectRepositories_flat.
  2:{ intros v Hin. destruct (Hvis v Hin) as [cs (Hcs & E & _)].
      destruct cs as [|c cs]; [left; now rewrite E, app_nil_r|].
      right. exists (strings.Join (c :: cs) "/"). rewrite E.
      apply Rel_absPath; [exact Ho | exact Hcs | discriminate]. }
  eexists. split; [reflexivity|]. intros rel. cbn [app]. rewrite in_flat_map. split.
  - intros [[p x] [Hin Hrel]]. destruct (Hvis _ Hin) as [cs (Hcs & E & Hl)].
    cbn [fst snd] in E, Hl. subst p. unfold repositoryOf in Hrel. cbn [fst snd] in Hrel.
    destruct (negb (String.eqb (absPath (oelems ++ cs)) (absPath oelems))) eqn:Hne;
      [|destruct Hrel].
    destruct (IsDir x) eqn:Hx; [|destruct Hrel].
    destruct (isGitRepository fs (absPath (oelems ++ cs))) eqn:Hg; [|destruct Hrel].
    cbn [andb] in Hrel.
    assert (Hcs0 : cs <> []).
    { intros ->. rewrite app_nil_r, String.eqb_refl in Hne. discriminate. }
    rewrite Rel_absPath in Hrel by assumption. destruct Hrel as [<-|[]].
    rewrite isGitRepository_absPath in Hg by (apply Forall_app; now split).
    rewrite <- app_assoc, lookupElems_app, Hroot, lookupElems_app, Hl in Hg.
    destruct (lookupElems x [".git"]) as [g|] eqn:Hgit; [|discriminate].
    exists cs, x, g. now repeat split.
  - intros (cs & d & g & -> & Hcs0 & Hl & Hd & Hgit & Hg).
    destruct (lookupElems_wf droot cs d Hwfr Hl) as [Hcs _].
    exists (absPath (oelems ++ cs), d). split.
    + apply (walkDir_visits droot oelems _ _ Hwfr Ho). now exists cs.
    + unfold repositoryOf. cbn [fst snd].
      destruct (String.eqb_spec (absPath (oelems ++ cs)) (absPath oelems)) as [E|_].
      { apply absPath_inj in E; [|try apply Forall_app; auto..].
        rewrite <- (app_nil_r oelems) in E at 2. apply app_inv_head in E. congruence. }
      rewrite Hd, isGitRepository_absPath by (apply Forall_app; now split).
      rewrite <- app_assoc, lookupElems_app, Hroot, lookupElems_app, Hl, Hgit, Hg.
      cbn [negb andb]. rewrite Rel_absPath by assumption. now left.
Qed.

(** The relative path of a directory below the root names it. *)
Lemma Join_valid_inj cs cs' :
  Forall (fun n => validName n = true) cs -> Forall (fun n => validName n = true) cs' ->
  cs <> [] -> cs' <> [] ->
  strings.Join cs "/" = strings.Join cs' "/" -> cs = cs'.
Proof.
  intros H H' Hn Hn' E.
  rewrite <- (Split_Join cs) by (try apply Forall_valid_safe; assumption).
  rewrite <- (Split_Join cs') by (try apply Forall_valid_safe; assumption).
  now rewrite E.
Qed.

(** Without prompts, the loop removes every candidate and counts it. *)
Lemma pruneLoop_noConfirm targets out repositories count w :
  Forall (fun rel => containedIn out rel = true) repositories ->
  let run := pruneLoop targets out true repositories count true w in
  (forall c a, fst run = Returns (c, a) ->
     c = count + Z.of_nat (length (List.filter (isCandidate targets) repositories)))
  /\ (locked w = [] ->
      fst run = Returns (count + Z.of_nat (length (List.filter (isCandidate targets) repositories)), true)).
Proof.
  intros H. revert count w.
  induction H as [|r rest Hr Hrest IH]; intros count w run; subst run.
  - cbn. split; [intros c a [= <- _]; lia | intros _; f_equal; f_equal; lia].
  - cbn [pruneLoop]. unfold containedIn in Hr. rewrite Hr. cbn [negb andb].
    assert (Hf : List.filter (isCandidate targets) (r :: rest)
                 = if negb (sliceContainsNamedRepo targets r)
                   then r :: List.filter (isCandidate targets) rest
                   else List.filter (isCandidate targets) rest) by reflexivity.
    rewrite Hf. clear Hf.
    destruct (negb (sliceContainsNamedRepo targets r)); [|apply IH].
    unfold RemoveAll.
    destruct (existsb (String.eqb (filepath.Clean (filepath.Join [out; r]))) (locked w)) eqn:Hl.
    + cbn [fst]. split; [discriminate|]. intros E. rewrite E in Hl. discriminate.
    + match goal with |- context [pruneLoop _ _ _ rest ?c ?a ?w2] =>
        destruct (IH c w2) as [IH1 IH2] end.
      cbn [length]. split.
      * intros c a E. rewrite (IH1 c a E). lia.
      * intros E. rewrite IH2 by exact E. f_equal. f_equal. lia.
Qed.

Lemma sliceContainsNamedRepo_false targets rel :
  sliceContainsNamedRepo targets rel = false
  <-> Forall (fun repo => normalizePath (Path repo) <> normalizePath rel) targets.
Proof.
  unfold sliceContainsNamedRepo. induction targets as [|t ts IH]; cbn [existsb].
  - split; [constructor | reflexivity].
  - rewrite orb_false_iff, IH. split.
    + intros [H1 H2]. constructor; [now apply String.eqb_neq | exact H2].
    + intros H. apply Forall_cons_1 in H as [H1 H2]. split; [now apply String.eqb_neq | exact H2].
Qed.

(** C4, as stated, fails: [repository/submodule] has a [.git] child, a
    file, and its relative path matches no kept repository, yet the walk
    does not list it and the pruner, run without prompts, counts one
    candidate and not two. *)
Lemma C4_counterexample :
  lookupElems testTree ["tmp"; "out"; "repository"; "submodule"; ".git"]
  = Some (File "gitdir: ../.git/modules/submodule")
  /\ sliceContainsNamedRepo [keptRepository] "repository/submodule" = false
  /\ getRelativePathRepositories testTree "/tmp/out" "/tmp/out" = Ok ["prunnable"; "repository"]
  /\ pruneRepos noConfirmEnv "/tmp/out" [keptRepository] (mkWorld testTree [] [] [] [])
     = (Returns 1,
        mkWorld (Dir [("tmp", Dir [("out", Dir [
             ("repository", Dir [(".git", Dir []);
                ("submodule", Dir [(".git", File "gitdir: ../.git/modules/submodule")])])])])])
          [] [] ["/tmp/out/prunnable"] []).
Proof. vm_compute. repeat split; reflexivity. Qed.

(** C4, amended: for a clone root given by a clean absolute path, a
    directory below it is a prune candidate iff its [.git] child is a
    directory (a [.git] file does not count) and its relative path, after
    dropping a leading slash and turning backslashes into slashes, equals
    no kept Repo's normalised Path; every candidate is such a directory;
    and when prune runs without confirmation prompts, the count it
    returns is the number of candidates. *)
Theorem C4_prune_candidates (env : gmap string string) (w : World)
    (oelems : list string) (droot : node) (targets : list Repo) :
  wfNode (fs w) = true ->
  Forall (fun n => validName n = true) oelems ->
  lookupElems (fs w) oelems = Some droot ->
  Getenv env "GHORG_PRUNE_NO_CONFIRM" = "true" ->
  let out := absPath oelems in
  exists repositories,
    getRelativePathRepositories (fs w) out out = Ok repositories
    /\ (forall cs d,
          cs <> [] -> lookupElems droot cs = Some d -> IsDir d = true ->
          (In (strings.Join cs "/") (List.filter (isCandidate targets) repositories)
           <-> (exists g, lookupElems d [".git"] = Some g /\ IsDir g = true)
               /\ Forall (fun repo => normalizePath (Path repo)
                                      <> normalizePath (strings.Join cs "/")) targets))
    /\ (forall rel,
          In rel repositories ->
          exists cs d, rel = strings.Join cs "/" /\ cs <> []
                       /\ lookupElems droot cs = Some d /\ IsDir d = true)
    /\ (forall n, fst (pruneRepos env out targets w) = Returns n ->
          n = Z.of_nat (length (List.filter (isCandidate targets) repositories)))
    /\ (locked w = [] ->
        fst (pruneRepos env out targets w)
        = Returns (Z.of_nat (length (List.filter (isCandidate targets) repositories)))).
Proof.
  intros Hwf Ho Hroot Hmode out. subst out.
  destruct (getRelativePathRepositories_spec (fs w) oelems droot Hwf Ho Hroot)
    as [repositories [Hwalk Hspec]].
  destruct (lookupElems_wf (fs w) oelems droot Hwf Hroot) as [_ Hwfr].
  exists repositories. split; [exact Hwalk|]. split; [|split].
  - intros cs d Hcs0 Hl Hd.
    destruct (lookupElems_wf droot cs d Hwfr Hl) as [Hcs _].
    rewrite filter_In. unfold isCandidate.
    rewrite negb_true_iff, sliceContainsNamedRepo_false, Hspec. split.
    + intros [(cs' & d' & g & E & Hcs0' & Hl' & Hd' & Hgit & Hg) Hkept].
      split; [|exact Hkept].
      destruct (lookupElems_wf droot cs' d' Hwfr Hl') as [Hcs' _].
      apply Join_valid_inj in E; [|assumption..]. subst cs'.
      rewrite Hl in Hl'. injection Hl' as <-. now exists g.
    + intros [[g [Hgit Hg]] Hkept]. split; [|exact Hkept].
      exists cs, d, g. now repeat split.
  - intros rel Hin. apply Hspec in Hin as (cs & d & g & E & Hcs0 & Hl & Hd & _).
    now exists cs, d.
  - assert (Hcont : Forall (fun rel => containedIn (absPath oelems) rel = true) repositories).
    { apply List.Forall_forall. intros rel Hin.
      apply Hspec in Hin as (cs & d & g & -> & Hcs0 & Hl & _).
      destruct (lookupElems_wf droot cs d Hwfr Hl) as [Hcs _].
      unfold containedIn. rewrite Join_absPath by assumption. apply absPath_prefix. }
    destruct (pruneLoop_noConfirm targets (absPath oelems) repositories 0 w Hcont)
      as [Hcount Htotal].
    unfold pruneRepos. rewrite Hwalk, Hmode.
    change (String.eqb "true" "true") with true.
    destruct (pruneLoop targets (absPath oelems) true repositories 0 true w) as [r w'] eqn:L.
    cbn [fst] in *. split.
    + intros n Hn. destruct r as [[c a]|c|m]; try discriminate.
      injection Hn as <-. rewrite (Hcount c a eq_refl). lia.
    + intros Hlocked. rewrite (Htotal Hlocked). cbn [returnCount]. f_equal.
Qed.

Lemma C4_prune_candidates_witness :
  exists repositories,
    getRelativePathRepositories testTree "/tmp/out" "/tmp/out" = Ok repositories
    /\ fst (pruneRepos noConfirmEnv "/tmp/out" [keptRepository] (mkWorld testTree [] [] [] []))
       = Returns (Z.of_nat (length (List.filter (isCandidate [keptRepository]) repositories))).
Proof.
  destruct (C4_prune_candidates noConfirmEnv (mkWorld testTree [] [] [] []) ["tmp"; "out"]
              (Dir [("prunnable", Dir [(".git", Dir [])]);
                    ("repository", Dir [(".git", Dir []);
                       ("submodule", Dir [(".git", File "gitdir: ../.git/modules/submodule")])])])
              [keptRepository] eq_refl
              ltac:(repeat constructor) eq_refl eq_refl)
    as [repositories (Hwalk & _ & _ & _ & Htotal)].
  exists repositories. split; [exact Hwalk | exact (Htotal eq_refl)].
Defined.

(** ** The stats recorder *)

Lemma lastElem_snoc x n :
  isPathSegmentSafe n = true -> lastElem (x ++ String "/" n) = n.
Proof.
  intros H. unfold lastElem. rewrite Split_app_sep, (Split_safe n H).
  apply last_last.
Qed.

Lemma lastElem_Join_snoc pre n :
  isPathSegmentSafe n = true ->
  lastElem (strings.Join (pre ++ [n]) "/") = n
  /\ lastElem ("/" ++ strings.Join (pre ++ [n]) "/") = n.
Proof.
  intros H. destruct pre as [|p pre].
  - split; [unfold lastElem; cbn [app strings.Join]; now rewrite Split_safe|].
    apply (lastElem_snoc "" n H).
  - rewrite Join_snoc by discriminate. split.
    + apply lastElem_snoc. exact H.
    + change ("/" ++ strings.Join (p :: pre) "/" ++ "/" ++ n)
        with (("/" ++ strings.Join (p :: pre) "/") ++ String "/" n).
      apply lastElem_snoc. exact H.
Qed.

Lemma Join_snoc_not_empty pre n :
  String.eqb n "" = false -> String.eqb (strings.Join (pre ++ [n]) "/") "" = false.
Proof.
  intros H. destruct pre as [|p pre]; [exact H|].
  rewrite Join_snoc by discriminate.
  destruct (strings.Join (p :: pre) "/"); reflexivity.
Qed.

Lemma lastElem_Clean x pre n :
  validName n = true -> filepath.elemsOf x = (pre ++ [n])%list ->
  lastElem (filepath.Clean x) = n.
Proof.
  intros Hn E. unfold filepath.Clean. rewrite E.
  pose proof (validName_safe n Hn) as Hs.
  destruct (filepath.isRooted x).
  - apply lastElem_Join_snoc. exact Hs.
  - apply validName_spec in Hn as (E1 & _).
    rewrite Join_snoc_not_empty by exact E1. apply lastElem_Join_snoc. exact Hs.
Qed.

(** The last element of a path made by joining a directory and a name
    is the name. *)
Lemma lastElem_Join dir n :
  validName n = true -> lastElem (filepath.Join [dir; n]) = n.
Proof.
  intros Hn. pose proof (validName_spec n Hn) as (E1 & E2 & E3).
  pose proof (validName_safe n Hn) as Hs.
  cbn [filepath.Join]. destruct (String.eqb dir "").
  - rewrite E1. cbn [strings.Join].
    apply (lastElem_Clean n [] n Hn). unfold filepath.elemsOf.
    rewrite Split_safe by exact Hs. cbn. now rewrite E1, E2, E3.
  - cbn [strings.Join].
    apply (lastElem_Clean _ (filepath.cleanElems
                               (filepath.isRooted (dir ++ "/" ++ n)) []
                               (strings.Split dir "/")) n Hn).
    unfold filepath.elemsOf.
    change (dir ++ "/" ++ n) with (dir ++ String "/" n).
    rewrite Split_app_sep, (Split_safe n Hs).
    now apply cleanElems_snoc.
Qed.

Lemma safe_app a b :
  isPathSegmentSafe a = true -> isPathSegmentSafe b = true -> isPathSegmentSafe (a ++ b) = true.
Proof.
  intros Ha Hb. induction a as [|x a IH]; [exact Hb|].
  rewrite sapp_cons. apply safe_cons in Ha as [Hx Ha]. apply safe_cons. auto.
Qed.

Lemma hexDigit_not_slash n : hexDigit n <> "/"%char.
Proof.
  destruct n as [|p]; [discriminate|].
  do 4 (try destruct p as [p|p|]; try discriminate).
Qed.

Lemma hex_safe bytes : isPathSegmentSafe (hex bytes) = true.
Proof.
  induction bytes as [|c rest IH]; [reflexivity|]. cbn [hex].
  apply safe_cons. split; [apply hexDigit_not_slash|].
  apply safe_cons. split; [apply hexDigit_not_slash | exact IH].
Qed.

Lemma sideFileName_valid digest : validName (sideFileName digest) = true.
Proof.
  unfold validName.
  assert (S : isPathSegmentSafe (sideFileName digest) = true).
  { unfold sideFileName. apply safe_app; [vm_compute; reflexivity|].
    apply safe_app; [apply hex_safe | vm_compute; reflexivity]. }
  unfold isPathSegmentSafe in S. rewrite S. unfold sideFileName.
  change ("ghorg_stats_new_header_" ++ hex digest ++ ".csv")
    with (String "g" ("horg_stats_new_header_" ++ hex digest ++ ".csv")).
  generalize ("horg_stats_new_header_" ++ hex digest ++ ".csv"). intros t. reflexivity.
Qed.

(** The side file is never the stats file: their names differ. *)
Lemma side_file_is_another_file (Sum256 : string -> string) env :
  newHeaderFilePath Sum256 env <> getGhorgStatsFilePath env.
Proof.
  intros E. apply (f_equal lastElem) in E.
  unfold newHeaderFilePath, getGhorgStatsFilePath in E.
  rewrite (lastElem_Join _ _ (sideFileName_valid (Sum256 header))) in E.
  destruct (String.eqb (Getenv env "GHORG_PRESERVE_SCM_HOSTNAME") "true");
    rewrite lastElem_Join in E by reflexivity; discriminate.
Qed.

(** C10: when the stats file exists and its first line can be read, then
    (1) if that line is not the current header, the run succeeds, the
    stats file is left as it was, and header and row are appended to the
    side file named after the SHA-256 of the header (so a side file
    that did not exist holds exactly the header and the row); nothing
    else changes; (2) if the line is the current header, the row is
    appended to the stats file and nothing else changes. *)
Theorem C10_stats_header_drift (Sum256 : string -> string) (env : gmap string string)
    (g : StatsGlobals) (a : StatsRow) (files : gmap string string)
    (old existingHeader : string) :
  files !! getGhorgStatsFilePath env = Some old ->
  readFirstLine files (getGhorgStatsFilePath env) = Ok existingHeader ->
  let statsFilePath := getGhorgStatsFilePath env in
  let side := filepath.Join [Getenv env "GHORG_ABSOLUTE_PATH_TO_CLONE_TO";
                             "ghorg_stats_new_header_" ++ hex (Sum256 header) ++ ".csv"] in
  let data := statsData env g a in
  let run := writeGhorgStats Sum256 env g a files in
  (existingHeader ++ String "010" "" <> header ->
     fst run = None
     /\ snd run !! statsFilePath = Some old
     /\ snd run !! side = Some (default "" (files !! side) ++ header ++ data)
     /\ (files !! side = None -> snd run !! side = Some (header ++ data))
     /\ forall p, p <> side -> snd run !! p = files !! p)
  /\ (existingHeader ++ String "010" "" = header ->
      fst run = None
      /\ snd run !! statsFilePath = Some (old ++ data)
      /\ forall p, p <> statsFilePath -> snd run !! p = files !! p).
Proof.
  intros Hold Hread statsFilePath side data run.
  pose proof (side_file_is_another_file Sum256 env) as Hne.
  change (newHeaderFilePath Sum256 env) with side in Hne.
  change (getGhorgStatsFilePath env) with statsFilePath in Hne, Hold, Hread.
  subst run. unfold writeGhorgStats.
  change (getGhorgStatsFilePath env) with statsFilePath.
  change (newHeaderFilePath Sum256 env) with side.
  change (statsData env g a) with data.
  rewrite bool_decide_eq_true_2 by (rewrite Hold; eauto).
  rewrite Hread. split.
  - intros Hdiff. apply String.eqb_neq in Hdiff. rewrite Hdiff. cbn [negb fst snd].
    unfold appendCreate.
    assert (Hside : forall m : gmap string string,
              <[side := (default "" (<[side := (default "" (m !! side) ++ header)%string]> m !! side)
                         ++ data)%string]>
                (<[side := (default "" (m !! side) ++ header)%string]> m) !! side
              = Some (default "" (m !! side) ++ header ++ data)).
    { intros m. rewrite !lookup_insert_eq. cbn [from_option id]. now rewrite sapp_assoc. }
    split; [reflexivity|]. split; [|split; [|split]].
    + rewrite !lookup_insert_ne by exact Hne. exact Hold.
    + apply Hside.
    + intros E. rewrite Hside, E. reflexivity.
    + intros p Hp. rewrite !lookup_insert_ne by congruence. reflexivity.
  - intros Hsame. apply String.eqb_eq in Hsame. rewrite Hsame. cbn [negb].
    unfold appendExisting. rewrite Hold. cbn [fst snd].
    repeat split.
    + apply lookup_insert_eq.
    + intros p Hp. rewrite lookup_insert_ne by congruence. reflexivity.
Qed.

Lemma C10_stats_header_drift_witness :
  let run := writeGhorgStats fakeDigest statsEnv someGlobals someRow oldStats in
  snd run !! "/clones/_ghorg_stats.csv" = oldStats !! "/clones/_ghorg_stats.csv"
  /\ snd run !! "/clones/ghorg_stats_new_header_6162.csv"
     = Some (header ++ statsData statsEnv someGlobals someRow).
Proof.
  pose proof (C10_stats_header_drift fakeDigest statsEnv someGlobals someRow oldStats
                (oldHeader ++ "2023-12-01 15:04:05,/clones/org,github" ++ String "010" "")
                "datetime,clonePath,scm" eq_refl eq_refl) as [H _].
  destruct H as (_ & Hkeep & _ & Hnew & _); [vm_compute; discriminate|].
  split; [exact Hkeep | exact (Hnew eq_refl)].
Defined.

(** ** Name collisions *)

Lemma collisionLoop_skip repo rest m has :
  eligible repo = false ->
  collisionLoop (repo :: rest) m has = collisionLoop rest m has.
Proof.
  unfold eligible. cbn [collisionLoop].
  destruct (IsGitLabSnippet repo); [reflexivity|].
  destruct (IsWiki repo); [reflexivity | discriminate].
Qed.

Lemma collisionLoop_step repo rest m has :
  eligible repo = true ->
  collisionLoop (repo :: rest) m has
  = match m !! Name repo with
    | Some _ => collisionLoop rest (<[Name repo := true]> m) true
    | None => collisionLoop rest (<[Name repo := false]> m) has
    end.
Proof.
  unfold eligible. cbn [collisionLoop].
  destruct (IsGitLabSnippet repo); [discriminate|].
  destruct (IsWiki repo); [discriminate | reflexivity].
Qed.

(** A name once marked as colliding stays marked, and so does the flag. *)
Lemma collisionLoop_keeps repos : forall m has n,
  m !! n = Some true ->
  fst (collisionLoop repos m has) !! n = Some true
  /\ (has = true -> snd (collisionLoop repos m has) = true).
Proof.
  induction repos as [|repo rest IH]; intros m has n Hn; [now split|].
  destruct (eligible repo) eqn:He.
  - rewrite collisionLoop_step by exact He.
    destruct (m !! Name repo) as [b|] eqn:Hm.
    + destruct (IH (<[Name repo := true]> m) true n) as [H1 H2].
      { destruct (decide (Name repo = n)) as [->|Hne];
          [apply lookup_insert_eq | now rewrite lookup_insert_ne]. }
      split; [exact H1 | intros _; now apply H2].
    + apply IH. rewrite lookup_insert_ne; [exact Hn | congruence].
  - rewrite collisionLoop_skip by exact He. now apply IH.
Qed.

(** A name already in the map is marked when it is met again. *)
Lemma collisionLoop_again repos : forall m has n b r,
  m !! n = Some b -> In r repos -> eligible r = true -> Name r = n ->
  fst (collisionLoop repos m has) !! n = Some true
  /\ snd (collisionLoop repos m has) = true.
Proof.
  induction repos as [|repo rest IH]; intros m has n b r Hn Hin Hr Hname; [destruct Hin|].
  destruct (eligible repo) eqn:He.
  - rewrite collisionLoop_step by exact He.
    destruct (decide (Name repo = n)) as [E|Hne].
    + rewrite E, Hn.
      destruct (collisionLoop_keeps rest (<[n := true]> m) true n) as [H1 H2];
        [apply lookup_insert_eq|]. split; [exact H1 | now apply H2].
    + destruct Hin as [->|Hin]; [congruence|].
      destruct (m !! Name repo).
      * apply (IH _ _ n b r); [now rewrite lookup_insert_ne | assumption..].
      * apply (IH _ _ n b r); [now rewrite lookup_insert_ne | assumption..].
  - rewrite collisionLoop_skip by exact He.
    destruct Hin as [->|Hin]; [congruence|]. now apply (IH _ _ n b r).
Qed.

(** Two eligible repositories of one name, at different places of the
    list, leave the name marked. *)
Lemma collisionLoop_twice repos : forall m has (i j : nat) ri rj,
  (i < j)%nat -> repos !! i = Some ri -> repos !! j = Some rj ->
  eligible ri = true -> eligible rj = true -> Name ri = Name rj ->
  fst (collisionLoop repos m has) !! Name ri = Some true
  /\ snd (collisionLoop repos m has) = true.
Proof.
  induction repos as [|repo rest IH]; intros m has i j ri rj Hlt Hi Hj Ei Ej Hname;
    [discriminate|].
  destruct j as [|j]; [lia|]. cbn in Hj.
  destruct i as [|i].
  - cbn in Hi. injection Hi as ->.
    rewrite collisionLoop_step by exact Ei.
    assert (Hin : In rj rest) by (apply list_elem_of_In; eapply list_elem_of_lookup_2; eauto).
    destruct (m !! Name ri) as [b|].
    + apply (collisionLoop_again rest _ _ (Name ri) true rj);
        [apply lookup_insert_eq | assumption | assumption | congruence].
    + apply (collisionLoop_again rest _ _ (Name ri) false rj);
        [apply lookup_insert_eq | assumption | assumption | congruence].
  - cbn in Hi.
    destruct (eligible repo) eqn:He.
    + rewrite collisionLoop_step by exact He.
      destruct (m !! Name repo); apply (IH _ _ i j ri rj); (lia || assumption).
    + rewrite collisionLoop_skip by exact He. apply (IH _ _ i j ri rj); (lia || assumption).
Qed.

(** C5, as stated, fails: without a GitLab token no collision is looked
    for, and two kept repositories named [app] of different subgroups are
    planned into one and the same directory. *)
Lemma C5_counterexample :
  hasRepoNameCollisions noTokenEnv [appOfTeamA; appOfTeamB] = (∅, false)
  /\ planAll noTokenEnv "/clones/group" [appOfTeamA; appOfTeamB]
     = [Returns "/clones/group/app"; Returns "/clones/group/app"].
Proof. split; vm_compute; reflexivity. Qed.

(** C5, amended: with a GitLab token configured and directory
    preservation off, any two distinct kept Repos that are not wikis or
    snippets and share a short Name are both marked in the collision map,
    so the planner appends to each slug the suffix derived from its
    namespace path (cut at 248 bytes as [trimCollisionFilename] does);
    and their destinations differ whenever the two resulting names are
    different path segments.  (Without a token, or with directory
    preservation, the map is empty and nothing is appended.) *)
Theorem C5_collisions_are_marked (env : gmap string string) (out : string)
    (repos : list Repo) (i j : nat) (ri rj : Repo) :
  Getenv env "GHORG_GITLAB_TOKEN" <> "" ->
  Getenv env "GHORG_PRESERVE_DIRECTORY_STRUCTURE" <> "true" ->
  repos !! i = Some ri -> repos !! j = Some rj -> i <> j ->
  eligible ri = true -> eligible rj = true ->
  Name ri = Name rj ->
  let m := fst (hasRepoNameCollisions env repos) in
  let has := snd (hasRepoNameCollisions env repos) in
  m !! Name ri = Some true /\ m !! Name rj = Some true /\ has = true
  /\ (forall slug, planSlug m has ri slug
                   = trimCollisionFilename (slug ++ "_" ++ namespaceSuffix ri))
  /\ (forall slug, planSlug m has rj slug
                   = trimCollisionFilename (slug ++ "_" ++ namespaceSuffix rj))
  /\ (forall slugi slugj si sj,
        planSlug m has ri slugi = Returns si -> planSlug m has rj slugj = Returns sj ->
        validName si = true -> validName sj = true -> si <> sj ->
        exists pi pj, planHostPath out m has ri slugi = Returns pi
                      /\ planHostPath out m has rj slugj = Returns pj /\ pi <> pj).
Proof.
  intros Htok Hpres Hi Hj Hij Ei Ej Hname m has.
  assert (Hmark : m !! Name ri = Some true /\ has = true).
  { subst m has. unfold hasRepoNameCollisions.
    apply String.eqb_neq in Htok, Hpres. rewrite Htok, Hpres.
    destruct (Nat.lt_total i j) as [Hlt|[->|Hlt]]; [|congruence|].
    - now apply (collisionLoop_twice repos ∅ false i j ri rj).
    - rewrite Hname. now apply (collisionLoop_twice repos ∅ false j i rj ri). }
  destruct Hmark as [Hm Hhas].
  assert (Hmj : m !! Name rj = Some true) by now rewrite <- Hname.
  assert (Pi : forall slug, planSlug m has ri slug
                            = trimCollisionFilename (slug ++ "_" ++ namespaceSuffix ri)).
  { intros slug. unfold planSlug. rewrite Hhas, Hm. unfold eligible in Ei.
    cbn [andb]. now rewrite Ei. }
  assert (Pj : forall slug, planSlug m has rj slug
                            = trimCollisionFilename (slug ++ "_" ++ namespaceSuffix rj)).
  { intros slug. unfold planSlug. rewrite Hhas, Hmj. unfold eligible in Ej.
    cbn [andb]. now rewrite Ej. }
  repeat split; try assumption.
  intros slugi slugj si sj Hsi Hsj Vi Vj Hne.
  unfold planHostPath. rewrite Hsi, Hsj. do 2 eexists. repeat split.
  intros E. apply (f_equal lastElem) in E.
  rewrite !lastElem_Join in E by assumption. congruence.
Qed.

Lemma C5_collisions_are_marked_witness :
  planAll tokenEnv "/clones/group" [appOfTeamA; appOfTeamB]
  = [Returns "/clones/group/app_group_team-a_app"; Returns "/clones/group/app_group_team-b_app"]
  /\ exists pi pj,
       planHostPath "/clones/group" (fst (hasRepoNameCollisions tokenEnv [appOfTeamA; appOfTeamB]))
         (snd (hasRepoNameCollisions tokenEnv [appOfTeamA; appOfTeamB])) appOfTeamA "app" = Returns pi
       /\ planHostPath "/clones/group" (fst (hasRepoNameCollisions tokenEnv [appOfTeamA; appOfTeamB]))
         (snd (hasRepoNameCollisions tokenEnv [appOfTeamA; appOfTeamB])) appOfTeamB "app" = Returns pj
       /\ pi <> pj.
Proof.
  split; [vm_compute; reflexivity|].
  destruct (C5_collisions_are_marked tokenEnv "/clones/group" [appOfTeamA; appOfTeamB]
              0 1 appOfTeamA appOfTeamB) as (_ & _ & _ & _ & _ & H);
    [vm_compute; discriminate | vm_compute; discriminate | reflexivity | reflexivity
    | discriminate | reflexivity | reflexivity | reflexivity |].
  apply (H "app" "app" "app_group_team-a_app" "app_group_team-b_app");
    [vm_compute; reflexivity | vm_compute; reflexivity | vm_compute; reflexivity
    | vm_compute; reflexivity | discriminate].
Defined.

(** ** Merging: [MergeFastForward] *)

(** The subprocess backend moves nothing unless the merge is a
    fast-forward: when the head is not an ancestor of the commit
    [origin/<CloneBranch>] stands for, the clone on disk stays as it is,
    with an error when the two have diverged and with success when the
    remote commit is already contained in the head. *)
Lemma GitClient_MergeFastForward_strict (h : git.Host) (repo : Repo) (r : git.Repository)
    (ours theirs : git.Hash) :
  git.disk h !! HostPath repo = Some r ->
  gitcli.resolveName r "HEAD" = Some ours ->
  gitcli.revParse r ("origin/" ++ CloneBranch repo) = Some theirs ->
  git.isAncestor (git.commits r) ours theirs = false ->
  git.disk (snd (GitClient.MergeFastForward h repo)) = git.disk h
  /\ (git.isAncestor (git.commits r) theirs ours = false ->
      fst (GitClient.MergeFastForward h repo) = Some "exit status 128")
  /\ (git.isAncestor (git.commits r) theirs ours = true ->
      git.worktree r <> None ->
      fst (GitClient.MergeFastForward h repo) = None).
Proof.
  intros Hr Ho Ht Hna.
  unfold GitClient.MergeFastForward, GitClient.runGitCommand, gitcli.run.
  rewrite Hr, Ht, Ho.
  destruct (git.worktree r) as [w|].
  - destruct (git.isAncestor (git.commits r) theirs ours) eqn:Hup.
    + cbn. repeat split; congruence.
    + rewrite Hna. cbn. repeat split; congruence.
  - cbn. repeat split; congruence.
Qed.

(** C2: the claim holds for the subprocess backend on this input and
    fails for the library backend.  The clone is on [main] at a local
    commit [L]; [origin/main] is at [Y]; both have the parent [X], so [L]
    is not an ancestor of [Y].  [GitClient.MergeFastForward] refuses and
    leaves the clone alone.  [goGitClient.MergeFastForward] returns no
    error and resets [main] and the working tree to [Y]: the branch moved
    and the local commit is no longer on it. *)
Theorem C2_goGit_MergeFastForward_moves_diverged_branch :
  let h := Fixture.host Fixture.diverged in
  git.isAncestor (git.commits Fixture.diverged) Fixture.L Fixture.Y = false
  /\ git.refs Fixture.diverged !! "refs/heads/main" = Some Fixture.L
  /\ GitClient.MergeFastForward h Fixture.repo
     = (Some "exit status 128", git.note h (git.RanMerge Fixture.dir "origin/main"))
  /\ fst (goGitClient.MergeFastForward h Fixture.repo) = None
  /\ (git.refs <$> git.disk (snd (goGitClient.MergeFastForward h Fixture.repo)) !! Fixture.dir)
       ≫= (fun m => m !! "refs/heads/main") = Some Fixture.Y
  /\ (git.worktree <$> git.disk (snd (goGitClient.MergeFastForward h Fixture.repo)) !! Fixture.dir)
     = Some (Some (git.mkWorkTree Fixture.Y [])).
Proof. vm_compute. repeat split; reflexivity. Qed.

(** ** Syncing: the skips of [SyncDefaultBranch] *)

(** The backend in use is one of the two. *)
Lemma NewGit_cases env : NewGit env = execGit \/ NewGit env = goGit.
Proof. unfold NewGit. destruct (String.eqb _ "exec"); [now left | now right]. Qed.

(** C1, as stated, fails: with the subprocess backend, a working directory
    with uncommitted changes does not always give [(false, nil)].  Here
    the default branch cannot be determined and none is configured, and
    [SyncDefaultBranch] returns an error before it looks at the working
    directory. *)
Lemma C1_counterexample :
  let g := NewGit (git.env offlineHost) in
  HasLocalChanges g offlineHost repoWithoutBranch = Ok true
  /\ SyncDefaultBranch g offlineHost repoWithoutBranch
     = ((false, Some "failed to determine default branch: exit status 128"), offlineHost)
  /\ fst (SyncDefaultBranch g offlineHost repoWithoutBranch) <> (false, None).
Proof.
  split; [vm_compute; reflexivity|]. split; [vm_compute; reflexivity|].
  vm_compute. discriminate.
Qed.

(** C1, amended.  Whichever backend is in use, [SyncDefaultBranch]
    returns [(false, nil)] and leaves the host as it was (the clone
    untouched, no fetch, merge or reference update issued) when sync is
    not enabled, or when no [origin] remote can be read.  When the
    working directory has uncommitted changes, or when the current branch
    is the default branch and the backend's check for unpushed commits
    reports some or fails, it returns [false] and leaves the host as it
    was; the result is [(false, nil)] provided the checks made before
    that one did not fail (in the subprocess backend a failure to
    determine the default branch or the current branch is reported
    first). *)
Theorem C1_sync_skips (h : git.Host) (repo : Repo) :
  let g := NewGit (git.env h) in
  let res := SyncDefaultBranch g h repo in
  (syncEnabled h = false -> res = ((false, None), h))
  /\ (forall e, GetRemoteURL g h repo "origin" = Err e -> res = ((false, None), h))
  /\ (HasLocalChanges g h repo = Ok true ->
      snd res = h /\ fst (fst res) = false
      /\ (forall cur def,
            GetCurrentBranch g h repo = Ok cur -> defaultBranchOf g h repo = Ok def ->
            res = ((false, None), h)))
  /\ (forall def,
        defaultBranchOf g h repo = Ok def -> GetCurrentBranch g h repo = Ok def ->
        HasUnpushedCommits g h repo <> Ok false ->
        snd res = h /\ fst (fst res) = false
        /\ (forall dirty, HasLocalChanges g h repo = Ok dirty -> res = ((false, None), h))).
Proof.
  intros g res. subst g res. unfold syncEnabled, defaultBranchOf.
  destruct (NewGit_cases (git.env h)) as [-> | ->];
    cbn [SyncDefaultBranch GetRemoteURL HasLocalChanges GetCurrentBranch
         GetRemoteDefaultBranch HasUnpushedCommits execGit goGit].
  - unfold GitClient.SyncDefaultBranch.
    generalize (GitClient.syncFrom h repo). intros K.
    destruct (String.eqb (Getenv (git.env h) "GHORG_SYNC_DEFAULT_BRANCH") "true");
      destruct (GitClient.GetRemoteURL h repo "origin") as [u|e0];
      destruct (GitClient.GetRemoteDefaultBranch h repo) as [b|e1];
      destruct (String.eqb (CloneBranch repo) "");
      destruct (GitClient.GetCurrentBranch h repo) as [cur|e2];
      destruct (GitClient.HasLocalChanges h repo) as [[]|e3];
      destruct (GitClient.HasUnpushedCommits h repo) as [[]|e4];
      cbn [negb]; (split; [|split; [|split]]);
      try solve [sync_finish];
      try solve [intros; repeat split; sync_finish].
  - unfold goGitClient.SyncDefaultBranch.
    generalize (goGitClient.syncFrom h repo). intros K.
    destruct (String.eqb (Getenv (git.env h) "GHORG_SYNC_DEFAULT_BRANCH") "true");
      destruct (goGitClient.GetRemoteURL h repo "origin") as [u|e0];
      destruct (goGitClient.GetRemoteDefaultBranch h repo) as [b|e1];
      destruct (String.eqb (CloneBranch repo) "");
      destruct (goGitClient.GetCurrentBranch h repo) as [cur|e2];
      destruct (goGitClient.HasLocalChanges h repo) as [[]|e3];
      destruct (goGitClient.HasUnpushedCommits h repo) as [[]|e4];
      cbn [negb]; (split; [|split; [|split]]);
      try solve [sync_finish];
      try solve [intros; repeat split; sync_finish].
Qed.

Lemma C1_sync_skips_witness :
  SyncDefaultBranch (NewGit (git.env (Fixture.host (Fixture.dirty Fixture.onDefault))))
    (Fixture.host (Fixture.dirty Fixture.onDefault)) Fixture.repo
  = ((false, None), Fixture.host (Fixture.dirty Fixture.onDefault)).
Proof.
  refine (proj2 (proj2 (proj1 (proj2 (proj2
            (C1_sync_skips (Fixture.host (Fixture.dirty Fixture.onDefault)) Fixture.repo))) _))
          "main" "main" _ _); vm_compute; reflexivity.
Defined.

(** ** Syncing from another branch *)

Lemma heads_not_remotes x y : ("refs/heads/" ++ x)%string <> ("refs/remotes/origin/" ++ y)%string.
Proof. intros E. apply (f_equal (strings.take 6)) in E. discriminate E. Qed.

Lemma heads_not_HEAD x : String.eqb ("refs/heads/" ++ x) "HEAD" = false.
Proof. reflexivity. Qed.

Lemma remotes_not_HEAD x : String.eqb ("refs/remotes/origin/" ++ x) "HEAD" = false.
Proof. reflexivity. Qed.

Lemma heads_not_originHEAD x : String.eqb ("refs/heads/" ++ x) "refs/remotes/origin/HEAD" = false.
Proof. reflexivity. Qed.

Lemma remotes_originHEAD x :
  x <> "HEAD" -> String.eqb ("refs/remotes/origin/" ++ x) "refs/remotes/origin/HEAD" = false.
Proof.
  intros H. apply String.eqb_neq. intros E.
  apply (String.app_inj "refs/remotes/origin/" x "HEAD") in E. congruence.
Qed.

Lemma heads_inj x y : ("refs/heads/" ++ x)%string = ("refs/heads/" ++ y)%string -> x = y.
Proof. apply (String.app_inj "refs/heads/"). Qed.

(** Trimming what was trimmed, with a line end added, changes nothing. *)
Lemma TrimLeftSpace_noLeading s : noLeadingSpace (strings.TrimLeftSpace s).
Proof.
  induction s as [|c s IH]; [exact I|]. cbn [strings.TrimLeftSpace].
  destruct (strings.isSpace c) eqn:E; [exact IH | exact E].
Qed.

Lemma TrimLeftSpace_id s : noLeadingSpace s -> strings.TrimLeftSpace s = s.
Proof. destruct s as [|c s]; [reflexivity|]. cbn. now intros ->. Qed.

Lemma TrimRightSpace_noLeading s :
  noLeadingSpace s -> noLeadingSpace (strings.TrimRightSpace s).
Proof.
  destruct s as [|c s]; [exact (fun x => x)|]. cbn [noLeadingSpace strings.TrimRightSpace].
  intros E. destruct (strings.TrimRightSpace s); [now rewrite E | exact E].
Qed.

Lemma TrimRightSpace_nl s :
  strings.TrimRightSpace (s ++ String "010" "") = strings.TrimRightSpace s.
Proof.
  induction s as [|c s IH]; [reflexivity|].
  rewrite sapp_cons. cbn [strings.TrimRightSpace]. now rewrite IH.
Qed.

Lemma TrimRightSpace_cons c s :
  strings.TrimRightSpace (String c s)
  = match strings.TrimRightSpace s with
    | "" => if strings.isSpace c then "" else String c ""
    | t => String c t
    end.
Proof. reflexivity. Qed.

Lemma TrimRightSpace_idem s :
  strings.TrimRightSpace (strings.TrimRightSpace s) = strings.TrimRightSpace s.
Proof.
  induction s as [|c s IH]; [reflexivity|]. rewrite (TrimRightSpace_cons c s).
  destruct (strings.TrimRightSpace s) as [|d t] eqn:E.
  - destruct (strings.isSpace c) eqn:Ec; [reflexivity|].
    rewrite TrimRightSpace_cons. cbn [strings.TrimRightSpace]. now rewrite Ec.
  - rewrite TrimRightSpace_cons, IH. reflexivity.
Qed.

Lemma TrimSpace_again s :
  strings.TrimSpace (strings.TrimSpace s ++ String "010" "") = strings.TrimSpace s.
Proof.
  unfold strings.TrimSpace at 1.
  pose proof (TrimRightSpace_noLeading _ (TrimLeftSpace_noLeading s)) as N.
  fold (strings.TrimSpace s) in N.
  destruct (strings.TrimSpace s) as [|c t] eqn:E; [reflexivity|].
  rewrite sapp_cons. rewrite TrimLeftSpace_id by exact N.
  rewrite <- sapp_cons, TrimRightSpace_nl, <- E.
  unfold strings.TrimSpace. apply TrimRightSpace_idem.
Qed.

Section SyncFromAnotherBranch.

Variable g : Gitter.

(** What the rest of the argument needs of a backend. *)
Hypothesis fetch_frame : forall h repo r,
  git.disk h !! HostPath repo = Some r ->
  exists r1 new,
    git.disk (snd (FetchCloneBranch g h repo)) !! HostPath repo = Some r1
    /\ git.journal (snd (FetchCloneBranch g h repo)) = (git.journal h ++ new)%list
    /\ forallb isFetchOrSetRef new = true
    /\ git.HEAD r1 = git.HEAD r /\ git.worktree r1 = git.worktree r
    /\ (forall n, n <> ("refs/remotes/origin/" ++ CloneBranch repo)%string ->
                  git.refs r1 !! n = git.refs r !! n).

Hypothesis update_frame : forall h repo r def,
  git.disk h !! HostPath repo = Some r ->
  let run := UpdateRef g h repo ("refs/heads/" ++ def) ("refs/remotes/origin/" ++ def) in
  exists r2 new,
    git.disk (snd run) !! HostPath repo = Some r2
    /\ git.journal (snd run) = (git.journal h ++ new)%list
    /\ forallb isFetchOrSetRef new = true
    /\ git.HEAD r2 = git.HEAD r /\ git.worktree r2 = git.worktree r
    /\ (forall n, n <> ("refs/heads/" ++ def)%string -> git.refs r2 !! n = git.refs r !! n)
    /\ (fst run = None -> def <> "HEAD" ->
        exists c, GetRefHash g (snd run) repo ("refs/heads/" ++ def) = Ok c
                  /\ GetRefHash g (snd run) repo ("refs/remotes/origin/" ++ def) = Ok c).

Lemma syncFromWith_other_branch h repo r cur def :
  git.disk h !! HostPath repo = Some r -> cur <> def ->
  let run := syncFromWith g h repo cur def in
  exists r' new,
    git.disk (snd run) !! HostPath repo = Some r'
    /\ git.journal (snd run) = (git.journal h ++ new)%list
    /\ forallb isFetchOrSetRef new = true
    /\ git.HEAD r' = git.HEAD r /\ git.worktree r' = git.worktree r
    /\ (forall b, b <> def ->
          git.refs r' !! ("refs/heads/" ++ b)%string = git.refs r !! ("refs/heads/" ++ b)%string)
    /\ (snd (fst run) = None -> def <> "HEAD" ->
        exists c, GetRefHash g (snd run) repo ("refs/heads/" ++ def) = Ok c
                  /\ GetRefHash g (snd run) repo ("refs/remotes/origin/" ++ def) = Ok c).
Proof.
  intros Hr Hne run. subst run. unfold syncFromWith.
  destruct (fetch_frame h (goGitClient.withCloneBranch repo def) r Hr)
    as (r1 & new1 & Hd1 & Hj1 & Hn1 & Hh1 & Hw1 & Hf1).
  cbn [goGitClient.withCloneBranch HostPath CloneBranch] in *.
  destruct (FetchCloneBranch g h (goGitClient.withCloneBranch repo def)) as [[e|] h1].
  - cbn [fst snd] in *. exists r1, new1. repeat split; try assumption.
    + intros b Hb. apply Hf1. apply heads_not_remotes.
    + discriminate.
  - cbn [fst snd] in *. apply String.eqb_neq in Hne. rewrite Hne.
    destruct (update_frame h1 repo r1 def Hd1)
      as (r2 & new2 & Hd2 & Hj2 & Hn2 & Hh2 & Hw2 & Hf2 & Hok).
    destruct (UpdateRef g h1 repo ("refs/heads/" ++ def) ("refs/remotes/origin/" ++ def))
      as [[e|] h2]; cbn [fst snd option_map] in *.
    + exists r2, (new1 ++ new2)%list. repeat split.
      * exact Hd2.
      * now rewrite Hj2, Hj1, app_assoc.
      * rewrite forallb_app. now rewrite Hn1, Hn2.
      * congruence.
      * congruence.
      * intros b Hb. rewrite Hf2, Hf1; [reflexivity | apply heads_not_remotes |].
        intros E. apply heads_inj in E. congruence.
      * discriminate.
    + destruct (GetRefHash g h2 repo ("refs/heads/" ++ def)) as [afterHash|e2] eqn:Hafter;
        cbn [fst snd]; exists r2, (new1 ++ new2)%list;
        (split; [exact Hd2|]);
        (split; [now rewrite Hj2, Hj1, app_assoc|]);
        (split; [rewrite forallb_app; now rewrite Hn1, Hn2|]);
        (split; [congruence|]);
        (split; [congruence|]);
        (split;
          [intros b Hb; rewrite Hf2, Hf1;
             [reflexivity | apply heads_not_remotes
             | intros E; apply heads_inj in E; congruence]|]);
        intros _ Hd; destruct (Hok eq_refl Hd) as (c & C1 & C2);
        exists c; split; congruence.
Qed.

End SyncFromAnotherBranch.

(** *** The subprocess backend *)

Lemma length_sapp (s t : string) :
  String.length (s ++ t) = (String.length s + String.length t)%nat.
Proof.
  induction s as [|c s IH]; [now rewrite sapp_nil|].
  rewrite sapp_cons. cbn [String.length]. now rewrite IH.
Qed.

Lemma remotes_not_self x : ("refs/remotes/origin/" ++ x)%string <> x.
Proof.
  intros E. apply (f_equal String.length) in E. rewrite length_sapp in E.
  cbn [String.length] in E. lia.
Qed.

Lemma run_RevParse h dir r rev :
  git.disk h !! dir = Some r ->
  gitcli.run (gitcli.RevParse rev) dir h
  = (match gitcli.revParse r rev with
     | Some c => Ok (c ++ gitcli.nl)%string
     | None => Err "exit status 128"
     end, h).
Proof. intros E. unfold gitcli.run. rewrite E. now destruct (gitcli.revParse r rev). Qed.

Lemma exec_GetRefHash h repo r ref :
  git.disk h !! HostPath repo = Some r ->
  GitClient.GetRefHash h repo ref
  = match gitcli.revParse r ref with
    | Some c => Ok (strings.TrimSpace (c ++ gitcli.nl))
    | None => Err "exit status 128"
    end.
Proof.
  intros E. unfold GitClient.GetRefHash, GitClient.runGitCommandWithOutput.
  rewrite (run_RevParse h _ r ref E). now destruct (gitcli.revParse r ref).
Qed.

Lemma resolveName_setRef r name c n :
  n <> name -> String.eqb n "HEAD" = false ->
  String.eqb n "refs/remotes/origin/HEAD" = false ->
  gitcli.resolveName (git.setRef r name c) n = gitcli.resolveName r n.
Proof.
  intros Hn H1 H2. unfold gitcli.resolveName. rewrite H1, H2.
  cbn [git.refs git.setRef]. now apply lookup_insert_ne, not_eq_sym.
Qed.

Lemma revParse_branch_set r b c :
  gitcli.revParse (git.setRef r ("refs/heads/" ++ b) c) ("refs/heads/" ++ b) = Some c.
Proof.
  unfold gitcli.revParse, gitcli.firstResolved, gitcli.resolveName.
  rewrite heads_not_HEAD, heads_not_originHEAD. cbn [git.refs git.setRef].
  now rewrite lookup_insert_eq.
Qed.

Lemma revParse_tracking_kept r def c :
  def <> "HEAD" ->
  gitcli.revParse (git.setRef r ("refs/heads/" ++ def) c) ("refs/remotes/origin/" ++ def)
  = gitcli.revParse r ("refs/remotes/origin/" ++ def).
Proof.
  intros Hd. unfold gitcli.revParse, gitcli.firstResolved.
  pose proof (resolveName_setRef r ("refs/heads/" ++ def) c) as R.
  rewrite (R ("refs/remotes/origin/" ++ def)%string)
    by (first [by_prefix | reflexivity | now apply remotes_originHEAD]).
  rewrite (R ("refs/" ++ ("refs/remotes/origin/" ++ def))%string)
    by (first [by_prefix | reflexivity]).
  rewrite (R ("refs/tags/" ++ ("refs/remotes/origin/" ++ def))%string)
    by (first [by_prefix | reflexivity]).
  rewrite (R ("refs/heads/" ++ ("refs/remotes/origin/" ++ def))%string)
    by (first [ reflexivity
              | intros E; apply heads_inj in E; exact (remotes_not_self def E)]).
  rewrite (R ("refs/remotes/" ++ ("refs/remotes/origin/" ++ def))%string)
    by (first [by_prefix | reflexivity]).
  rewrite (R ("refs/remotes/" ++ (("refs/remotes/origin/" ++ def) ++ "/HEAD"))%string)
    by (first [by_prefix | reflexivity]).
  reflexivity.
Qed.

Lemma exec_fetch_frame h repo r :
  git.disk h !! HostPath repo = Some r ->
  exists r1 new,
    git.disk (snd (GitClient.FetchCloneBranch h repo)) !! HostPath repo = Some r1
    /\ git.journal (snd (GitClient.FetchCloneBranch h repo)) = (git.journal h ++ new)%list
    /\ forallb isFetchOrSetRef new = true
    /\ git.HEAD r1 = git.HEAD r /\ git.worktree r1 = git.worktree r
    /\ (forall n, n <> ("refs/remotes/origin/" ++ CloneBranch repo)%string ->
                  git.refs r1 !! n = git.refs r !! n).
Proof.
  intros Hr. unfold GitClient.FetchCloneBranch, GitClient.runGitCommand, gitcli.run.
  rewrite Hr.
  destruct (git.remotes r !! "origin") as [[|url urls]|];
    [| destruct (git.network h !! url) as [rm|];
       [destruct (git.heads rm !! CloneBranch repo) as [c|] |] |];
    cbn [fst snd git.note git.withRepo git.disk git.journal].
  2: { exists (git.fetched r rm (CloneBranch repo) c), [git.RanFetch (HostPath repo) (CloneBranch repo)].
       rewrite lookup_insert_eq. cbn [git.fetched git.HEAD git.worktree git.refs].
       repeat split. intros n Hn. now apply lookup_insert_ne, not_eq_sym. }
  all: exists r, [git.RanFetch (HostPath repo) (CloneBranch repo)]; now repeat split.
Qed.

Lemma exec_update_frame h repo r def :
  git.disk h !! HostPath repo = Some r ->
  let run := GitClient.UpdateRef h repo ("refs/heads/" ++ def) ("refs/remotes/origin/" ++ def) in
  exists r2 new,
    git.disk (snd run) !! HostPath repo = Some r2
    /\ git.journal (snd run) = (git.journal h ++ new)%list
    /\ forallb isFetchOrSetRef new = true
    /\ git.HEAD r2 = git.HEAD r /\ git.worktree r2 = git.worktree r
    /\ (forall n, n <> ("refs/heads/" ++ def)%string -> git.refs r2 !! n = git.refs r !! n)
    /\ (fst run = None -> def <> "HEAD" ->
        exists c, GitClient.GetRefHash (snd run) repo ("refs/heads/" ++ def) = Ok c
                  /\ GitClient.GetRefHash (snd run) repo ("refs/remotes/origin/" ++ def) = Ok c).
Proof.
  intros Hr run. subst run.
  unfold GitClient.UpdateRef, GitClient.runGitCommandWithOutput.
  rewrite (run_RevParse h _ r _ Hr).
  destruct (gitcli.revParse r ("refs/remotes/origin/" ++ def)) as [c0|] eqn:Hrev.
  - unfold GitClient.runGitCommand, gitcli.run. rewrite Hr.
    set (sha := strings.TrimSpace (c0 ++ gitcli.nl)).
    destruct (git.commits r !! sha) as [ps|] eqn:Hc;
      cbn [fst snd git.note git.withRepo git.disk git.journal].
    + exists (git.setRef r ("refs/heads/" ++ def) sha),
             [git.RanSetRef (HostPath repo) ("refs/heads/" ++ def) sha].
      rewrite lookup_insert_eq. cbn [git.setRef git.HEAD git.worktree git.refs].
      split; [reflexivity|]. split; [reflexivity|]. split; [reflexivity|].
      split; [reflexivity|]. split; [reflexivity|].
      split; [intros n Hn; now apply lookup_insert_ne, not_eq_sym|].
      intros _ Hd. exists sha.
      rewrite !(exec_GetRefHash _ repo (git.setRef r ("refs/heads/" ++ def) sha))
        by (cbn [git.disk]; apply lookup_insert_eq).
      rewrite revParse_branch_set, (revParse_tracking_kept r def sha Hd), Hrev.
      split; [|reflexivity]. f_equal. apply TrimSpace_again.
    + exists r, [git.RanSetRef (HostPath repo) ("refs/heads/" ++ def) sha].
      repeat split; try assumption. discriminate.
  - cbn [fst snd]. exists r, []. rewrite app_nil_r.
    repeat split; try assumption. discriminate.
Qed.

(** *** The library backend *)

Lemma gogit_Reference_plain r name :
  String.eqb name "HEAD" = false ->
  String.eqb name "refs/remotes/origin/HEAD" = false ->
  gogit.Reference_ r name true
  = match git.refs r !! name with
    | Some c => Ok (gogit.HashReference name c)
    | None => Err "reference not found"
    end.
Proof.
  intros H1 H2. unfold gogit.Reference_, gogit.storerReference. rewrite H1, H2.
  now destruct (git.refs r !! name).
Qed.

Lemma gogit_GetRefHash h repo r name :
  git.disk h !! HostPath repo = Some r ->
  String.eqb name "HEAD" = false ->
  String.eqb name "refs/remotes/origin/HEAD" = false ->
  goGitClient.GetRefHash h repo name
  = match git.refs r !! name with
    | Some c => Ok c
    | None => Err "reference not found"
    end.
Proof.
  intros Hr H1 H2. unfold goGitClient.GetRefHash, gogit.PlainOpen. rewrite Hr.
  rewrite (gogit_Reference_plain r name H1 H2). now destruct (git.refs r !! name).
Qed.

Lemma gogit_GetRefHash_Some h repo r name c :
  git.disk h !! HostPath repo = Some r ->
  String.eqb name "HEAD" = false ->
  String.eqb name "refs/remotes/origin/HEAD" = false ->
  git.refs r !! name = Some c ->
  goGitClient.GetRefHash h repo name = Ok c.
Proof.
  intros Hr H1 H2 Hc. rewrite (gogit_GetRefHash h repo r name Hr H1 H2).
  now rewrite Hc.
Qed.

Lemma gogit_fetch_frame h repo r :
  git.disk h !! HostPath repo = Some r ->
  exists r1 new,
    git.disk (snd (goGitClient.FetchCloneBranch h repo)) !! HostPath repo = Some r1
    /\ git.journal (snd (goGitClient.FetchCloneBranch h repo)) = (git.journal h ++ new)%list
    /\ forallb isFetchOrSetRef new = true
    /\ git.HEAD r1 = git.HEAD r /\ git.worktree r1 = git.worktree r
    /\ (forall n, n <> ("refs/remotes/origin/" ++ CloneBranch repo)%string ->
                  git.refs r1 !! n = git.refs r !! n).
Proof.
  intros Hr. unfold goGitClient.FetchCloneBranch, gogit.PlainOpen. rewrite Hr.
  assert (F : exists r1, snd (gogit.Fetch h r (CloneBranch repo)) = r1
              /\ git.HEAD r1 = git.HEAD r /\ git.worktree r1 = git.worktree r
              /\ (forall n, n <> ("refs/remotes/origin/" ++ CloneBranch repo)%string ->
                            git.refs r1 !! n = git.refs r !! n)).
  { unfold gogit.Fetch.
    destruct (gogit.RemoteURLs r "origin") as [[|url urls]|e];
      [| destruct (git.network h !! url) as [rm|];
         [destruct (git.heads rm !! CloneBranch repo) as [c|];
          [destruct (bool_decide _)|] |] |];
      cbn [snd]; eexists; (split; [reflexivity|]);
      cbn [git.fetched git.HEAD git.worktree git.refs]; repeat split.
    intros n Hn. now apply lookup_insert_ne, not_eq_sym. }
  destruct F as (r1 & E1 & F1 & F2 & F3).
  destruct (gogit.Fetch h r (CloneBranch repo)) as [err r']. cbn [snd] in E1. subst r'.
  exists r1, [git.RanFetch (HostPath repo) (CloneBranch repo)].
  destruct err as [e|]; [destruct (String.eqb e gogit.NoErrAlreadyUpToDate)|];
    cbn [snd git.withRepo git.disk git.journal]; rewrite lookup_insert_eq;
    now repeat split.
Qed.

Lemma gogit_update_frame h repo r def :
  git.disk h !! HostPath repo = Some r ->
  let run := goGitClient.UpdateRef h repo ("refs/heads/" ++ def) ("refs/remotes/origin/" ++ def) in
  exists r2 new,
    git.disk (snd run) !! HostPath repo = Some r2
    /\ git.journal (snd run) = (git.journal h ++ new)%list
    /\ forallb isFetchOrSetRef new = true
    /\ git.HEAD r2 = git.HEAD r /\ git.worktree r2 = git.worktree r
    /\ (forall n, n <> ("refs/heads/" ++ def)%string -> git.refs r2 !! n = git.refs r !! n)
    /\ (fst run = None -> def <> "HEAD" ->
        exists c, goGitClient.GetRefHash (snd run) repo ("refs/heads/" ++ def) = Ok c
                  /\ goGitClient.GetRefHash (snd run) repo ("refs/remotes/origin/" ++ def) = Ok c).
Proof.
  intros Hr run. subst run. unfold goGitClient.UpdateRef, gogit.PlainOpen. rewrite Hr.
  destruct (gogit.Reference_ r ("refs/remotes/origin/" ++ def) true) as [ref|e] eqn:Href;
    cbn [fst snd git.withRepo git.disk git.journal].
  - exists (git.setRef r ("refs/heads/" ++ def) (gogit.refHash ref)),
           [git.RanSetRef (HostPath repo) ("refs/heads/" ++ def) (gogit.refHash ref)].
    rewrite lookup_insert_eq. cbn [git.setRef git.HEAD git.worktree git.refs].
    split; [reflexivity|]. split; [reflexivity|]. split; [reflexivity|].
    split; [reflexivity|]. split; [reflexivity|].
    split; [intros n Hn; now apply lookup_insert_ne, not_eq_sym|].
    intros _ Hd. exists (gogit.refHash ref).
    rewrite (gogit_Reference_plain r _ (remotes_not_HEAD def) (remotes_originHEAD def Hd)) in Href.
    destruct (git.refs r !! ("refs/remotes/origin/" ++ def)%string) as [c0|] eqn:Hc0;
      [|discriminate Href].
    injection Href as <-. cbn [gogit.refHash].
    split.
    + apply (gogit_GetRefHash_Some _ repo (git.setRef r ("refs/heads/" ++ def) c0));
        [cbn [git.disk]; apply lookup_insert_eq | reflexivity | reflexivity |].
      cbn [git.setRef git.refs]. apply lookup_insert_eq.
    + apply (gogit_GetRefHash_Some _ repo (git.setRef r ("refs/heads/" ++ def) c0));
        [cbn [git.disk]; apply lookup_insert_eq | reflexivity
        | now apply remotes_originHEAD |].
      cbn [git.setRef git.refs].
      etransitivity; [apply lookup_insert_ne, heads_not_remotes | exact Hc0].
  - exists r, []. rewrite app_nil_r. repeat split; try assumption. discriminate.
Qed.

Lemma exec_sync_reaches h repo u cur def :
  syncEnabled h = true ->
  GitClient.GetRemoteURL h repo "origin" = Ok u ->
  GitClient.HasLocalChanges h repo = Ok false ->
  GitClient.GetCurrentBranch h repo = Ok cur ->
  defaultBranchOf execGit h repo = Ok def ->
  cur <> def ->
  GitClient.SyncDefaultBranch h repo = syncFromWith execGit h repo cur def.
Proof.
  unfold syncEnabled, defaultBranchOf. cbn [GetRemoteDefaultBranch execGit].
  intros He Hu Hc Hb Hd Hne. unfold GitClient.SyncDefaultBranch.
  rewrite He, Hu. cbv zeta. rewrite Hd, Hb, Hc.
  apply String.eqb_neq in Hne. rewrite Hne. reflexivity.
Qed.

Lemma gogit_sync_reaches h repo u cur def :
  syncEnabled h = true ->
  goGitClient.GetRemoteURL h repo "origin" = Ok u ->
  goGitClient.HasLocalChanges h repo = Ok false ->
  goGitClient.GetCurrentBranch h repo = Ok cur ->
  defaultBranchOf goGit h repo = Ok def ->
  cur <> def ->
  goGitClient.SyncDefaultBranch h repo = syncFromWith goGit h repo cur def.
Proof.
  unfold syncEnabled, defaultBranchOf. cbn [GetRemoteDefaultBranch goGit].
  intros He Hu Hc Hb Hd Hne. unfold goGitClient.SyncDefaultBranch.
  rewrite He, Hu, Hc, Hb. cbv zeta. rewrite Hd.
  apply String.eqb_neq in Hne. rewrite Hne. reflexivity.
Qed.

(** C6: when [SyncDefaultBranch] gets to the sync in a clone whose
    current branch is not the default branch (sync enabled, an [origin]
    configured, a clean working directory, both branches determined), with
    either backend, the only Git operations issued are fetches and reference
    updates, never a merge or a reset; [HEAD], the working tree and every
    branch other than the default one, the current branch among them, are
    afterwards what they were; and when no error is reported,
    [refs/heads/<default>] resolves to the commit that
    [refs/remotes/origin/<default>] resolves to.  The last part is for a
    default branch not called [HEAD], which Git does not allow as a branch
    name. *)
Theorem C6_sync_from_another_branch (h : git.Host) (repo : Repo) (r : git.Repository)
    (u cur def : string) :
  let g := NewGit (git.env h) in
  syncEnabled h = true ->
  git.disk h !! HostPath repo = Some r ->
  GetRemoteURL g h repo "origin" = Ok u ->
  HasLocalChanges g h repo = Ok false ->
  GetCurrentBranch g h repo = Ok cur ->
  defaultBranchOf g h repo = Ok def ->
  cur <> def ->
  let res := SyncDefaultBranch g h repo in
  exists r' new,
    git.disk (snd res) !! HostPath repo = Some r'
    /\ git.journal (snd res) = (git.journal h ++ new)%list
    /\ forallb isFetchOrSetRef new = true
    /\ git.HEAD r' = git.HEAD r /\ git.worktree r' = git.worktree r
    /\ (forall b, b <> def ->
          git.refs r' !! ("refs/heads/" ++ b)%string = git.refs r !! ("refs/heads/" ++ b)%string)
    /\ (snd (fst res) = None -> def <> "HEAD" ->
        exists c, GetRefHash g (snd res) repo ("refs/heads/" ++ def) = Ok c
                  /\ GetRefHash g (snd res) repo ("refs/remotes/origin/" ++ def) = Ok c).
Proof.
  intros g. subst g.
  destruct (NewGit_cases (git.env h)) as [-> | ->];
    intros He Hr Hu Hc Hb Hd Hne res; subst res.
  - cbn [SyncDefaultBranch execGit] in *.
    rewrite (exec_sync_reaches h repo u cur def He Hu Hc Hb Hd Hne).
    apply (syncFromWith_other_branch execGit); try assumption.
    + intros h0 repo0 r0. apply exec_fetch_frame.
    + intros h0 repo0 r0 def0. apply exec_update_frame.
  - cbn [SyncDefaultBranch goGit] in *.
    rewrite (gogit_sync_reaches h repo u cur def He Hu Hc Hb Hd Hne).
    apply (syncFromWith_other_branch goGit); try assumption.
    + intros h0 repo0 r0. apply gogit_fetch_frame.
    + intros h0 repo0 r0 def0. apply gogit_update_frame.
Qed.

Lemma C6_sync_from_another_branch_witness :
  let h := Fixture.host Fixture.onFeature in
  let res := SyncDefaultBranch (NewGit (git.env h)) h Fixture.repo in
  exists r' new,
    git.disk (snd res) !! HostPath Fixture.repo = Some r'
    /\ git.journal (snd res) = (git.journal h ++ new)%list
    /\ forallb isFetchOrSetRef new = true
    /\ git.HEAD r' = git.HEAD Fixture.onFeature
    /\ git.worktree r' = git.worktree Fixture.onFeature
    /\ (forall b, b <> "main" ->
          git.refs r' !! ("refs/heads/" ++ b)%string
          = git.refs Fixture.onFeature !! ("refs/heads/" ++ b)%string)
    /\ (snd (fst res) = None -> "main" <> "HEAD" ->
        exists c, GetRefHash (NewGit (git.env h)) (snd res) Fixture.repo "refs/heads/main" = Ok c
                  /\ GetRefHash (NewGit (git.env h)) (snd res) Fixture.repo
                       "refs/remotes/origin/main" = Ok c).
Proof.
  apply (C6_sync_from_another_branch (Fixture.host Fixture.onFeature) Fixture.repo
           Fixture.onFeature Fixture.url "feature" "main");
    first [discriminate | vm_compute; reflexivity].
Defined.

(* ================================================================== *)
(** * Further properties of [clone.go] *)
(* ================================================================== *)

(** ** The inventory *)

Lemma inventoryLoop_counts allRepos : forall wikis snippets repos,
  inventoryLoop allRepos wikis snippets repos
  = (wikis + Z.of_nat (length (List.filter (fun r => negb (IsGitLabSnippet r) && IsWiki r) allRepos)),
     snippets + Z.of_nat (length (List.filter IsGitLabSnippet allRepos)),
     repos + Z.of_nat (length (List.filter
                         (fun r => negb (IsGitLabSnippet r) && negb (IsWiki r)) allRepos))).
Proof.
  induction allRepos as [|repo rest IH]; intros wikis snippets repos.
  - cbn [inventoryLoop List.filter length]. pair_eq; lia.
  - cbn [inventoryLoop List.filter].
    destruct (IsGitLabSnippet repo); [|destruct (IsWiki repo)];
      rewrite IH; cbn [negb andb length]; pair_eq; lia.
Qed.

Lemma three_way_split (allRepos : list Repo) :
  (length (List.filter (fun r => negb (IsGitLabSnippet r) && negb (IsWiki r)) allRepos)
   + length (List.filter IsGitLabSnippet allRepos)
   + length (List.filter (fun r => negb (IsGitLabSnippet r) && IsWiki r) allRepos))%nat
  = length allRepos.
Proof.
  induction allRepos as [|repo rest IH]; [reflexivity|].
  cbn [List.filter]. destruct (IsGitLabSnippet repo); [|destruct (IsWiki repo)];
    cbn [negb andb length]; lia.
Qed.

(** X1: [getCloneableInventory] sorts every repository into exactly one of
    three classes: a snippet (whether or not it is also a wiki), else a
    wiki, else a plain repository.  The three counts are the sizes of the
    classes and the total is the length of the list. *)
Theorem X1_inventory_partitions_the_list (allRepos : list Repo) :
  getCloneableInventory allRepos
  = (Z.of_nat (length allRepos),
     Z.of_nat (length (List.filter
                 (fun r => negb (IsGitLabSnippet r) && negb (IsWiki r)) allRepos)),
     Z.of_nat (length (List.filter IsGitLabSnippet allRepos)),
     Z.of_nat (length (List.filter (fun r => negb (IsGitLabSnippet r) && IsWiki r) allRepos))).
Proof.
  unfold getCloneableInventory. rewrite inventoryLoop_counts.
  pose proof (three_way_split allRepos) as H.
  pair_eq; lia.
Qed.

(** ** Clone delay and concurrency *)




(** ** Names taken from URLs *)

Lemma IndexByte_cons_neg a s c :
  strings.IndexByte (String a s) c < 0 <-> a <> c /\ strings.IndexByte s c < 0.
Proof.
  cbn [strings.IndexByte]. destruct (Ascii.eqb a c) eqn:E.
  - apply Ascii.eqb_eq in E. split; [lia | intros [H _]; contradiction].
  - apply Ascii.eqb_neq in E. pose proof (IndexByte_ge s c).
    destruct (strings.IndexByte s c); split; try lia; intros; (split; [assumption | lia]).
Qed.

Lemma IndexByte_app_neg a b c :
  strings.IndexByte (a ++ b) c < 0
  <-> strings.IndexByte a c < 0 /\ strings.IndexByte b c < 0.
Proof.
  induction a as [|x a IH].
  - rewrite sapp_nil. cbn [strings.IndexByte]. split; [intros H; split; [lia | exact H] | tauto].
  - rewrite sapp_cons, !IndexByte_cons_neg, IH. tauto.
Qed.



Lemma Split_free e c : strings.IndexByte e c < 0 -> strings.Split e c = [e].
Proof.
  induction e as [|a e IH]; [reflexivity|]. intros H.
  apply IndexByte_cons_neg in H as [Ha He]. cbn [strings.Split].
  apply Ascii.eqb_neq in Ha. rewrite Ha, (IH He). reflexivity.
Qed.


Lemma Join_Split s c : strings.Join (strings.Split s c) (String c "") = s.
Proof.
  induction s as [|a s IH]; [reflexivity|]. cbn [strings.Split].
  pose proof (Split_nonempty s c) as Hne.
  destruct (strings.Split s c) as [|w ws]; [contradiction|].
  destruct (Ascii.eqb a c) eqn:E.
  - apply Ascii.eqb_eq in E. subst a. rewrite Join_cons2, IH. reflexivity.
  - destruct ws as [|w' ws].
    + cbn [strings.Join] in *. now rewrite IH.
    + rewrite Join_cons2 in *. rewrite sapp_cons, IH. reflexivity.
Qed.



Lemma last_app_nonempty {A} (l1 l2 : list A) d :
  l2 <> [] -> List.last (l1 ++ l2) d = List.last l2 d.
Proof.
  intros H. induction l1 as [|x l1 IH]; [reflexivity|].
  cbn [app List.last]. destruct (l1 ++ l2)%list eqn:E; [|exact IH].
  apply app_eq_nil in E as [_ E]. contradiction.
Qed.



(** X4: for a URL whose last segment is [name.ext], with no dot in [ext],
    [getAppNameFromURL] gives [name], dots inside [name] included; for a
    URL whose last segment has no dot at all it gives the empty string. *)
Theorem X4_name_from_url_drops_the_last_extension (pre name ext : string) :
  strings.IndexByte name "/" < 0 ->
  strings.IndexByte ext "/" < 0 ->
  strings.IndexByte ext "." < 0 ->
  getAppNameFromURL (pre ++ "/" ++ name ++ "." ++ ext) = name
  /\ (strings.IndexByte name "." < 0 -> getAppNameFromURL (pre ++ "/" ++ name) = "").
Proof.
  intros Hn He Hd. unfold getAppNameFromURL.
  assert (Hlast : forall seg, strings.IndexByte seg "/" < 0 ->
            List.last (strings.Split (pre ++ "/" ++ seg) "/") "" = seg).
  { intros seg Hseg. change ("/" ++ seg) with (String "/" seg).
    rewrite Split_app_sep, (Split_free seg "/" Hseg).
    now rewrite last_app_nonempty by discriminate. }
  split.
  - rewrite Hlast.
    + change ("." ++ ext) with (String "." ext).
      rewrite Split_app_sep, (Split_free ext "." Hd), removelast_last.
      apply Join_Split.
    + apply IndexByte_app_neg. split; [exact Hn|].
      change ("." ++ ext) with (String "." ext).
      apply IndexByte_cons_neg. split; [discriminate | exact He].
  - intros Hnd. rewrite (Hlast name Hn), (Split_free name "." Hnd). reflexivity.
Qed.

Lemma X4_name_from_url_drops_the_last_extension_witness :
  getAppNameFromURL ("https://gitlab.com/group/sub" ++ "/" ++ "my.app" ++ "." ++ "git") = "my.app"
  /\ getAppNameFromURL ("https://git.sr.ht/~user" ++ "/" ++ "repo") = "".
Proof.
  split.
  - apply (X4_name_from_url_drops_the_last_extension
             "https://gitlab.com/group/sub" "my.app" "git"); vm_compute; reflexivity.
  - refine (proj2 (X4_name_from_url_drops_the_last_extension
                     "https://git.sr.ht/~user" "repo" "git" _ _ _) _);
      vm_compute; reflexivity.
Defined.

(** ** Names cut to 248 bytes *)

Lemma take_app_drop n s : s = strings.take n s ++ strings.drop n s.
Proof.
  revert s. induction n as [|n IH]; intros s.
  - destruct s; cbn [strings.take strings.drop]; now rewrite sapp_nil.
  - destruct s as [|a s]; [reflexivity|].
    cbn [strings.take strings.drop]. rewrite sapp_cons. f_equal. apply IH.
Qed.

Lemma take_take n m s : (n <= m)%nat -> strings.take n (strings.take m s) = strings.take n s.
Proof.
  revert m s. induction n as [|n IH]; intros m s H.
  - destruct m, s; reflexivity.
  - destruct m as [|m]; [lia|]. destruct s as [|a s]; [reflexivity|].
    cbn [strings.take]. f_equal. apply IH. lia.
Qed.

Lemma LastIndexByte_at s c : forall i,
  strings.LastIndexByte s c = i -> 0 <= i ->
  s = strings.take (Z.to_nat i) s ++ String c (strings.drop (S (Z.to_nat i)) s).
Proof.
  induction s as [|a s IH]; intros i Hi Hpos.
  - cbn in Hi. lia.
  - cbn [strings.LastIndexByte] in Hi.
    pose proof (LastIndexByte_range s c) as Hr.
    destruct (strings.LastIndexByte s c) as [|p|p] eqn:E.
    + subst i. change (Z.to_nat (1 + 0)) with 1%nat.
      cbn [strings.take strings.drop]. rewrite sapp_cons. f_equal.
      exact (IH 0 eq_refl ltac:(lia)).
    + subst i. replace (Z.to_nat (1 + Z.pos p)) with (S (Z.to_nat (Z.pos p))) by lia.
      cbn [strings.take strings.drop]. rewrite sapp_cons. f_equal.
      exact (IH (Z.pos p) eq_refl ltac:(lia)).
    + destruct (Ascii.eqb a c) eqn:Ea; [|lia].
      apply Ascii.eqb_eq in Ea. subst a i. reflexivity.
Qed.

(** X5: whenever [trimCollisionFilename] returns, the result is at most 248
    bytes long; a name of at most 248 bytes comes back unchanged, and a
    longer one is cut just before an underscore: the name is the result,
    an underscore, and a rest, and the result is shorter than 248 bytes. *)
Theorem X5_trimmed_name_ends_before_an_underscore (filename r : string) :
  trimCollisionFilename filename = Returns r ->
  strings.len r <= 248
  /\ (strings.len filename <= 248 -> r = filename)
  /\ (248 < strings.len filename ->
      strings.len r < 248 /\ exists rest, filename = r ++ "_" ++ rest).
Proof.
  intros H. destruct (trimCollisionFilename_cases filename) as [Hshort Hlong].
  destruct (Z_le_gt_dec (strings.len filename) 248) as [Hle|Hgt].
  - rewrite (Hshort Hle) in H. injection H as <-.
    split; [exact Hle|]. split; [reflexivity | lia].
  - assert (Hlt : 248 < strings.len filename) by lia.
    destruct (Hlong Hlt _ eq_refl) as [Hok Hbad].
    pose proof (LastIndexByte_range (strings.take 248 filename) "_") as Hr.
    set (i := strings.LastIndexByte (strings.take 248 filename) "_") in *.
    destruct (Z_lt_ge_dec i 0) as [Hneg|Hpos].
    { rewrite (Hbad Hneg) in H. discriminate. }
    destruct (Hok ltac:(lia)) as [Hi E]. rewrite E in H. injection H as <-.
    assert (Hlen : strings.len (strings.take (Z.to_nat i) filename) = i).
    { unfold strings.len in *. rewrite length_take by lia. lia. }
    split; [lia|]. split; [lia|]. split; [lia|].
    exists (strings.drop (S (Z.to_nat i)) (strings.take 248 filename)
            ++ strings.drop 248 filename).
    rewrite (take_app_drop 248 filename) at 1.
    rewrite (LastIndexByte_at (strings.take 248 filename) "_" i eq_refl ltac:(lia)) at 1.
    rewrite take_take by lia.
    rewrite sapp_assoc, sapp_cons. reflexivity.
Qed.

Lemma X5_trimmed_name_ends_before_an_underscore_witness :
  strings.len (repeat_byte "a" 100 ++ "_" ++ repeat_byte "b" 100) < 248
  /\ exists rest, longName = (repeat_byte "a" 100 ++ "_" ++ repeat_byte "b" 100) ++ "_" ++ rest.
Proof.
  refine (proj2 (proj2 (X5_trimmed_name_ends_before_an_underscore longName
            (repeat_byte "a" 100 ++ "_" ++ repeat_byte "b" 100) _)) _);
    vm_compute; reflexivity.
Defined.
(** ** The collision map, exactly *)

Lemma occurrences_snoc n pre repo :
  occurrences n (pre ++ [repo])
  = (occurrences n pre + if eligible repo && String.eqb (Name repo) n then 1 else 0)%nat.
Proof.
  unfold occurrences. rewrite List.filter_app, length_app. cbn [List.filter].
  destruct (eligible repo && String.eqb (Name repo) n); reflexivity.
Qed.

Lemma collisionMark_Some k b : collisionMark k = Some b -> (1 <= k)%nat.
Proof. destruct k; [discriminate | lia]. Qed.

Lemma collisionMark_None k : collisionMark k = None -> k = 0%nat.
Proof. destruct k as [|[|k]]; [reflexivity | discriminate..]. Qed.

Lemma collisionLoop_exact repos : forall pre m has,
  (forall n, m !! n = collisionMark (occurrences n pre)) ->
  (has = true <-> exists n, m !! n = Some true) ->
  let res := collisionLoop repos m has in
  (forall n, fst res !! n = collisionMark (occurrences n (pre ++ repos)))
  /\ (snd res = true <-> exists n, fst res !! n = Some true).
Proof.
  induction repos as [|repo rest IH]; intros pre m has Hm Hhas res; subst res.
  - rewrite app_nil_r. cbn [collisionLoop fst snd]. now split.
  - replace (pre ++ repo :: rest)%list with ((pre ++ [repo]) ++ rest)%list
      by now rewrite <- app_assoc.
    destruct (eligible repo) eqn:He.
    + rewrite collisionLoop_step by exact He.
      assert (Hocc : forall n, occurrences n (pre ++ [repo])
                = (occurrences n pre + if String.eqb (Name repo) n then 1 else 0)%nat).
      { intros n. rewrite occurrences_snoc, He. reflexivity. }
      destruct (m !! Name repo) as [b|] eqn:Hk.
      * apply IH.
        -- intros n. rewrite Hocc. destruct (String.eqb (Name repo) n) eqn:En.
           ++ apply String.eqb_eq in En. subst n. rewrite lookup_insert_eq.
              rewrite Hm in Hk. apply collisionMark_Some in Hk.
              destruct (occurrences (Name repo) pre) as [|k]; [lia|].
              replace (S k + 1)%nat with (S (S k)) by lia. reflexivity.
           ++ apply String.eqb_neq in En. rewrite lookup_insert_ne by exact En.
              rewrite Hm. f_equal. lia.
        -- split; [|reflexivity]. intros _. exists (Name repo). apply lookup_insert_eq.
      * apply IH.
        -- intros n. rewrite Hocc. destruct (String.eqb (Name repo) n) eqn:En.
           ++ apply String.eqb_eq in En. subst n. rewrite lookup_insert_eq.
              rewrite Hm in Hk. apply collisionMark_None in Hk. rewrite Hk. reflexivity.
           ++ apply String.eqb_neq in En. rewrite lookup_insert_ne by exact En.
              rewrite Hm. f_equal. lia.
        -- rewrite Hhas. split; intros [n Hn]; exists n.
           ++ destruct (decide (Name repo = n)) as [<-|Hne]; [congruence|].
              now rewrite lookup_insert_ne.
           ++ destruct (decide (Name repo = n)) as [<-|Hne].
              ** rewrite lookup_insert_eq in Hn. discriminate.
              ** now rewrite lookup_insert_ne in Hn.
    + rewrite collisionLoop_skip by exact He. apply IH; [|exact Hhas].
      intros n. rewrite occurrences_snoc, He. cbn [andb]. rewrite Nat.add_0_r. apply Hm.
Qed.

(** X6: with a GitLab token configured and directory preservation off, the
    map [hasRepoNameCollisions] returns holds exactly the names of the
    repositories that are neither snippets nor wikis; a name is mapped to
    [true] exactly when two or more of them carry it, to [false] when one
    does; and the flag returned with the map is [true] exactly when some
    name is mapped to [true]. *)
Theorem X6_collision_map_counts_names (env : gmap string string) (repos : list Repo) :
  Getenv env "GHORG_GITLAB_TOKEN" <> "" ->
  Getenv env "GHORG_PRESERVE_DIRECTORY_STRUCTURE" <> "true" ->
  let m := fst (hasRepoNameCollisions env repos) in
  let has := snd (hasRepoNameCollisions env repos) in
  (forall n, m !! n = collisionMark (occurrences n repos))
  /\ (has = true <-> exists n, m !! n = Some true).
Proof.
  intros Ht Hp m has. subst m has. unfold hasRepoNameCollisions.
  apply String.eqb_neq in Ht, Hp. rewrite Ht, Hp.
  apply (collisionLoop_exact repos [] ∅ false).
  - intros n. now rewrite lookup_empty.
  - split; [discriminate|]. intros [n Hn]. rewrite lookup_empty in Hn. discriminate.
Qed.

Lemma X6_collision_map_counts_names_witness :
  fst (hasRepoNameCollisions tokenEnv [appOfTeamA; appOfTeamB]) !! "app" = Some true
  /\ fst (hasRepoNameCollisions tokenEnv [appOfTeamA; appOfTeamB]) !! "other" = None.
Proof.
  destruct (X6_collision_map_counts_names tokenEnv [appOfTeamA; appOfTeamB]) as [H _];
    [vm_compute; discriminate | vm_compute; discriminate |].
  split; [exact (H "app") | exact (H "other")].
Defined.

(** ** What the pruner removes *)

Lemma pruneLoop_accounts targets out noConfirm repositories : forall count agrees w,
  let run := pruneLoop targets out noConfirm repositories count agrees w in
  exists new,
    removed (snd run) = (removed w ++ new)%list
    /\ Forall (fun p => exists rel, In rel repositories /\ p = filepath.Join [out; rel]
                                    /\ sliceContainsNamedRepo targets rel = false) new
    /\ (forall c a, fst run = Returns (c, a) -> c = count + Z.of_nat (length new)).
Proof.
  induction repositories as [|r rest IH]; intros count agrees w run; subst run.
  - exists []. split; [now rewrite app_nil_r|]. split; [constructor|].
    cbn. intros c a [= <- _]. lia.
  - assert (weaken : forall new,
      Forall (fun p => exists rel, In rel rest /\ p = filepath.Join [out; rel]
                                   /\ sliceContainsNamedRepo targets rel = false) new ->
      Forall (fun p => exists rel, In rel (r :: rest) /\ p = filepath.Join [out; rel]
                                   /\ sliceContainsNamedRepo targets rel = false) new).
    { intros new HF. eapply Forall_impl; [exact HF|]. intros p (rel & Hin & E & Hk).
      exists rel. split; [now right | now split]. }
    assert (stop : forall (res : outcome (Z * bool)),
      (forall c a, res <> Returns (c, a)) ->
      exists new, removed w = (removed w ++ new)%list
        /\ Forall (fun p => exists rel, In rel (r :: rest) /\ p = filepath.Join [out; rel]
                                        /\ sliceContainsNamedRepo targets rel = false) new
        /\ (forall c a, res = Returns (c, a) -> c = count + Z.of_nat (length new))).
    { intros res Hres. exists []. split; [now rewrite app_nil_r|]. split; [constructor|].
      intros c a E. now destruct (Hres c a). }
    cbn [pruneLoop].
    destruct (negb (strings.HasPrefix (filepath.Join [out; r]) out)).
    { cbn [fst snd]. apply stop. discriminate. }
    destruct agrees; cbn [andb].
    2:{ destruct (IH count false w) as (new & E & F & C). exists new.
        split; [exact E|]. split; [now apply weaken | exact C]. }
    destruct (sliceContainsNamedRepo targets r) eqn:Hkept; cbn [negb].
    { destruct (IH count true w) as (new & E & F & C). exists new.
      split; [exact E|]. split; [now apply weaken | exact C]. }
    assert (Hhere : exists rel, In rel (r :: rest) /\ filepath.Join [out; r] = filepath.Join [out; rel]
                                /\ sliceContainsNamedRepo targets rel = false).
    { exists r. split; [now left | now split]. }
    assert (after : forall w1, removed w1 = removed w ->
      let (err, w2) := RemoveAll w1 (filepath.Join [out; r]) in
      let run := match err with
                 | None => pruneLoop targets out noConfirm rest (count + 1) true w2
                 | Some _ => (Exits 1, w2)
                 end in
      exists new, removed (snd run) = (removed w ++ new)%list
        /\ Forall (fun p => exists rel, In rel (r :: rest) /\ p = filepath.Join [out; rel]
                                        /\ sliceContainsNamedRepo targets rel = false) new
        /\ (forall c a, fst run = Returns (c, a) -> c = count + Z.of_nat (length new))).
    { intros w1 Hw1. unfold RemoveAll.
      destruct (existsb _ (locked w1)); cbn [fst snd removed].
      - exists [filepath.Join [out; r]]. rewrite Hw1. split; [reflexivity|].
        split; [constructor; [exact Hhere | constructor] | discriminate].
      - match goal with |- context [pruneLoop _ _ _ rest ?c ?a ?w2] =>
          destruct (IH c a w2) as (new & E & F & C) end.
        exists (filepath.Join [out; r] :: new). cbn [removed] in E.
        split; [etransitivity; [exact E|]; rewrite Hw1; now rewrite <- app_assoc|].
        split; [constructor; [exact Hhere | now apply weaken]|].
        intros c a Hc. rewrite (C c a Hc). cbn [length]. lia. }
    destruct noConfirm.
    + specialize (after w eq_refl).
      destruct (RemoveAll w (filepath.Join [out; r])) as [[e|] w2]; exact after.
    + unfold interactiveYesNoPrompt. destruct (stdin w) as [|line lines].
      { cbn [fst snd removed]. apply stop. discriminate. }
      destruct (isYes line).
      * match goal with |- context [RemoveAll ?w1 _] => specialize (after w1 eq_refl) end.
        cbn [fs locked stdin removed prompts] in *.
        match goal with |- context [RemoveAll ?w1 ?p] =>
          destruct (RemoveAll w1 p) as [[e|] w2] end; exact after.
      * match goal with |- context [pruneLoop _ _ _ rest ?c ?a ?w1] =>
          destruct (IH c a w1) as (new & E & F & C) end.
        exists new. cbn [removed] in E. split; [exact E|].
        split; [now apply weaken | exact C].
Qed.

(** X7: in either mode, every path [pruneRepos] hands to [os.RemoveAll] is
    the clone root joined with a repository that the walk listed and that
    [sliceContainsNamedRepo] did not find among the kept repositories; and
    when [pruneRepos] returns, the count it returns is the number of paths
    it handed to [os.RemoveAll]. *)
Theorem X7_prune_removes_only_unkept_repositories (env : gmap string string)
    (out : string) (targets : list Repo) (w : World) :
  let run := pruneRepos env out targets w in
  exists new,
    removed (snd run) = (removed w ++ new)%list
    /\ Forall (fun p => exists repositories rel,
                 getRelativePathRepositories (fs w) out out = Ok repositories
                 /\ In rel repositories /\ p = filepath.Join [out; rel]
                 /\ sliceContainsNamedRepo targets rel = false) new
    /\ (forall n, fst run = Returns n -> n = Z.of_nat (length new)).
Proof.
  intros run. subst run. unfold pruneRepos.
  destruct (getRelativePathRepositories (fs w) out out) as [repositories|e] eqn:Hwalk.
  - destruct (pruneLoop_accounts targets out
                (String.eqb (Getenv env "GHORG_PRUNE_NO_CONFIRM") "true")
                repositories 0 true w) as (new & E & F & C).
    destruct (pruneLoop targets out _ repositories 0 true w) as [r w'].
    cbn [fst snd] in *. exists new. split; [exact E|]. split.
    + eapply Forall_impl; [exact F|]. intros p (rel & Hin & Hp & Hk).
      exists repositories, rel. now repeat split.
    + intros n Hn. destruct r as [[c a]|c|m]; try discriminate.
      injection Hn as <-. rewrite (C c a eq_refl). lia.
  - exists []. cbn [fst snd]. split; [now rewrite app_nil_r|].
    split; [constructor | discriminate].
Qed.

Lemma eligibleForPruneLoop_counts repos repositories : forall n,
  eligibleForPruneLoop repos repositories n
  = n + Z.of_nat (length (List.filter (isCandidate repos) repositories)).
Proof.
  induction repositories as [|r rest IH]; intros n; [cbn; lia|].
  cbn [eligibleForPruneLoop List.filter]. unfold isCandidate at 1.
  destruct (negb (sliceContainsNamedRepo repos r)); rewrite IH; cbn [length]; lia.
Qed.

(** X8: for a clone root that is a directory given by a clean absolute
    path, the number of clones a dry run reports as eligible for pruning is
    the number a run that prunes without confirmation then deletes and
    returns, as long as no deletion is refused. *)
Theorem X8_dry_run_count_is_the_prune_count (env : gmap string string) (w : World)
    (oelems : list string) (droot : node) (targets : list Repo) :
  wfNode (fs w) = true ->
  Forall (fun n => validName n = true) oelems ->
  lookupElems (fs w) oelems = Some droot ->
  IsDir droot = true ->
  Getenv env "GHORG_PRUNE" = "true" ->
  Getenv env "GHORG_PRUNE_NO_CONFIRM" = "true" ->
  locked w = [] ->
  exists n,
    printDryRun env (absPath oelems) targets (fs w) = Returns (Some n)
    /\ fst (pruneRepos env (absPath oelems) targets w) = Returns n
    /\ Z.of_nat (length (removed (snd (pruneRepos env (absPath oelems) targets w))))
       = Z.of_nat (length (removed w)) + n.
Proof.
  intros Hwf Ho Hroot Hdir Hprune Hmode Hlocked.
  destruct (getRelativePathRepositories_spec (fs w) oelems droot Hwf Ho Hroot)
    as [repositories [Hwalk Hspec]].
  destruct (lookupElems_wf (fs w) oelems droot Hwf Hroot) as [_ Hwfr].
  assert (Hcont : Forall (fun rel => containedIn (absPath oelems) rel = true) repositories).
  { apply List.Forall_forall. intros rel Hin.
    apply Hspec in Hin as (cs & d & g & -> & Hcs0 & Hl & _).
    destruct (lookupElems_wf droot cs d Hwfr Hl) as [Hcs _].
    unfold containedIn. rewrite Join_absPath by assumption. apply absPath_prefix. }
  exists (Z.of_nat (length (List.filter (isCandidate targets) repositories))).
  split; [|].
  - unfold printDryRun, Stat. rewrite Hprune, (absElems_absPath oelems Ho), Hroot, Hdir, Hwalk.
    change (String.eqb "true" "true") with true. cbv iota.
    rewrite eligibleForPruneLoop_counts. reflexivity.
  - destruct (pruneLoop_noConfirm targets (absPath oelems) repositories 0 w Hcont)
      as [_ Htotal].
    pose proof (pruneLoop_accounts targets (absPath oelems) true repositories 0 true w)
      as (new & E & _ & C).
    unfold pruneRepos. rewrite Hwalk, Hmode.
    change (String.eqb "true" "true") with true.
    specialize (Htotal Hlocked).
    destruct (pruneLoop targets (absPath oelems) true repositories 0 true w) as [r w'].
    cbn [fst snd] in *. subst r. cbn [returnCount]. split; [reflexivity|].
    rewrite E, length_app. specialize (C _ _ eq_refl). lia.
Qed.

Lemma X8_dry_run_count_is_the_prune_count_witness :
  exists n,
    printDryRun pruneEnv "/tmp/out" [keptRepository] testTree = Returns (Some n)
    /\ fst (pruneRepos pruneEnv "/tmp/out" [keptRepository] (mkWorld testTree [] [] [] []))
       = Returns n
    /\ Z.of_nat (length (removed (snd (pruneRepos pruneEnv "/tmp/out" [keptRepository]
                                         (mkWorld testTree [] [] [] [])))))
       = Z.of_nat (length (removed (mkWorld testTree [] [] [] []))) + n.
Proof.
  apply (X8_dry_run_count_is_the_prune_count pruneEnv (mkWorld testTree [] [] [] [])
           ["tmp"; "out"]
           (Dir [("prunnable", Dir [(".git", Dir [])]);
                 ("repository", Dir [(".git", Dir []);
                    ("submodule", Dir [(".git", File "gitdir: ../.git/modules/submodule")])])])
           [keptRepository]);
    first [ reflexivity | vm_compute; reflexivity
          | repeat constructor ].
Defined.
(** ** The stats file, from its creation on *)

Lemma readFirstLine_after_header files p rows :
  files !! p = Some (header ++ rows) ->
  exists line, readFirstLine files p = Ok line /\ (line ++ String "010" "") = header.
Proof.
  intros E. unfold readFirstLine. rewrite E.
  eexists. split; [vm_compute; reflexivity | vm_compute; reflexivity].
Qed.

(** X9: when there is no stats file, [writeGhorgStats] creates it with the
    header and the row; and the next call then finds the header it
    expects and appends its row to the same file: after two runs the file
    is the header followed by the two rows, and no other file was
    written. *)
Theorem X9_stats_file_grows_by_one_row_a_run (Sum256 : string -> string)
    (env : gmap string string) (g g' : StatsGlobals) (a a' : StatsRow)
    (files : gmap string string) :
  files !! getGhorgStatsFilePath env = None ->
  let first := writeGhorgStats Sum256 env g a files in
  let second := writeGhorgStats Sum256 env g' a' (snd first) in
  fst first = None
  /\ snd first = <[getGhorgStatsFilePath env := header ++ statsData env g a]> files
  /\ fst second = None
  /\ snd second
     = <[getGhorgStatsFilePath env := header ++ statsData env g a ++ statsData env g' a']> files.
Proof.
  intros Hnone first second.
  assert (E1 : first = (None, <[getGhorgStatsFilePath env := header ++ statsData env g a]> files)).
  { subst first. unfold writeGhorgStats. rewrite Hnone.
    rewrite bool_decide_eq_false_2 by (intros [x Hx]; discriminate).
    unfold appendCreate. rewrite Hnone, lookup_insert_eq. cbn [from_option id default].
    rewrite insert_insert_eq, sapp_nil. reflexivity. }
  subst second. rewrite E1. cbn [fst snd].
  split; [reflexivity|]. split; [reflexivity|].
  unfold writeGhorgStats.
  rewrite bool_decide_eq_true_2 by (rewrite lookup_insert_eq; eexists; reflexivity).
  destruct (readFirstLine_after_header
              (<[getGhorgStatsFilePath env := header ++ statsData env g a]> files)
              (getGhorgStatsFilePath env) (statsData env g a)
              (lookup_insert_eq _ _ _)) as (line & Hline & Hhead).
  rewrite Hline, Hhead, String.eqb_refl. cbn [negb].
  unfold appendExisting. rewrite lookup_insert_eq, insert_insert_eq, sapp_assoc.
  split; reflexivity.
Qed.

Lemma X9_stats_file_grows_by_one_row_a_run_witness :
  snd (writeGhorgStats fakeDigest statsEnv someGlobals someRow
         (snd (writeGhorgStats fakeDigest statsEnv someGlobals someRow ∅)))
  = <[getGhorgStatsFilePath statsEnv :=
        header ++ statsData statsEnv someGlobals someRow
               ++ statsData statsEnv someGlobals someRow]> ∅.
Proof.
  refine (proj2 (proj2 (proj2 (X9_stats_file_grows_by_one_row_a_run fakeDigest statsEnv
            someGlobals someGlobals someRow someRow ∅ _)))).
  apply lookup_empty.
Defined.

(** ** Exit codes that are not numbers, and the test mode *)

(** X11: at the end of [CloneAllRepos], outside the test mode, a configured
    exit code that [strconv.Atoi] rejects makes the process exit with 1
    when an event of its kind occurred: the infos code when there are info
    events, the issues code when there are error events and the infos code
    did not end the process first.  In the test mode the process exits
    with 0 whatever happened. *)
Theorem X11_unparsable_exit_code_gives_one (env : gmap string string) (infos errors : Z) :
  (Getenv env "GHORG_DONT_EXIT_UNDER_TEST" = "true" -> processExitCode env infos errors = 0)
  /\ (Getenv env "GHORG_DONT_EXIT_UNDER_TEST" <> "true" ->
      (forall e, strconv.Atoi (Getenv env "GHORG_EXIT_CODE_ON_CLONE_INFOS") = Err e ->
         0 < infos -> processExitCode env infos errors = 1)
      /\ (forall e, strconv.Atoi (Getenv env "GHORG_EXIT_CODE_ON_CLONE_ISSUES") = Err e ->
            0 < errors ->
            infos <= 0 \/ Getenv env "GHORG_EXIT_CODE_ON_CLONE_INFOS" = "0" ->
            processExitCode env infos errors = 1)).
Proof.
  unfold processExitCode, cloneAllReposExit, exitOnCloneInfos, exitOnCloneIssues.
  split.
  - intros ->. reflexivity.
  - intros Ht. apply String.eqb_neq in Ht. rewrite Ht. cbn [negb]. split.
    + intros e He Hi. rewrite He.
      assert (Hne : String.eqb (Getenv env "GHORG_EXIT_CODE_ON_CLONE_INFOS") "0" = false).
      { apply String.eqb_neq. intros E. rewrite E in He. discriminate He. }
      rewrite Hne. cbn [negb andb].
      replace (infos >? 0) with true by (symmetry; apply Z.gtb_lt; lia). reflexivity.
    + intros e He Herr Hcase. rewrite He.
      replace (errors >? 0) with true by (symmetry; apply Z.gtb_lt; lia).
      destruct Hcase as [Hi | Hz].
      * replace (infos >? 0) with false by (symmetry; rewrite Z.gtb_ltb; apply Z.ltb_ge; lia).
        rewrite andb_false_r. reflexivity.
      * rewrite Hz. reflexivity.
Qed.

Lemma X11_unparsable_exit_code_gives_one_witness : processExitCode badExitEnv 1 0 = 1.
Proof.
  eapply (proj1 (proj2 (X11_unparsable_exit_code_gives_one badExitEnv 1 0)
                   ltac:(vm_compute; discriminate)));
    [vm_compute; reflexivity | lia].
Defined.

(* ================================================================== *)
(** * Further properties of the Git backends *)
(* ================================================================== *)

(** ** Command lines *)

Lemma insertArg_in_range args capacity index arg :
  Z.of_nat (length args) <= capacity -> 0 <= index < Z.of_nat (length args) ->
  insertArg args capacity index arg
  = Returns (firstn (Z.to_nat index) args ++ arg :: skipn (Z.to_nat index) args)%list.
Proof.
  intros Hc Hi. unfold insertArg.
  replace ((0 <=? index + 1) && (index + 1 <=? capacity)) with true
    by (symmetry; apply andb_true_intro; split; apply Z.leb_le; lia).
  replace ((0 <=? index) && (index <=? Z.of_nat (length args))) with true
    by (symmetry; apply andb_true_intro; split; apply Z.leb_le; lia).
  reflexivity.
Qed.

(** X12: [insertArg] with an index inside the slice gives, whatever the
    capacity, a slice one longer that holds the argument at the index, the
    elements before the index where they were and the others one place
    further.  With the index equal to the length it appends when the slice
    has spare capacity and panics when it has none; with any other index
    it panics. *)
Theorem X12_insertArg_inserts_at_the_index (args : list string) (capacity index : Z)
    (arg : string) :
  Z.of_nat (length args) <= capacity ->
  (0 <= index < Z.of_nat (length args) ->
   exists res,
     insertArg args capacity index arg = Returns res
     /\ length res = S (length args)
     /\ res !! Z.to_nat index = Some arg
     /\ (forall i, (i < Z.to_nat index)%nat -> res !! i = args !! i)
     /\ (forall i, (Z.to_nat index <= i)%nat -> res !! S i = args !! i))
  /\ (index = Z.of_nat (length args) ->
      insertArg args capacity index arg
      = if index <? capacity then Returns (args ++ [arg])%list
        else Panics "slice bounds out of range")
  /\ (index < 0 \/ Z.of_nat (length args) < index ->
      insertArg args capacity index arg = Panics "slice bounds out of range").
Proof.
  intros Hc. split; [|split].
  - intros Hi. eexists. split; [now apply insertArg_in_range|].
    set (n := Z.to_nat index).
    assert (Hn : (n < length args)%nat) by (subst n; lia).
    assert (Hlen : length (firstn n args) = n) by (apply firstn_length_le; lia).
    split; [|split; [|split]].
    + rewrite length_app, Hlen. cbn [length]. rewrite length_skipn. lia.
    + rewrite lookup_app_r by lia. rewrite Hlen, Nat.sub_diag. reflexivity.
    + intros i Hi'. rewrite lookup_app_l by lia. now apply lookup_take_lt.
    + intros i Hi'. rewrite lookup_app_r by lia. rewrite Hlen.
      replace (S i - n)%nat with (S (i - n)) by lia.
      change ((arg :: skipn n args) !! S (i - n)) with (skipn n args !! (i - n)%nat).
      rewrite lookup_drop. f_equal. lia.
  - intros ->. unfold insertArg.
    replace (0 <=? Z.of_nat (length args) + 1) with true by (symmetry; apply Z.leb_le; lia).
    replace ((0 <=? Z.of_nat (length args)) && (Z.of_nat (length args) <=? Z.of_nat (length args)))
      with true by (symmetry; apply andb_true_intro; split; apply Z.leb_le; lia).
    cbn [andb]. rewrite Nat2Z.id, firstn_all, skipn_all.
    destruct (Z.of_nat (length args) + 1 <=? capacity) eqn:E1;
      destruct (Z.of_nat (length args) <? capacity) eqn:E2; try reflexivity.
    + apply Z.leb_le in E1. apply Z.ltb_ge in E2. lia.
    + apply Z.leb_gt in E1. apply Z.ltb_lt in E2. lia.
  - intros Hi. unfold insertArg.
    destruct ((0 <=? index + 1) && (index + 1 <=? capacity)); [|reflexivity].
    replace ((0 <=? index) && (index <=? Z.of_nat (length args))) with false; [reflexivity|].
    symmetry. apply andb_false_iff. destruct Hi; [left; apply Z.leb_gt | right; apply Z.leb_gt]; lia.
Qed.

Lemma X12_insertArg_inserts_at_the_index_witness :
  insertArg ["clone"; "url"; "path"] 3 1 "--recursive"
  = Returns ["clone"; "--recursive"; "url"; "path"]
  /\ insertArg ["clone"; "url"; "path"] 3 3 "--mirror" = Panics "slice bounds out of range".
Proof.
  destruct (X12_insertArg_inserts_at_the_index ["clone"; "url"; "path"] 3 1 "--recursive")
    as [_ _]; [cbn; lia|].
  destruct (X12_insertArg_inserts_at_the_index ["clone"; "url"; "path"] 3 3 "--mirror")
    as (_ & H & _); [cbn; lia|].
  split; [reflexivity | exact (H eq_refl)].
Defined.

Lemma insertIf_flag capacityOf cond a b rest arg :
  (forall l, Z.of_nat (length l) <= capacityOf l) ->
  insertIf capacityOf cond (a :: b :: rest) arg
  = Returns (a :: flagIf cond arg ++ b :: rest)%list.
Proof.
  intros Hcap. unfold insertIf, flagIf. destruct cond; [|reflexivity].
  rewrite insertArg_in_range; [reflexivity | apply Hcap | cbn [length]; lia].
Qed.

(** X13: every command line [GitClient] builds with [insertArg] has its
    optional flags directly after the subcommand and before the positional
    arguments, the one inserted last coming first: [clone] is followed by
    the filter, the depth and [--recursive], then the clone URL and the
    destination, and [--mirror] at the very end in backup mode; [pull] by
    the depth and [--recurse-submodules]; both fetches by the depth.  No
    call panics. *)
Theorem X13_flags_go_between_subcommand_and_operands (capacityOf : list string -> Z)
    (env : gmap string string) (repo : Repo) :
  (forall l, Z.of_nat (length l) <= capacityOf l) ->
  let depth := flagIf (negb (String.eqb (getCloneDepth env) "")) ("--depth=" ++ getCloneDepth env) in
  cloneArgs capacityOf env repo
  = Returns ("clone"
             :: flagIf (negb (String.eqb (getGitFilter env) "")) ("--filter=" ++ getGitFilter env)
             ++ depth ++ flagIf (includeSubmodules env) "--recursive"
             ++ [CloneURL repo; HostPath repo]
             ++ flagIf (isBackupMode env) "--mirror")%list
  /\ pullArgs capacityOf env repo
     = Returns ("pull" :: depth ++ flagIf (includeSubmodules env) "--recurse-submodules"
                ++ ["origin"; CloneBranch repo])%list
  /\ fetchAllArgs capacityOf env = Returns ("fetch" :: depth ++ ["--all"])%list
  /\ fetchCloneBranchArgs capacityOf env repo
     = Returns ("fetch" :: depth ++ ["origin"; CloneBranch repo])%list.
Proof.
  intros Hcap depth. subst depth.
  unfold cloneArgs, pullArgs, fetchAllArgs, fetchCloneBranchArgs.
  split; [|split; [|split]].
  - rewrite insertIf_flag by exact Hcap. cbn [andThen].
    destruct (includeSubmodules env); cbn [flagIf app];
      rewrite insertIf_flag by exact Hcap; cbn [andThen];
      destruct (negb (String.eqb (getCloneDepth env) "")); cbn [flagIf app];
      rewrite insertIf_flag by exact Hcap; cbn [andThen];
      destruct (negb (String.eqb (getGitFilter env) "")); cbn [flagIf app];
      destruct (isBackupMode env); reflexivity.
  - rewrite insertIf_flag by exact Hcap. cbn [andThen].
    destruct (includeSubmodules env); cbn [flagIf app];
      rewrite insertIf_flag by exact Hcap;
      destruct (negb (String.eqb (getCloneDepth env) "")); reflexivity.
  - rewrite insertIf_flag by exact Hcap. reflexivity.
  - rewrite insertIf_flag by exact Hcap. reflexivity.
Qed.

Lemma X13_flags_go_between_subcommand_and_operands_witness :
  cloneArgs (fun l => Z.of_nat (length l)) fullCloneEnv Fixture.repo
  = Returns ["clone"; "--filter=blob:none"; "--depth=1"; "--recursive";
             Fixture.url; Fixture.dir; "--mirror"].
Proof.
  refine (proj1 (X13_flags_go_between_subcommand_and_operands
                   (fun l => Z.of_nat (length l)) fullCloneEnv Fixture.repo _)).
  intros l. lia.
Defined.
(** ** White space *)

Lemma noSpace_app a b : noSpace (a ++ b) = noSpace a && noSpace b.
Proof.
  induction a as [|x a IH]; [now rewrite sapp_nil|].
  rewrite sapp_cons. cbn [noSpace]. rewrite IH. now rewrite andb_assoc.
Qed.

Lemma TrimRightSpace_noSpace s : noSpace s = true -> strings.TrimRightSpace s = s.
Proof.
  induction s as [|c s IH]; [reflexivity|]. cbn [noSpace]. intros H.
  apply andb_prop in H as [Hc Hs]. apply negb_true_iff in Hc.
  rewrite TrimRightSpace_cons, (IH Hs), Hc. now destruct s.
Qed.

Lemma TrimLeftSpace_noSpace s : noSpace s = true -> strings.TrimLeftSpace s = s.
Proof.
  destruct s as [|c s]; [reflexivity|]. cbn [noSpace strings.TrimLeftSpace]. intros H.
  apply andb_prop in H as [Hc _]. apply negb_true_iff in Hc. now rewrite Hc.
Qed.

Lemma TrimSpace_noSpace s : noSpace s = true -> strings.TrimSpace s = s.
Proof.
  intros H. unfold strings.TrimSpace.
  now rewrite (TrimLeftSpace_noSpace s H), (TrimRightSpace_noSpace s H).
Qed.

Lemma TrimSpace_line s : noSpace s = true -> strings.TrimSpace (s ++ gitcli.nl) = s.
Proof.
  intros H. rewrite <- (TrimSpace_noSpace s H) at 1.
  rewrite TrimSpace_again. now apply TrimSpace_noSpace.
Qed.

Lemma TrimSpace_visible a c b :
  strings.isSpace c = false -> strings.TrimSpace (a ++ String c b) <> "".
Proof.
  intros Hc. unfold strings.TrimSpace.
  assert (L : exists c' t', strings.TrimLeftSpace (a ++ String c b) = String c' t'
                            /\ strings.isSpace c' = false).
  { induction a as [|x a IH].
    - rewrite sapp_nil. cbn [strings.TrimLeftSpace]. rewrite Hc. now exists c, b.
    - rewrite sapp_cons. cbn [strings.TrimLeftSpace].
      destruct (strings.isSpace x) eqn:Hx; [exact IH|]. now exists x, (a ++ String c b). }
  destruct L as (c' & t' & -> & Hc'). rewrite TrimRightSpace_cons, Hc'.
  destruct (strings.TrimRightSpace t'); discriminate.
Qed.

(** ** The working directory, as the library backend reads it *)

Lemma statusCodeToChar_visible code :
  git.isUnmodified code = false ->
  exists c, git.statusCodeToChar code = String c "" /\ strings.isSpace c = false.
Proof. destruct code; intros H; try discriminate H; eexists; split; reflexivity. Qed.

Lemma statusCodeToChar_char code : exists c, git.statusCodeToChar code = String c "".
Proof. destruct code; eexists; reflexivity. Qed.

Lemma statusLines_unchanged st : existsb isChanged st = false -> git.statusLines st = "".
Proof.
  induction st as [|[file s] st IH]; [reflexivity|].
  cbn [existsb git.statusLines]. intros H. apply orb_false_iff in H as [H1 H2].
  unfold isChanged in H1. cbn [snd] in H1. rewrite H1. now apply IH.
Qed.

Lemma statusLines_changed st :
  existsb isChanged st = true ->
  exists a c b, git.statusLines st = a ++ String c b /\ strings.isSpace c = false.
Proof.
  induction st as [|[file s] st IH]; [discriminate|].
  cbn [existsb git.statusLines]. intros H.
  destruct (isChanged (file, s)) eqn:Hc.
  - unfold isChanged in Hc. cbn [snd] in Hc. rewrite Hc.
    destruct (git.isUnmodified (git.Staging s)) eqn:Hs.
    + destruct (git.isUnmodified (git.Worktree s)) eqn:Hw; [discriminate|].
      destruct (statusCodeToChar_char (git.Staging s)) as [x ->].
      destruct (statusCodeToChar_visible _ Hw) as (y & -> & Hy).
      exists (String x ""), y. eexists. split; [|exact Hy].
      rewrite !sapp_cons, !sapp_nil. reflexivity.
    + destruct (statusCodeToChar_visible _ Hs) as (x & -> & Hx).
      exists "", x. eexists. split; [|exact Hx].
      rewrite !sapp_cons, !sapp_nil. reflexivity.
  - cbn [orb] in H. unfold isChanged in Hc. cbn [snd] in Hc. rewrite Hc. now apply IH.
Qed.

(** X18: with the library backend, [HasLocalChanges] reports changes exactly
    when some file of the working tree status is not unmodified in the
    index or in the working tree, in whatever order the status is listed;
    a file that is merely untracked counts, so it alone makes
    [SyncDefaultBranch] skip the clone. *)
Theorem X18_goGit_local_changes_include_untracked_files (h : git.Host) (repo : Repo)
    (r : git.Repository) (w : git.WorkTree) :
  git.disk h !! HostPath repo = Some r ->
  git.worktree r = Some w ->
  goGitClient.HasLocalChanges h repo = Ok (existsb isChanged (git.status w))
  /\ (forall file, In (file, git.mkFileStatus git.Untracked git.Untracked) (git.status w) ->
        goGitClient.HasLocalChanges h repo = Ok true).
Proof.
  intros Hr Hw.
  assert (E : goGitClient.HasLocalChanges h repo = Ok (existsb isChanged (git.status w))).
  { unfold goGitClient.HasLocalChanges, goGitClient.ShortStatus, gogit.PlainOpen, gogit.Worktree_.
    rewrite Hr, Hw. f_equal.
    destruct (existsb isChanged (git.status w)) eqn:Hc.
    - destruct (statusLines_changed _ Hc) as (a & c & b & -> & Hv).
      apply negb_true_iff, String.eqb_neq. now apply TrimSpace_visible.
    - now rewrite (statusLines_unchanged _ Hc). }
  split; [exact E|]. intros file Hin. rewrite E. f_equal.
  apply existsb_exists. eexists. split; [exact Hin | reflexivity].
Qed.

Lemma X18_goGit_local_changes_include_untracked_files_witness :
  goGitClient.HasLocalChanges (Fixture.host (withUntracked Fixture.onDefault)) Fixture.repo
  = Ok true.
Proof.
  refine (proj2 (X18_goGit_local_changes_include_untracked_files
                   (Fixture.host (withUntracked Fixture.onDefault)) Fixture.repo
                   (withUntracked Fixture.onDefault) _ _ _) "notes.txt" _);
    [vm_compute; reflexivity | reflexivity | now left].
Defined.

(** ** The default branch of the remote *)

Lemma resolveReference_hash fuel r : forall ref x,
  gogit.resolveReference fuel r ref = Ok x -> gogit.isSymbolic x = false.
Proof.
  induction fuel as [|fuel IH]; intros ref x H; destruct ref as [n c|n t];
    cbn [gogit.resolveReference] in H.
  - now injection H as <-.
  - discriminate.
  - now injection H as <-.
  - destruct (gogit.storerReference r t) as [t'|e]; [|discriminate]. exact (IH _ _ H).
Qed.

Lemma Reference_resolved_hash r name x :
  gogit.Reference_ r name true = Ok x -> gogit.isSymbolic x = false.
Proof.
  unfold gogit.Reference_. destruct (gogit.storerReference r name) as [ref|e]; [|discriminate].
  apply resolveReference_hash.
Qed.

Lemma findRemoteHead_hashes (l : list (string * git.Hash)) :
  goGitClient.findRemoteHead
    (map (fun p => gogit.HashReference ("refs/heads/" ++ fst p) (snd p)) l) = None.
Proof. induction l as [|p l IH]; [reflexivity | exact IH]. Qed.

Lemma HasPrefix_eq s p :
  strings.HasPrefix s p = true -> s = p ++ strings.drop (String.length p) s.
Proof.
  revert s. induction p as [|a p IH]; intros s H.
  - rewrite sapp_nil. now destruct s.
  - destruct s as [|c s]; [discriminate|]. cbn [strings.HasPrefix] in H.
    destruct (Ascii.eqb c a) eqn:E; [|discriminate]. apply Ascii.eqb_eq in E. subst c.
    rewrite sapp_cons. cbn [String.length strings.drop]. f_equal. now apply IH.
Qed.

(** X15: the library backend never takes the default branch from the
    clone's own [refs/remotes/origin/HEAD]: a resolved reference is never
    symbolic, so the first branch of [GetRemoteDefaultBranch] is never
    taken.  Whenever it returns a branch, [origin] has a URL, the remote at
    that URL was reached, and its [HEAD] names that branch; with the remote
    out of reach it returns an error. *)
Theorem X15_goGit_default_branch_comes_from_the_remote (h : git.Host) (repo : Repo)
    (b : string) :
  goGitClient.GetRemoteDefaultBranch h repo = Ok b ->
  exists r url urls rm,
    git.disk h !! HostPath repo = Some r
    /\ git.remotes r !! "origin" = Some (url :: urls)
    /\ git.network h !! url = Some rm
    /\ git.remoteHEAD rm = Some ("refs/heads/" ++ b).
Proof.
  unfold goGitClient.GetRemoteDefaultBranch, gogit.PlainOpen.
  destruct (git.disk h !! HostPath repo) as [r|] eqn:Hr; [|discriminate].
  set (fallback := match gogit.RemoteURLs r "origin" with Ok _ => _ | Err _ => _ end).
  assert (Hf : fallback = Ok b ->
            exists url urls rm, git.remotes r !! "origin" = Some (url :: urls)
              /\ git.network h !! url = Some rm
              /\ git.remoteHEAD rm = Some ("refs/heads/" ++ b)).
  { subst fallback. unfold gogit.RemoteURLs, gogit.List.
    destruct (git.remotes r !! "origin") as [[|url urls]|] eqn:Hrem; try discriminate.
    destruct (git.network h !! url) as [rm|] eqn:Hnet; [|discriminate].
    destruct (git.remoteHEAD rm) as [target|] eqn:Ht.
    - cbn [app goGitClient.findRemoteHead gogit.isSymbolic gogit.refName gogit.refTarget andb].
      change (String.eqb "HEAD" "HEAD") with true. cbn [andb].
      destruct (strings.HasPrefix target "refs/heads/") eqn:Hp.
      + intros [= <-]. exists url, urls, rm.
        split; [reflexivity|]. split; [exact Hnet|]. rewrite Ht. f_equal.
        unfold strings.TrimPrefix. rewrite ?Hp. now apply HasPrefix_eq.
      + rewrite findRemoteHead_hashes. discriminate.
    - cbn [app]. rewrite findRemoteHead_hashes. discriminate. }
  intros H. destruct (gogit.Reference_ r "refs/remotes/origin/HEAD" true) as [headRef|e] eqn:Href.
  - rewrite (Reference_resolved_hash _ _ _ Href) in H.
    destruct (Hf H) as (url & urls & rm & H1 & H2 & H3). now exists r, url, urls, rm.
  - destruct (Hf H) as (url & urls & rm & H1 & H2 & H3). now exists r, url, urls, rm.
Qed.

Lemma X15_goGit_default_branch_comes_from_the_remote_witness :
  exists r url urls rm,
    git.disk (Fixture.host Fixture.onDefault) !! HostPath Fixture.repo = Some r
    /\ git.remotes r !! "origin" = Some (url :: urls)
    /\ git.network (Fixture.host Fixture.onDefault) !! url = Some rm
    /\ git.remoteHEAD rm = Some ("refs/heads/" ++ "main").
Proof.
  apply (X15_goGit_default_branch_comes_from_the_remote
           (Fixture.host Fixture.onDefault) Fixture.repo "main").
  vm_compute. reflexivity.
Defined.

Lemma exec_symbolic_ref h repo r target :
  git.disk h !! HostPath repo = Some r ->
  git.originHEAD r = Some target ->
  noSpace target = true ->
  GitClient.GetRemoteDefaultBranch h repo = Ok (List.last (strings.Split target "/") "").
Proof.
  intros Hr Ho Hn.
  unfold GitClient.GetRemoteDefaultBranch, GitClient.runGitCommandWithOutput, gitcli.run.
  rewrite Hr, Ho. cbn [String.eqb Ascii.eqb Bool.eqb fst].
  rewrite (TrimSpace_line target Hn), (TrimSpace_noSpace target Hn). reflexivity.
Qed.

(** X16: when the clone has a [refs/remotes/origin/HEAD], the subprocess
    backend answers from it without asking the remote, and what it
    returns is what follows the last slash of the target: the branch name
    when the name has no slash, but only the last part of a branch name
    with slashes, as [1.0] for [release/1.0]. *)
Theorem X16_exec_default_branch_is_the_last_path_element (h : git.Host) (repo : Repo)
    (r : git.Repository) (b : string) :
  git.disk h !! HostPath repo = Some r ->
  git.originHEAD r = Some ("refs/remotes/origin/" ++ b) ->
  noSpace b = true ->
  (strings.IndexByte b "/" < 0 -> GitClient.GetRemoteDefaultBranch h repo = Ok b)
  /\ (forall p q, b = p ++ "/" ++ q -> strings.IndexByte q "/" < 0 ->
        GitClient.GetRemoteDefaultBranch h repo = Ok q).
Proof.
  intros Hr Ho Hn.
  assert (Hn' : noSpace ("refs/remotes/origin/" ++ b) = true)
    by (rewrite noSpace_app, Hn; reflexivity).
  rewrite (exec_symbolic_ref h repo r _ Hr Ho Hn').
  assert (Hlast : forall pre q, strings.IndexByte q "/" < 0 ->
            List.last (strings.Split (pre ++ "/" ++ q) "/") "" = q).
  { intros pre q Hq. change ("/" ++ q) with (String "/" q).
    rewrite Split_app_sep, (Split_free q "/" Hq).
    now rewrite last_app_nonempty by discriminate. }
  split.
  - intros Hb. f_equal. exact (Hlast "refs/remotes/origin" b Hb).
  - intros p q -> Hq. f_equal. rewrite <- sapp_assoc. exact (Hlast _ q Hq).
Qed.

Lemma X16_exec_default_branch_is_the_last_path_element_witness :
  GitClient.GetRemoteDefaultBranch (execHost onRelease) Fixture.repo = Ok "1.0".
Proof.
  refine (proj2 (X16_exec_default_branch_is_the_last_path_element
                   (execHost onRelease) Fixture.repo onRelease "release/1.0" _ _ _)
                "release" "1.0" _ _);
    first [reflexivity | vm_compute; reflexivity].
Defined.
(** ** What [SyncDefaultBranch] reports *)

Lemma syncFromWith_flag g h repo cur def flag x y :
  fst (syncFromWith g h repo cur def) = (flag, None) ->
  GetRefHash g h repo ("refs/heads/" ++ def) = Ok y ->
  GetRefHash g (snd (syncFromWith g h repo cur def)) repo ("refs/heads/" ++ def) = Ok x ->
  flag = negb (String.eqb y x).
Proof.
  unfold syncFromWith. intros H Hy. rewrite Hy in H. revert H.
  destruct (FetchCloneBranch g h (goGitClient.withCloneBranch repo def)) as [[e|] h1];
    [discriminate|].
  destruct (String.eqb cur def).
  - destruct (MergeFastForward g h1 (goGitClient.withCloneBranch repo def)) as [[e|] h2];
      cbn [option_map fst snd]; [discriminate|].
    destruct (GetRefHash g h2 repo ("refs/heads/" ++ def)) as [afterHash|e] eqn:Ha;
      cbn [fst snd]; intros [= <-] Hx; congruence.
  - destruct (UpdateRef g h1 repo ("refs/heads/" ++ def) ("refs/remotes/origin/" ++ def))
      as [[e|] h2]; cbn [option_map fst snd]; [discriminate|].
    destruct (GetRefHash g h2 repo ("refs/heads/" ++ def)) as [afterHash|e] eqn:Ha;
      cbn [fst snd]; intros [= <-] Hx; congruence.
Qed.

(** X19: with either backend, when [SyncDefaultBranch] reports no error,
    the flag it returns says whether [refs/heads/<default>] moved: where
    the reference can be read before and after the call, the flag is
    [true] exactly when the two hashes differ. *)
Theorem X19_sync_flag_tells_whether_the_branch_moved (h : git.Host) (repo : Repo)
    (def : string) (before after : string) (flag : bool) :
  let g := NewGit (git.env h) in
  let res := SyncDefaultBranch g h repo in
  defaultBranchOf g h repo = Ok def ->
  GetRefHash g h repo ("refs/heads/" ++ def) = Ok before ->
  GetRefHash g (snd res) repo ("refs/heads/" ++ def) = Ok after ->
  fst res = (flag, None) ->
  flag = negb (String.eqb before after).
Proof.
  intros g res. subst g res. unfold defaultBranchOf.
  assert (Hskip : forall g0, GetRefHash g0 h repo ("refs/heads/" ++ def) = Ok before ->
            GetRefHash g0 h repo ("refs/heads/" ++ def) = Ok after ->
            false = negb (String.eqb before after)).
  { intros g0 H1 H2. rewrite H1 in H2. injection H2 as <-. now rewrite String.eqb_refl. }
  destruct (NewGit_cases (git.env h)) as [-> | ->];
    cbn [SyncDefaultBranch GetRemoteDefaultBranch execGit goGit].
  - unfold GitClient.SyncDefaultBranch. intros Hdef. cbv zeta. rewrite Hdef.
    destruct (negb (String.eqb (Getenv (git.env h) "GHORG_SYNC_DEFAULT_BRANCH") "true")); [cbn [fst snd]; intros Hb Ha [= <-]; exact (Hskip execGit Hb Ha)|].
    destruct (GitClient.GetRemoteURL h repo "origin");
      [|cbn [fst snd]; intros Hb Ha [= <-]; exact (Hskip execGit Hb Ha)].
    destruct (GitClient.GetCurrentBranch h repo) as [cur|e]; [|discriminate].
    destruct (GitClient.HasLocalChanges h repo) as [[]|e];
      [cbn [fst snd]; intros Hb Ha [= <-]; exact (Hskip execGit Hb Ha) | | discriminate].
    destruct (if String.eqb cur def then _ else _);
      [cbn [fst snd]; intros Hb Ha [= <-]; exact (Hskip execGit Hb Ha)|].
    intros Hb Ha H. exact (syncFromWith_flag execGit h repo cur def flag after before H Hb Ha).
  - unfold goGitClient.SyncDefaultBranch. intros Hdef.
    destruct (negb (String.eqb (Getenv (git.env h) "GHORG_SYNC_DEFAULT_BRANCH") "true")); [cbn [fst snd]; intros Hb Ha [= <-]; exact (Hskip goGit Hb Ha)|].
    destruct (goGitClient.GetRemoteURL h repo "origin");
      [|cbn [fst snd]; intros Hb Ha [= <-]; exact (Hskip goGit Hb Ha)].
    destruct (goGitClient.HasLocalChanges h repo) as [[]|e];
      [cbn [fst snd]; intros Hb Ha [= <-]; exact (Hskip goGit Hb Ha) | | discriminate].
    destruct (goGitClient.GetCurrentBranch h repo) as [cur|e]; [|discriminate].
    cbv zeta. rewrite Hdef.
    destruct (if String.eqb cur def then _ else _);
      [cbn [fst snd]; intros Hb Ha [= <-]; exact (Hskip goGit Hb Ha)|].
    intros Hb Ha H. exact (syncFromWith_flag goGit h repo cur def flag after before H Hb Ha).
Qed.

Lemma X19_sync_flag_tells_whether_the_branch_moved_witness :
  true = negb (String.eqb Fixture.X Fixture.Y).
Proof.
  apply (X19_sync_flag_tells_whether_the_branch_moved
           (Fixture.host Fixture.onFeature) Fixture.repo "main" Fixture.X Fixture.Y true);
    vm_compute; reflexivity.
Defined.

(** ** The subprocess backend only ever fast-forwards the checked-out branch *)

Lemma exec_current_branch h repo r b c :
  git.disk h !! HostPath repo = Some r ->
  git.HEAD r = git.OnBranch b ->
  git.refs r !! ("refs/heads/" ++ b)%string = Some c ->
  GitClient.GetCurrentBranch h repo = Ok (strings.TrimSpace (b ++ gitcli.nl)).
Proof.
  intros Hr Hh Hc.
  unfold GitClient.GetCurrentBranch, GitClient.runGitCommandWithOutput, gitcli.run.
  now rewrite Hr, Hh, Hc.
Qed.

Lemma movedForward_same b c h repo r :
  git.disk h !! HostPath repo = Some r ->
  git.HEAD r = git.OnBranch b ->
  git.refs r !! ("refs/heads/" ++ b)%string = Some c ->
  movedForward b c (HostPath repo) h.
Proof. intros Hr Hh Hc. exists r, c. repeat split; try assumption. now left. Qed.

Lemma exec_merge_forward h repo r b c :
  git.disk h !! HostPath repo = Some r ->
  git.HEAD r = git.OnBranch b ->
  git.refs r !! ("refs/heads/" ++ b)%string = Some c ->
  movedForward b c (HostPath repo) (snd (GitClient.MergeFastForward h repo)).
Proof.
  intros Hr Hh Hc.
  assert (Hsame : forall a, movedForward b c (HostPath repo) (git.note h a)).
  { intros a. exists r, c. cbn [git.note git.disk]. repeat split; try assumption. now left. }
  assert (Hours : gitcli.resolveName r "HEAD" = Some c).
  { unfold gitcli.resolveName. cbn [String.eqb Ascii.eqb Bool.eqb]. now rewrite Hh. }
  unfold GitClient.MergeFastForward, GitClient.runGitCommand, gitcli.run.
  rewrite Hr, Hours.
  destruct (git.worktree r) as [w|] eqn:Hw; [|apply Hsame].
  destruct (gitcli.revParse r ("origin/" ++ CloneBranch repo)) as [theirs|]; [|apply Hsame].
  destruct (git.isAncestor (git.commits r) theirs c); [apply Hsame|].
  destruct (git.isAncestor (git.commits r) c theirs) eqn:Hff; [|apply Hsame].
  destruct (gitcli.hasTrackedChanges w); [apply Hsame|].
  cbn [snd git.withRepo]. exists (git.moveHead r theirs), theirs.
  unfold git.withRepo. cbn [git.disk]. rewrite lookup_insert_eq.
  unfold git.moveHead. rewrite Hh, Hw.
  cbn [git.HEAD git.refs git.commits]. rewrite lookup_insert_eq.
  repeat split. now right.
Qed.

Lemma exec_syncFrom_forward h repo r b c def :
  git.disk h !! HostPath repo = Some r ->
  git.HEAD r = git.OnBranch b ->
  git.refs r !! ("refs/heads/" ++ b)%string = Some c ->
  movedForward b c (HostPath repo) (snd (syncFromWith execGit h repo b def)).
Proof.
  intros Hr Hh Hc. unfold syncFromWith.
  cbn [FetchCloneBranch MergeFastForward UpdateRef GetRefHash execGit].
  destruct (exec_fetch_frame h (goGitClient.withCloneBranch repo def) r Hr)
    as (r1 & new1 & Hd1 & _ & _ & Hh1 & _ & Hf1).
  cbn [goGitClient.withCloneBranch HostPath CloneBranch] in Hd1, Hf1.
  assert (Hc1 : git.refs r1 !! ("refs/heads/" ++ b)%string = Some c)
    by (rewrite Hf1; [exact Hc | apply heads_not_remotes]).
  rewrite Hh in Hh1.
  destruct (GitClient.FetchCloneBranch h (goGitClient.withCloneBranch repo def)) as [[e|] h1];
    cbn [fst snd] in *.
  { exact (movedForward_same b c h1 repo r1 Hd1 Hh1 Hc1). }
  destruct (String.eqb b def) eqn:Hbd.
  - pose proof (exec_merge_forward h1 (goGitClient.withCloneBranch repo def) r1 b c
                  Hd1 Hh1 Hc1) as M.
    cbn [goGitClient.withCloneBranch HostPath] in M.
    destruct (GitClient.MergeFastForward h1 (goGitClient.withCloneBranch repo def))
      as [[e|] h2]; cbn [option_map fst snd] in *; [exact M|].
    destruct (GitClient.GetRefHash h2 repo ("refs/heads/" ++ def)); exact M.
  - apply String.eqb_neq in Hbd.
    destruct (exec_update_frame h1 repo r1 def Hd1)
      as (r2 & new2 & Hd2 & _ & _ & Hh2 & _ & Hf2 & _).
    assert (M : movedForward b c (HostPath repo)
                  (snd (GitClient.UpdateRef h1 repo ("refs/heads/" ++ def)
                          ("refs/remotes/origin/" ++ def)))).
    { exists r2, c. split; [exact Hd2|]. split; [congruence|]. split; [|now left].
      rewrite Hf2; [exact Hc1|]. intros E. apply heads_inj in E. contradiction. }
    destruct (GitClient.UpdateRef h1 repo ("refs/heads/" ++ def) ("refs/remotes/origin/" ++ def))
      as [[e|] h2]; cbn [option_map fst snd] in *; [exact M|].
    destruct (GitClient.GetRefHash h2 repo ("refs/heads/" ++ def)); exact M.
Qed.

(** X14: with the subprocess backend, [SyncDefaultBranch] never takes a
    commit off the checked-out branch.  In a clone attached to a branch,
    whatever the call does and whatever it returns, the branch is
    afterwards still checked out and points either to the commit it
    pointed to or to a descendant of it. *)
Theorem X14_exec_sync_only_fast_forwards_the_current_branch (h : git.Host) (repo : Repo)
    (r : git.Repository) (b : string) (c : git.Hash) :
  git.disk h !! HostPath repo = Some r ->
  git.HEAD r = git.OnBranch b ->
  git.refs r !! ("refs/heads/" ++ b)%string = Some c ->
  noSpace b = true ->
  exists r' c',
    git.disk (snd (GitClient.SyncDefaultBranch h repo)) !! HostPath repo = Some r'
    /\ git.HEAD r' = git.OnBranch b
    /\ git.refs r' !! ("refs/heads/" ++ b)%string = Some c'
    /\ (c' = c \/ git.isAncestor (git.commits r') c c' = true).
Proof.
  intros Hr Hh Hc Hb. change (movedForward b c (HostPath repo)
                                (snd (GitClient.SyncDefaultBranch h repo))).
  pose proof (movedForward_same b c h repo r Hr Hh Hc) as Hsame.
  unfold GitClient.SyncDefaultBranch.
  destruct (negb _); [exact Hsame|].
  destruct (GitClient.GetRemoteURL h repo "origin"); [|exact Hsame].
  cbv zeta.
  destruct (match GitClient.GetRemoteDefaultBranch h repo with Ok _ => _ | Err _ => _ end)
    as [def|e]; [|exact Hsame].
  rewrite (exec_current_branch h repo r b c Hr Hh Hc), (TrimSpace_line b Hb).
  destruct (GitClient.HasLocalChanges h repo) as [[]|e]; try exact Hsame.
  destruct (if String.eqb b def then _ else _); [exact Hsame|].
  exact (exec_syncFrom_forward h repo r b c def Hr Hh Hc).
Qed.

Lemma X14_exec_sync_only_fast_forwards_the_current_branch_witness :
  exists r' c',
    git.disk (snd (GitClient.SyncDefaultBranch (execHost Fixture.onDefault) Fixture.repo))
      !! HostPath Fixture.repo = Some r'
    /\ git.HEAD r' = git.OnBranch "main"
    /\ git.refs r' !! "refs/heads/main" = Some c'
    /\ (c' = Fixture.X \/ git.isAncestor (git.commits r') Fixture.X c' = true).
Proof.
  apply (X14_exec_sync_only_fast_forwards_the_current_branch
           (execHost Fixture.onDefault) Fixture.repo Fixture.onDefault "main" Fixture.X);
    reflexivity.
Defined.
(** ** The default branch, asked of the remote by the subprocess backend *)

Lemma is_space_isSpace a : Ascii.is_space a = strings.isSpace a.
Proof. reflexivity. Qed.

Lemma rev_app_rev_app w : forall acc t,
  String.rev_app (String.rev_app w acc) t = String.rev_app acc (w ++ t).
Proof.
  induction w as [|a w IH]; intros acc t; cbn [String.rev_app].
  - now rewrite sapp_nil.
  - rewrite IH. cbn [String.rev_app]. now rewrite sapp_cons.
Qed.

Lemma words_go_feed w : forall cur rest,
  w <> "" -> noSpace w = true ->
  String.words_go cur (w ++ rest)
  = String.words_go (Some (String.rev_app w (from_option id "" cur))) rest.
Proof.
  induction w as [|a w IH]; intros cur rest Hne Hn; [contradiction|].
  cbn [noSpace] in Hn. apply andb_prop in Hn as [Ha Hw]. apply negb_true_iff in Ha.
  rewrite sapp_cons. cbn [String.words_go String.rev_app].
  rewrite is_space_isSpace, Ha.
  assert (E : from_option (String a) (String a "") cur = String a (from_option id "" cur))
    by now destruct cur.
  rewrite E. destruct w as [|a' w'].
  - now rewrite sapp_nil.
  - rewrite (IH _ rest ltac:(discriminate) Hw). reflexivity.
Qed.

Lemma words_first_word w sp rest :
  w <> "" -> noSpace w = true -> strings.isSpace sp = true ->
  strings.Fields (w ++ String sp rest) = w :: strings.Fields rest.
Proof.
  intros Hne Hn Hs. unfold strings.Fields, String.words.
  rewrite (words_go_feed w None _ Hne Hn). cbn [String.words_go from_option id].
  rewrite is_space_isSpace, Hs. cbn [fmap option_fmap option_map option_list app].
  unfold String.rev. rewrite rev_app_rev_app. cbn [String.rev_app].
  now rewrite sapp_nil_r.
Qed.

Lemma TrimRightSpace_end x a :
  strings.isSpace a = false -> strings.TrimRightSpace (x ++ String a "") = x ++ String a "".
Proof.
  intros Ha. induction x as [|c x IH].
  - rewrite sapp_nil, TrimRightSpace_cons. cbn [strings.TrimRightSpace]. now rewrite Ha.
  - rewrite sapp_cons, TrimRightSpace_cons, IH.
    destruct x; [rewrite sapp_nil | rewrite sapp_cons]; reflexivity.
Qed.

Lemma drop_app p s : strings.drop (String.length p) (p ++ s) = s.
Proof.
  induction p as [|a p IH]; [rewrite sapp_nil; now destruct s|].
  rewrite sapp_cons. exact IH.
Qed.

Lemma TrimPrefix_app p s : strings.TrimPrefix (p ++ s) p = s.
Proof. unfold strings.TrimPrefix. rewrite HasPrefix_app. apply drop_app. Qed.

Lemma noSpace_no_newline s : noSpace s = true -> strings.IndexByte s "010" < 0.
Proof.
  induction s as [|a s IH]; [cbn; lia|]. cbn [noSpace]. intros H.
  apply andb_prop in H as [Ha Hs]. apply IndexByte_cons_neg. split; [|now apply IH].
  intros ->. discriminate Ha.
Qed.

(** The first line of what [git ls-remote --symref origin HEAD] prints for
    a remote whose [HEAD] is the branch [b]. *)
Lemma symref_line_found b more :
  noSpace b = true ->
  GitClient.findSymrefLine (("ref: " ++ ("refs/heads/" ++ b) ++ gitcli.tab ++ "HEAD") :: more)
  = Some b.
Proof.
  intros Hb. cbn [GitClient.findSymrefLine].
  assert (Hline : strings.TrimSpace ("ref: " ++ ("refs/heads/" ++ b) ++ gitcli.tab ++ "HEAD")
                  = "ref: " ++ ("refs/heads/" ++ b) ++ gitcli.tab ++ "HEAD").
  { unfold strings.TrimSpace.
    replace (strings.TrimLeftSpace ("ref: " ++ ("refs/heads/" ++ b) ++ gitcli.tab ++ "HEAD"))
      with ("ref: " ++ ("refs/heads/" ++ b) ++ gitcli.tab ++ "HEAD") by reflexivity.
    replace ("ref: " ++ ("refs/heads/" ++ b) ++ gitcli.tab ++ "HEAD")
      with (("ref: " ++ ("refs/heads/" ++ b) ++ gitcli.tab ++ "HEA") ++ "D")
      by (rewrite !sapp_assoc; reflexivity).
    now apply TrimRightSpace_end. }
  rewrite Hline.
  replace (strings.HasPrefix ("ref: " ++ ("refs/heads/" ++ b) ++ gitcli.tab ++ "HEAD") "ref:")
    with true by reflexivity.
  replace (strings.Contains ("ref: " ++ ("refs/heads/" ++ b) ++ gitcli.tab ++ "HEAD")
             "refs/heads/") with true by reflexivity.
  cbn [andb].
  assert (Hf : strings.Fields ("ref: " ++ ("refs/heads/" ++ b) ++ gitcli.tab ++ "HEAD")
               = ["ref:"; "refs/heads/" ++ b; "HEAD"]).
  { change ("ref: " ++ ("refs/heads/" ++ b) ++ gitcli.tab ++ "HEAD")
      with ("ref:" ++ String " " (("refs/heads/" ++ b) ++ String "009" "HEAD")).
    rewrite words_first_word by (first [discriminate | reflexivity]).
    rewrite words_first_word; [reflexivity | discriminate | | reflexivity].
    rewrite noSpace_app, Hb. reflexivity. }
  rewrite Hf, HasPrefix_app, TrimPrefix_app. reflexivity.
Qed.

(** X17: when the clone has no [refs/remotes/origin/HEAD], the subprocess
    backend asks the remote, and from what [git ls-remote --symref origin
    HEAD] prints for a remote whose [HEAD] is the branch [b] it returns
    [b], the whole name, slashes included. *)
Theorem X17_exec_default_branch_from_ls_remote (h : git.Host) (repo : Repo)
    (r : git.Repository) (url : string) (urls : list string) (rm : git.Remote) (b : string) :
  git.disk h !! HostPath repo = Some r ->
  git.originHEAD r = None ->
  git.remotes r !! "origin" = Some (url :: urls) ->
  git.network h !! url = Some rm ->
  git.remoteHEAD rm = Some ("refs/heads/" ++ b) ->
  noSpace b = true ->
  GitClient.GetRemoteDefaultBranch h repo = Ok b.
Proof.
  intros Hr Ho Hrem Hnet Hhead Hb.
  unfold GitClient.GetRemoteDefaultBranch, GitClient.runGitCommandWithOutput, gitcli.run.
  rewrite Hr, Ho, Hrem, Hnet, Hhead. cbn [String.eqb Ascii.eqb Bool.eqb fst].
  unfold gitcli.nl, gitcli.tab.
  set (line := "ref: " ++ ("refs/heads/" ++ b) ++ String "009" "" ++ "HEAD").
  set (tl := match git.heads rm !! strings.TrimPrefix ("refs/heads/" ++ b) "refs/heads/" with
             | Some c => c ++ String "009" "" ++ "HEAD" ++ String "010" ""
             | None => ""
             end).
  assert (Hout : exists more,
            strings.Split (strings.TrimSpace ("ref: " ++ ("refs/heads/" ++ b) ++ String "009" ""
                                              ++ "HEAD" ++ String "010" "" ++ tl)) "010"
            = line :: more).
  { assert (Hl : strings.IndexByte line "010" < 0).
    { subst line. apply IndexByte_app_neg. split; [reflexivity|].
      apply IndexByte_app_neg. split.
      - apply noSpace_no_newline. rewrite noSpace_app, Hb. reflexivity.
      - reflexivity. }
    assert (Hleft : forall x, strings.TrimLeftSpace (line ++ x) = line ++ x) by reflexivity.
    assert (Hend : line = ("ref: " ++ ("refs/heads/" ++ b) ++ String "009" "" ++ "HEA") ++ "D")
      by (subst line; rewrite !sapp_assoc; reflexivity).
    replace ("ref: " ++ ("refs/heads/" ++ b) ++ String "009" "" ++ "HEAD" ++ String "010" "" ++ tl)
      with (line ++ String "010" "" ++ tl) by (subst line; rewrite !sapp_assoc; reflexivity).
    unfold strings.TrimSpace. rewrite Hleft. subst tl.
    destruct (git.heads rm !! _) as [c|].
    - exists (strings.Split (c ++ String "009" "" ++ "HEAD") "010").
      replace (line ++ String "010" "" ++ c ++ String "009" "" ++ "HEAD" ++ String "010" "")
        with (((line ++ String "010" "" ++ c ++ String "009" "" ++ "HEA") ++ "D") ++ String "010" "")
        by (rewrite !sapp_assoc; reflexivity).
      rewrite TrimRightSpace_nl, TrimRightSpace_end by reflexivity.
      replace ((line ++ String "010" "" ++ c ++ String "009" "" ++ "HEA") ++ "D")
        with (line ++ String "010" (c ++ String "009" "" ++ "HEAD"))
        by (rewrite !sapp_assoc; reflexivity).
      rewrite Split_app_sep, (Split_free line "010" Hl). reflexivity.
    - exists []. rewrite sapp_nil_r.
      rewrite TrimRightSpace_nl, Hend, TrimRightSpace_end by reflexivity.
      rewrite <- Hend. apply Split_free, Hl. }
  destruct Hout as [more ->]. subst line.
  pose proof (symref_line_found b more Hb) as F. unfold gitcli.tab in F. now rewrite F.
Qed.

Lemma X17_exec_default_branch_from_ls_remote_witness :
  GitClient.GetRemoteDefaultBranch (execHost offlineDirty) Fixture.repo = Ok "main".
Proof.
  apply (X17_exec_default_branch_from_ls_remote (execHost offlineDirty) Fixture.repo
           offlineDirty Fixture.url [] Fixture.origin "main"); reflexivity.
Defined.

(** ** The ignore file *)

Lemma ignoreFlag_existsb url toIgnore : forall flag,
  ignoreFlag url toIgnore flag = flag || existsb (strings.Contains url) toIgnore.
Proof.
  induction toIgnore as [|i rest IH]; intros flag; cbn [ignoreFlag existsb].
  - now rewrite orb_false_r.
  - rewrite IH. destruct (strings.Contains url i), flag; reflexivity.
Qed.

Lemma ghorgignoreLoop_filter toIgnore cloneTargets : forall filtered,
  ghorgignoreLoop toIgnore cloneTargets filtered
  = (filtered ++ List.filter (fun repo => negb (ignored toIgnore repo)) cloneTargets)%list.
Proof.
  induction cloneTargets as [|c rest IH]; intros filtered; cbn [ghorgignoreLoop List.filter].
  - now rewrite app_nil_r.
  - rewrite IH, ignoreFlag_existsb. cbn [orb]. unfold ignored at 2.
    destruct (existsb (strings.Contains (URL c)) toIgnore); cbn [negb];
      [reflexivity | now rewrite <- app_assoc].
Qed.

Lemma scanTokens_short parts :
  Forall (fun p => strings.len p < MaxScanTokenSize) parts ->
  snd (scanTokens parts) = None
  /\ List.filter (fun text => negb (String.eqb text "")) (fst (scanTokens parts))
     = List.filter (fun text => negb (String.eqb text "")) (map dropCR parts).
Proof.
  intros H. induction H as [|p rest Hp Hrest IH]; [now split|].
  assert (Hshort : (strings.len p >=? MaxScanTokenSize) = false)
    by (rewrite Z.geb_leb; apply Z.leb_gt; exact Hp).
  cbn [scanTokens]. rewrite Hshort. destruct rest as [|q rest].
  - destruct (String.eqb p "") eqn:E; [|now split].
    apply String.eqb_eq in E. subst p. now split.
  - destruct (scanTokens (q :: rest)) as [tokens err]. cbn [fst snd] in *.
    destruct IH as [-> IH]. split; [reflexivity|].
    cbn [map List.filter]. now rewrite IH.
Qed.

(** X10: without an ignore file [filterByGhorgignore] returns the targets
    as they are.  With one whose lines are all shorter than the scanner's
    limit, it returns, in their order, exactly the targets whose URL
    contains none of the file's lines as a substring, where the lines are
    the pieces between line feeds, a final carriage return dropped, and the
    empty ones left out (so a blank line excludes nothing). *)
Theorem X10_ghorgignore_drops_urls_containing_a_line (GhorgIgnoreLocation : string)
    (files : gmap string string) (cloneTargets : list Repo) :
  (files !! GhorgIgnoreLocation = None ->
   filterByGhorgignore GhorgIgnoreLocation files cloneTargets = Returns cloneTargets)
  /\ (forall content,
        files !! GhorgIgnoreLocation = Some content ->
        Forall (fun p => strings.len p < MaxScanTokenSize) (strings.Split content "010") ->
        filterByGhorgignore GhorgIgnoreLocation files cloneTargets
        = Returns (List.filter (fun repo => negb (ignored (ignoreLines content) repo))
                     cloneTargets)
        /\ Forall (fun line => line <> "") (ignoreLines content)).
Proof.
  unfold filterByGhorgignore. split.
  - intros ->. reflexivity.
  - intros content -> Hshort. unfold readLines.
    destruct (scanTokens_short _ Hshort) as [Herr Htok].
    destruct (scanTokens (strings.Split content "010")) as [tokens err].
    cbn [fst snd] in *. subst err. rewrite Htok, ghorgignoreLoop_filter. split; [reflexivity|].
    apply List.Forall_forall. intros line Hin. apply filter_In in Hin as [_ Hne].
    apply negb_true_iff, String.eqb_neq in Hne. exact Hne.
Qed.

Lemma X10_ghorgignore_drops_urls_containing_a_line_witness :
  filterByGhorgignore "/home/u/.config/ghorg/ghorgignore"
    {[ "/home/u/.config/ghorg/ghorgignore" := ignoreFile ]} [appOfTeamA; appOfTeamB]
  = Returns [appOfTeamA].
Proof.
  destruct (proj2 (X10_ghorgignore_drops_urls_containing_a_line
              "/home/u/.config/ghorg/ghorgignore"
              {[ "/home/u/.config/ghorg/ghorgignore" := ignoreFile ]} [appOfTeamA; appOfTeamB])
              ignoreFile) as [E _].
  - vm_compute. reflexivity.
  - let l := eval vm_compute in (strings.Split ignoreFile "010") in
    change (strings.Split ignoreFile "010") with l.
    repeat (apply List.Forall_cons; [vm_compute; reflexivity|]). apply List.Forall_nil.
  - rewrite E. vm_compute. reflexivity.
Defined.

(** ** The clone root itself *)

(** X20: for a clone root given by a clean absolute path, every path
    [pruneRepos] hands to [os.RemoveAll] is a path strictly below the
    root: the root itself is never removed, whether or not it is a
    repository, in either mode. *)
Theorem X20_prune_never_removes_the_clone_root (env : gmap string string) (w : World)
    (oelems : list string) (droot : node) (targets : list Repo) :
  wfNode (fs w) = true ->
  Forall (fun n => validName n = true) oelems ->
  lookupElems (fs w) oelems = Some droot ->
  exists new,
    removed (snd (pruneRepos env (absPath oelems) targets w)) = (removed w ++ new)%list
    /\ Forall (fun p => p <> absPath oelems
                        /\ exists cs, cs <> [] /\ p = absPath (oelems ++ cs)) new.
Proof.
  intros Hwf Ho Hroot.
  destruct (getRelativePathRepositories_spec (fs w) oelems droot Hwf Ho Hroot)
    as [repositories [Hwalk Hspec]].
  destruct (lookupElems_wf (fs w) oelems droot Hwf Hroot) as [_ Hwfr].
  unfold pruneRepos. rewrite Hwalk.
  destruct (pruneLoop_accounts targets (absPath oelems)
              (String.eqb (Getenv env "GHORG_PRUNE_NO_CONFIRM") "true")
              repositories 0 true w) as (new & E & F & _).
  destruct (pruneLoop targets (absPath oelems) _ repositories 0 true w) as [r w'].
  cbn [fst snd] in *. exists new. split; [exact E|].
  eapply Forall_impl; [exact F|]. intros p (rel & Hin & -> & _).
  apply Hspec in Hin as (cs & d & g & -> & Hcs0 & Hl & _).
  destruct (lookupElems_wf droot cs d Hwfr Hl) as [Hcs _].
  rewrite Join_absPath by assumption. split.
  - intros E'. apply absPath_inj in E'; [|apply Forall_app; now split | exact Ho].
    apply (f_equal (@length string)) in E'. rewrite length_app in E'.
    destruct cs; [contradiction | cbn [length] in E'; lia].
  - now exists cs.
Qed.

Lemma X20_prune_never_removes_the_clone_root_witness :
  exists new,
    removed (snd (pruneRepos pruneEnv (absPath ["tmp"; "out"]) []
                    (mkWorld testTree [] [] [] [])))
    = (removed (mkWorld testTree [] [] [] []) ++ new)%list
    /\ Forall (fun p => p <> absPath ["tmp"; "out"]
                        /\ exists cs, cs <> [] /\ p = absPath (["tmp"; "out"] ++ cs)) new.
Proof.
  apply (X20_prune_never_removes_the_clone_root pruneEnv (mkWorld testTree [] [] [] [])
           ["tmp"; "out"]
           (Dir [("prunnable", Dir [(".git", Dir [])]);
                 ("repository", Dir [(".git", Dir []);
                    ("submodule", Dir [(".git", File "gitdir: ../.git/modules/submodule")])])])
           []);
    first [vm_compute; reflexivity | repeat constructor].
Defined.
(** ** Answering yes to every prompt *)

Lemma pruneLoop_all_yes targets out repositories : forall count (w w' : World),
  fs w = fs w' -> locked w = locked w' -> removed w = removed w' ->
  Forall (fun line => isYes line = true) (stdin w) ->
  (length (List.filter (isCandidate targets) repositories) <= length (stdin w))%nat ->
  let asked := pruneLoop targets out false repositories count true w in
  let unasked := pruneLoop targets out true repositories count true w' in
  fst asked = fst unasked
  /\ fs (snd asked) = fs (snd unasked)
  /\ removed (snd asked) = removed (snd unasked).
Proof.
  induction repositories as [|r rest IH]; intros count w w' Hfs Hl Hr Hyes Hlen asked unasked;
    subst asked unasked.
  - cbn. auto.
  - cbn [pruneLoop].
    destruct (negb (strings.HasPrefix (filepath.Join [out; r]) out)); [cbn; auto|].
    cbn [andb]. cbn [List.filter] in Hlen. unfold isCandidate at 1 in Hlen.
    destruct (negb (sliceContainsNamedRepo targets r)); [|now apply IH].
    cbn [length] in Hlen. unfold interactiveYesNoPrompt.
    destruct (stdin w) as [|line lines] eqn:Hin; [cbn [length] in Hlen; lia|].
    apply Forall_cons_1 in Hyes as [Hline Hlines]. rewrite Hline.
    unfold RemoveAll. cbn [fs locked stdin removed prompts]. rewrite Hl, Hfs, Hr.
    destruct (existsb _ (locked w')); cbn [fst snd fs removed]; [auto|].
    apply IH; cbn [fs locked stdin removed]; try reflexivity; try assumption.
    cbn [length] in Hlen. lia.
Qed.

(** X21: answering yes to every prompt of an interactive prune does what a
    prune without confirmation does: the same directories are handed to
    [os.RemoveAll] in the same order, the same files are left, and the
    same count or the same fatal exit comes back. *)
Theorem X21_all_yes_equals_no_confirm (asking quiet : gmap string string) (out : string)
    (targets : list Repo) (w : World) (repositories : list string) :
  Getenv asking "GHORG_PRUNE_NO_CONFIRM" <> "true" ->
  Getenv quiet "GHORG_PRUNE_NO_CONFIRM" = "true" ->
  getRelativePathRepositories (fs w) out out = Ok repositories ->
  Forall (fun line => isYes line = true) (stdin w) ->
  (length (List.filter (isCandidate targets) repositories) <= length (stdin w))%nat ->
  fst (pruneRepos asking out targets w) = fst (pruneRepos quiet out targets w)
  /\ fs (snd (pruneRepos asking out targets w)) = fs (snd (pruneRepos quiet out targets w))
  /\ removed (snd (pruneRepos asking out targets w))
     = removed (snd (pruneRepos quiet out targets w)).
Proof.
  intros Ha Hq Hwalk Hyes Hlen. unfold pruneRepos. rewrite Hwalk, Hq.
  apply String.eqb_neq in Ha. rewrite Ha. change (String.eqb "true" "true") with true.
  destruct (pruneLoop_all_yes targets out repositories 0 w w eq_refl eq_refl eq_refl Hyes Hlen)
    as (E1 & E2 & E3).
  destruct (pruneLoop targets out false repositories 0 true w) as [r1 w1].
  destruct (pruneLoop targets out true repositories 0 true w) as [r2 w2].
  cbn [fst snd] in *. subst r2. auto.
Qed.

Lemma X21_all_yes_equals_no_confirm_witness :
  fst (pruneRepos ∅ "/clones/org" [] allYes) = fst (pruneRepos noConfirmEnv "/clones/org" [] allYes)
  /\ fs (snd (pruneRepos ∅ "/clones/org" [] allYes))
     = fs (snd (pruneRepos noConfirmEnv "/clones/org" [] allYes))
  /\ removed (snd (pruneRepos ∅ "/clones/org" [] allYes))
     = removed (snd (pruneRepos noConfirmEnv "/clones/org" [] allYes)).
Proof.
  apply (X21_all_yes_equals_no_confirm ∅ noConfirmEnv "/clones/org" [] allYes ["a"; "b"; "c"]).
  - vm_compute. discriminate.
  - vm_compute. reflexivity.
  - vm_compute. reflexivity.
  - repeat (apply List.Forall_cons; [vm_compute; reflexivity|]). apply List.Forall_nil.
  - vm_compute. lia.
Defined.
(** ** Unpushed commits, as the library backend sees them *)

Lemma gogit_Head_on_branch r b c :
  git.HEAD r = git.OnBranch b ->
  git.refs r !! ("refs/heads/" ++ b)%string = Some c ->
  gogit.Head r = Ok (gogit.HashReference ("refs/heads/" ++ b) c).
Proof.
  intros Hh Hc. unfold gogit.Head, gogit.Reference_, gogit.storerReference.
  cbn [String.eqb Ascii.eqb Bool.eqb]. rewrite Hh.
  cbn [gogit.resolveReference gogit.MaxResolveRecursion].
  unfold gogit.storerReference. rewrite heads_not_HEAD, heads_not_originHEAD, Hc.
  reflexivity.
Qed.

(** X22: with the library backend and a branch checked out,
    [HasUnpushedCommits] compares the branch with
    [refs/remotes/origin/<branch>] only: without that reference it answers
    [false] with no error, whatever upstream is configured; with it, it
    answers [true] exactly when the remote-tracking commit is an ancestor
    of the branch's commit and differs from it, hence [false] when the two
    have diverged. *)
Theorem X22_goGit_unpushed_means_strictly_ahead (h : git.Host) (repo : Repo)
    (r : git.Repository) (b : string) (c : git.Hash) (parents : list git.Hash) :
  git.disk h !! HostPath repo = Some r ->
  git.HEAD r = git.OnBranch b ->
  git.refs r !! ("refs/heads/" ++ b)%string = Some c ->
  git.commits r !! c = Some parents ->
  b <> "HEAD" ->
  (git.refs r !! ("refs/remotes/origin/" ++ b)%string = None ->
   goGitClient.HasUnpushedCommits h repo = Ok false)
  /\ (forall u ps,
        git.refs r !! ("refs/remotes/origin/" ++ b)%string = Some u ->
        git.commits r !! u = Some ps ->
        goGitClient.HasUnpushedCommits h repo
        = Ok (git.isAncestor (git.commits r) u c && negb (String.eqb c u))
        /\ (git.isAncestor (git.commits r) u c = false ->
            goGitClient.HasUnpushedCommits h repo = Ok false)).
Proof.
  intros Hr Hh Hc Hcommit Hb.
  assert (E : goGitClient.HasUnpushedCommits h repo
              = match git.refs r !! ("refs/remotes/origin/" ++ b)%string with
                | None => Ok false
                | Some u =>
                    match git.commits r !! u with
                    | Some _ => Ok (git.isAncestor (git.commits r) u c && negb (String.eqb c u))
                    | None => Err (git.wrap "failed to get upstream commit object" "object not found")
                    end
                end).
  { unfold goGitClient.HasUnpushedCommits, gogit.PlainOpen. rewrite Hr.
    rewrite (gogit_Head_on_branch r b c Hh Hc). cbn [gogit.refName gogit.refHash].
    unfold gogit.Short. rewrite HasPrefix_app, TrimPrefix_app.
    rewrite (gogit_Reference_plain r _ (remotes_not_HEAD b) (remotes_originHEAD b Hb)).
    destruct (git.refs r !! ("refs/remotes/origin/" ++ b)%string) as [u|]; [|reflexivity].
    unfold gogit.CommitObject. rewrite Hcommit. cbn [gogit.refHash].
    destruct (git.commits r !! u); reflexivity. }
  split.
  - intros Hnone. rewrite E, Hnone. reflexivity.
  - intros u ps Hu Hps. rewrite E, Hu, Hps. split; [reflexivity|].
    intros ->. reflexivity.
Qed.

Lemma X22_goGit_unpushed_means_strictly_ahead_witness :
  goGitClient.HasUnpushedCommits (Fixture.host Fixture.diverged) Fixture.repo = Ok false.
Proof.
  refine (proj2 (proj2 (X22_goGit_unpushed_means_strictly_ahead
            (Fixture.host Fixture.diverged) Fixture.repo Fixture.diverged "main" Fixture.L
            [Fixture.X] _ _ _ _ _) Fixture.Y [Fixture.X] _ _) _);
    first [discriminate | vm_compute; reflexivity].
Defined.

(** ** Credentials of the library backend *)

(** X23: [getHTTPAuth] uses the first token that is set, in the order
    GitHub, GitLab, Gitea, Bitbucket: the password it returns is never
    empty, it returns nothing exactly when none of the four is set, the
    user name is [x-access-token] for the first three, and the Bitbucket
    app password with the Bitbucket user name is used only when the three
    others are all unset. *)
Theorem X23_first_token_set_is_the_one_used (env : gmap string string) :
  let github := Getenv env "GHORG_GITHUB_TOKEN" in
  let gitlab := Getenv env "GHORG_GITLAB_TOKEN" in
  let gitea := Getenv env "GHORG_GITEA_TOKEN" in
  let bitbucket := Getenv env "GHORG_BITBUCKET_APP_PASSWORD" in
  (getHTTPAuth env = None <-> github = "" /\ gitlab = "" /\ gitea = "" /\ bitbucket = "")
  /\ (forall auth, getHTTPAuth env = Some auth ->
        Password auth <> ""
        /\ (github <> "" -> auth = mkBasicAuth "x-access-token" github)
        /\ (github = "" -> gitlab <> "" -> auth = mkBasicAuth "x-access-token" gitlab)
        /\ (github = "" -> gitlab = "" -> gitea <> "" ->
            auth = mkBasicAuth "x-access-token" gitea)
        /\ (Username auth <> "x-access-token" ->
            github = "" /\ gitlab = "" /\ gitea = ""
            /\ auth = mkBasicAuth (Getenv env "GHORG_BITBUCKET_USERNAME") bitbucket)).
Proof.
  intros github gitlab gitea bitbucket. subst github gitlab gitea bitbucket.
  unfold getHTTPAuth. cbn [httpAuthLoop String.eqb Ascii.eqb Bool.eqb].
  destruct (String.eqb (Getenv env "GHORG_GITHUB_TOKEN") "") eqn:E1;
    [apply String.eqb_eq in E1 | apply String.eqb_neq in E1];
  (destruct (String.eqb (Getenv env "GHORG_GITLAB_TOKEN") "") eqn:E2;
    [apply String.eqb_eq in E2 | apply String.eqb_neq in E2]);
  (destruct (String.eqb (Getenv env "GHORG_GITEA_TOKEN") "") eqn:E3;
    [apply String.eqb_eq in E3 | apply String.eqb_neq in E3]);
  (destruct (String.eqb (Getenv env "GHORG_BITBUCKET_APP_PASSWORD") "") eqn:E4;
    [apply String.eqb_eq in E4 | apply String.eqb_neq in E4]);
  cbn [negb];
  (split;
   [ split; [intros H; try discriminate H; tauto | intros (? & ? & ? & ?); congruence]
   | intros auth H; try discriminate H; injection H as <-; cbn [Password Username];
     repeat split; try congruence; try tauto; try (intros Hu; now destruct Hu) ]).
Qed.

Lemma X23_first_token_set_is_the_one_used_witness :
  getHTTPAuth twoTokensEnv = Some (mkBasicAuth "x-access-token" "glpat-1").
Proof.
  destruct (X23_first_token_set_is_the_one_used twoTokensEnv) as [_ H].
  destruct (getHTTPAuth twoTokensEnv) as [auth|] eqn:E; [|vm_compute in E; discriminate E].
  destruct (H auth eq_refl) as (_ & _ & H2 & _).
  rewrite (H2 ltac:(vm_compute; reflexivity) ltac:(vm_compute; discriminate)).
  vm_compute. reflexivity.
Defined.

(** ** Running the sync a second time *)

Lemma filter_filter {A} (f : A -> bool) (l : list A) :
  List.filter f (List.filter f l) = List.filter f l.
Proof.
  induction l as [|a l IH]; [reflexivity|]. cbn [List.filter].
  destruct (f a) eqn:E; [|exact IH]. cbn [List.filter]. rewrite E. now f_equal.
Qed.

Lemma existsb_filter_false {A} (f g : A -> bool) (l : list A) :
  existsb f l = false -> existsb f (List.filter g l) = false.
Proof.
  induction l as [|a l IH]; [reflexivity|]. cbn [existsb List.filter].
  intros H. apply orb_false_iff in H as [H1 H2].
  destruct (g a); [cbn [existsb]; rewrite H1; now apply IH | now apply IH].
Qed.

Lemma moveHead_again r b c :
  git.HEAD r = git.OnBranch b ->
  git.moveHead (git.moveHead r c) c = git.moveHead r c.
Proof.
  intros Hh. unfold git.moveHead. rewrite Hh.
  cbn [git.HEAD git.refs git.originHEAD git.commits git.remotes git.upstreams git.worktree].
  rewrite insert_insert_eq. f_equal.
  destruct (git.worktree r) as [w|]; [|reflexivity].
  cbn [git.status]. now rewrite filter_filter.
Qed.

Lemma gogit_HasLocalChanges_status h repo r w :
  git.disk h !! HostPath repo = Some r ->
  git.worktree r = Some w ->
  goGitClient.HasLocalChanges h repo = Ok (existsb isChanged (git.status w)).
Proof.
  intros Hr Hw.
  unfold goGitClient.HasLocalChanges, goGitClient.ShortStatus, gogit.PlainOpen, gogit.Worktree_.
  rewrite Hr, Hw. f_equal.
  destruct (existsb isChanged (git.status w)) eqn:Hc.
  - destruct (statusLines_changed _ Hc) as (a & c & b & -> & Hv).
    apply negb_true_iff, String.eqb_neq. now apply TrimSpace_visible.
  - now rewrite (statusLines_unchanged _ Hc).
Qed.

Lemma gogit_HasLocalChanges_bare h repo r x :
  git.disk h !! HostPath repo = Some r ->
  goGitClient.HasLocalChanges h repo = Ok x ->
  exists w, git.worktree r = Some w.
Proof.
  intros Hr. unfold goGitClient.HasLocalChanges, goGitClient.ShortStatus, gogit.PlainOpen,
    gogit.Worktree_. rewrite Hr.
  destruct (git.worktree r) as [w|]; [now exists w | discriminate].
Qed.

Lemma gogit_GetCurrentBranch_attached h repo r b :
  git.disk h !! HostPath repo = Some r ->
  git.HEAD r = git.OnBranch b ->
  goGitClient.GetCurrentBranch h repo
  = match git.refs r !! ("refs/heads/" ++ b)%string with
    | Some _ => Ok b
    | None => Err "reference not found"
    end.
Proof.
  intros Hr Hh. unfold goGitClient.GetCurrentBranch, gogit.PlainOpen. rewrite Hr.
  destruct (git.refs r !! ("refs/heads/" ++ b)%string) as [c|] eqn:Hc.
  - rewrite (gogit_Head_on_branch r b c Hh Hc). cbn [gogit.refName].
    unfold gogit.IsBranch, gogit.Short. rewrite HasPrefix_app, TrimPrefix_app. reflexivity.
  - unfold gogit.Head, gogit.Reference_, gogit.storerReference.
    cbn [String.eqb Ascii.eqb Bool.eqb]. rewrite Hh.
    cbn [gogit.resolveReference gogit.MaxResolveRecursion].
    unfold gogit.storerReference. rewrite heads_not_HEAD, heads_not_originHEAD, Hc.
    reflexivity.
Qed.

(** The default branch the library backend finds depends on the clone
    only through the URLs of [origin]. *)
Lemma gogit_default_branch_stable h h' repo r r' :
  git.disk h !! HostPath repo = Some r ->
  git.disk h' !! HostPath repo = Some r' ->
  git.remotes r' = git.remotes r ->
  git.network h' = git.network h ->
  goGitClient.GetRemoteDefaultBranch h' repo = goGitClient.GetRemoteDefaultBranch h repo.
Proof.
  intros Hr Hr' Hrem Hnet.
  unfold goGitClient.GetRemoteDefaultBranch, gogit.PlainOpen. rewrite Hr, Hr'.
  unfold gogit.RemoteURLs, gogit.List. rewrite Hrem, Hnet.
  destruct (gogit.Reference_ r "refs/remotes/origin/HEAD" true) as [x|e] eqn:E;
    destruct (gogit.Reference_ r' "refs/remotes/origin/HEAD" true) as [x'|e'] eqn:E';
    rewrite ?(Reference_resolved_hash _ _ _ E), ?(Reference_resolved_hash _ _ _ E');
    reflexivity.
Qed.

Lemma gogit_unpushed_level h repo r b c :
  git.disk h !! HostPath repo = Some r ->
  git.HEAD r = git.OnBranch b ->
  git.refs r !! ("refs/heads/" ++ b)%string = Some c ->
  git.refs r !! ("refs/remotes/origin/" ++ b)%string = Some c ->
  b <> "HEAD" ->
  goGitClient.HasUnpushedCommits h repo
  = match git.commits r !! c with
    | Some _ => Ok false
    | None => Err "object not found"
    end.
Proof.
  intros Hr Hh Hc Ht Hb.
  unfold goGitClient.HasUnpushedCommits, gogit.PlainOpen. rewrite Hr.
  rewrite (gogit_Head_on_branch r b c Hh Hc). cbn [gogit.refName gogit.refHash].
  unfold gogit.Short. rewrite HasPrefix_app, TrimPrefix_app.
  rewrite (gogit_Reference_plain r _ (remotes_not_HEAD b) (remotes_originHEAD b Hb)).
  etransitivity.
  { instantiate (1 := match gogit.CommitObject r c with
                      | Ok headCommit =>
                          match gogit.CommitObject r c with
                          | Ok upstreamCommit =>
                              Ok (git.isAncestor (git.commits r) upstreamCommit headCommit
                                  && negb (String.eqb c c))
                          | Err e => Err (git.wrap "failed to get upstream commit object" e)
                          end
                      | Err e => Err e
                      end).
    destruct (git.refs r !! ("refs/remotes/origin/" ++ b)%string) as [u|] eqn:Hu;
      [|discriminate Ht].
    injection Ht as ->. reflexivity. }
  unfold gogit.CommitObject. destruct (git.commits r !! c); [|reflexivity].
  now rewrite String.eqb_refl, andb_false_r.
Qed.
Lemma gogit_fetch_settled h repo r url urls rm c :
  git.disk h !! HostPath repo = Some r ->
  git.remotes r !! "origin" = Some (url :: urls) ->
  git.network h !! url = Some rm ->
  git.heads rm !! CloneBranch repo = Some c ->
  git.refs r !! ("refs/remotes/origin/" ++ CloneBranch repo)%string = Some c ->
  goGitClient.FetchCloneBranch h repo
  = (None, git.withRepo h (HostPath repo) r (git.RanFetch (HostPath repo) (CloneBranch repo))).
Proof.
  intros Hr Hrem Hnet Hc Ht.
  unfold goGitClient.FetchCloneBranch, gogit.PlainOpen, gogit.Fetch, gogit.RemoteURLs.
  rewrite Hr, Hrem, Hnet, Hc. rewrite bool_decide_eq_true_2 by exact Ht.
  reflexivity.
Qed.

Lemma gogit_fetch_done h repo r h1 :
  git.disk h !! HostPath repo = Some r ->
  goGitClient.FetchCloneBranch h repo = (None, h1) ->
  exists url urls rm c r1,
    git.remotes r !! "origin" = Some (url :: urls)
    /\ git.network h !! url = Some rm
    /\ git.heads rm !! CloneBranch repo = Some c
    /\ h1 = git.withRepo h (HostPath repo) r1 (git.RanFetch (HostPath repo) (CloneBranch repo))
    /\ git.refs r1 !! ("refs/remotes/origin/" ++ CloneBranch repo)%string = Some c
    /\ git.HEAD r1 = git.HEAD r
    /\ git.remotes r1 = git.remotes r
    /\ git.worktree r1 = git.worktree r
    /\ (forall n, n <> ("refs/remotes/origin/" ++ CloneBranch repo)%string ->
                  git.refs r1 !! n = git.refs r !! n).
Proof.
  intros Hr. unfold goGitClient.FetchCloneBranch, gogit.PlainOpen, gogit.Fetch, gogit.RemoteURLs.
  rewrite Hr.
  destruct (git.remotes r !! "origin") as [[|url urls]|] eqn:Hrem;
    [intros H; vm_compute in H; discriminate H | | intros H; vm_compute in H; discriminate H].
  destruct (git.network h !! url) as [rm|] eqn:Hnet;
    [|intros H; discriminate H].
  destruct (git.heads rm !! CloneBranch repo) as [c|] eqn:Hc;
    [|intros H; discriminate H].
  destruct (bool_decide _) eqn:Hb.
  - apply bool_decide_eq_true_1 in Hb. intros [= <-].
    exists url, urls, rm, c, r. now repeat split.
  - intros [= <-]. exists url, urls, rm, c, (git.fetched r rm (CloneBranch repo) c).
    cbn [git.fetched git.refs git.HEAD git.remotes git.worktree].
    repeat split; try reflexivity; try assumption.
    + apply lookup_insert_eq.
    + intros n Hn. now apply lookup_insert_ne, not_eq_sym.
Qed.

Lemma gogit_merge_eq h repo r c :
  git.disk h !! HostPath repo = Some r ->
  git.refs r !! ("refs/remotes/origin/" ++ CloneBranch repo)%string = Some c ->
  CloneBranch repo <> "HEAD" ->
  goGitClient.MergeFastForward h repo
  = match git.worktree r with
    | None => (Some "worktree not available in a bare repository", h)
    | Some _ =>
        match git.commits r !! c with
        | None => (Some (git.wrap "invalid reset option" "object not found"),
                   git.note h (git.RanReset (HostPath repo) c))
        | Some _ => (None, git.withRepo h (HostPath repo) (git.moveHead r c)
                                        (git.RanReset (HostPath repo) c))
        end
    end.
Proof.
  intros Hr Ht Hd. unfold goGitClient.MergeFastForward, gogit.PlainOpen. rewrite Hr.
  rewrite (gogit_Reference_plain r _ (remotes_not_HEAD _) (remotes_originHEAD _ Hd)).
  etransitivity.
  { instantiate (1 := match gogit.Worktree_ r with
                      | Ok _ =>
                          match gogit.ResetHard r c with
                          | Ok r' => (None, git.withRepo h (HostPath repo) r'
                                                         (git.RanReset (HostPath repo) c))
                          | Err e => (Some e, git.note h (git.RanReset (HostPath repo) c))
                          end
                      | Err e => (Some e, h)
                      end).
    destruct (git.refs r !! ("refs/remotes/origin/" ++ CloneBranch repo)%string) as [u|];
      [|discriminate Ht].
    injection Ht as ->. reflexivity. }
  unfold gogit.Worktree_, gogit.ResetHard, gogit.CommitObject.
  destruct (git.worktree r); [|reflexivity]. now destruct (git.commits r !! c).
Qed.

Lemma gogit_update_eq h repo r def c :
  git.disk h !! HostPath repo = Some r ->
  git.refs r !! ("refs/remotes/origin/" ++ def)%string = Some c ->
  def <> "HEAD" ->
  goGitClient.UpdateRef h repo ("refs/heads/" ++ def) ("refs/remotes/origin/" ++ def)
  = (None, git.withRepo h (HostPath repo) (git.setRef r ("refs/heads/" ++ def) c)
                        (git.RanSetRef (HostPath repo) ("refs/heads/" ++ def) c)).
Proof.
  intros Hr Ht Hd. unfold goGitClient.UpdateRef, gogit.PlainOpen. rewrite Hr.
  rewrite (gogit_Reference_plain r _ (remotes_not_HEAD _) (remotes_originHEAD _ Hd)).
  destruct (git.refs r !! ("refs/remotes/origin/" ++ def)%string) as [u|];
    [|discriminate Ht].
  injection Ht as ->. reflexivity.
Qed.
(** A clone whose default branch and remote-tracking reference are both
    at the commit the remote has is left as it is. *)
Lemma gogit_sync_settled h repo r b cb def c url urls rm :
  git.disk h !! HostPath repo = Some r ->
  git.HEAD r = git.OnBranch b ->
  git.refs r !! ("refs/heads/" ++ b)%string = Some cb ->
  goGitClient.HasLocalChanges h repo = Ok false ->
  defaultBranchOf goGit h repo = Ok def ->
  def <> "HEAD" ->
  git.refs r !! ("refs/heads/" ++ def)%string = Some c ->
  git.refs r !! ("refs/remotes/origin/" ++ def)%string = Some c ->
  git.remotes r !! "origin" = Some (url :: urls) ->
  git.network h !! url = Some rm ->
  git.heads rm !! def = Some c ->
  (b = def -> git.moveHead r c = r) ->
  fst (goGitClient.SyncDefaultBranch h repo) = (false, None)
  /\ git.disk (snd (goGitClient.SyncDefaultBranch h repo)) = git.disk h.
Proof.
  intros Hr Hh Hcb Hlc Hdef Hd Hc Ht Hrem Hnet Hrc Hmove.
  unfold defaultBranchOf in Hdef. cbn [GetRemoteDefaultBranch goGit] in Hdef.
  unfold goGitClient.SyncDefaultBranch.
  destruct (negb _); [now split|].
  destruct (goGitClient.GetRemoteURL h repo "origin") as [u|e]; [|now split].
  rewrite Hlc, (gogit_GetCurrentBranch_attached h repo r b Hr Hh), Hcb. cbv zeta.
  rewrite Hdef.
  set (repo' := goGitClient.withCloneBranch repo def).
  set (dir := HostPath repo).
  set (h1 := git.withRepo h dir r (git.RanFetch dir def)).
  assert (Hr1 : git.disk h1 !! dir = Some r) by (cbn [h1 git.withRepo git.disk]; apply lookup_insert_eq).
  assert (Hd1 : git.disk h1 = git.disk h).
  { cbn [h1 git.withRepo git.disk]. now apply insert_id. }
  assert (Hfetch : goGitClient.FetchCloneBranch h repo' = (None, h1)).
  { exact (gogit_fetch_settled h repo' r url urls rm c Hr Hrem Hnet Hrc Ht). }
  assert (Hbefore : goGitClient.GetRefHash h repo ("refs/heads/" ++ def) = Ok c).
  { exact (gogit_GetRefHash_Some h repo r _ c Hr (heads_not_HEAD def)
             (heads_not_originHEAD def) Hc). }
  assert (Hsync : forall cur h2,
            (if String.eqb cur def
             then (let (e, h2) := goGitClient.MergeFastForward h1 repo' in
                   (option_map (git.wrap "failed to merge remote changes") e, h2))
             else (let (e, h2) := goGitClient.UpdateRef h1 repo ("refs/heads/" ++ def)
                                    ("refs/remotes/origin/" ++ def) in
                   (option_map (git.wrap "failed to update branch reference") e, h2)))
            = (None, h2) ->
            git.disk h2 = git.disk h ->
            fst (goGitClient.syncFrom h repo cur def) = (false, None)
            /\ git.disk (snd (goGitClient.syncFrom h repo cur def)) = git.disk h).
  { intros cur h2 Hstep Hdisk. unfold goGitClient.syncFrom. fold repo'.
    rewrite Hbefore, Hfetch, Hstep.
    assert (Hafter : goGitClient.GetRefHash h2 repo ("refs/heads/" ++ def) = Ok c).
    { apply (gogit_GetRefHash_Some h2 repo r _ c);
        [rewrite Hdisk; exact Hr | apply heads_not_HEAD | apply heads_not_originHEAD | exact Hc]. }
    rewrite Hafter, String.eqb_refl. now split. }
  destruct (String.eqb b def) eqn:Hbd.
  - apply String.eqb_eq in Hbd.
    assert (Hcb' : git.refs r !! ("refs/heads/" ++ b)%string = Some c) by (now rewrite Hbd).
    assert (Ht' : git.refs r !! ("refs/remotes/origin/" ++ b)%string = Some c) by (now rewrite Hbd).
    assert (Hb : b <> "HEAD") by (now rewrite Hbd).
    rewrite (gogit_unpushed_level h repo r b c Hr Hh Hcb' Ht' Hb).
    destruct (git.commits r !! c) as [ps|] eqn:Hps; [|now split].
    destruct (gogit_HasLocalChanges_bare h repo r false Hr Hlc) as [w Hw].
    apply (Hsync b (git.withRepo h1 dir r (git.RanReset dir c))).
    + rewrite Hbd, String.eqb_refl.
      rewrite (gogit_merge_eq h1 repo' r c Hr1 Ht Hd), Hw, Hps.
      rewrite (Hmove Hbd). reflexivity.
    + cbn [git.withRepo git.disk]. rewrite Hd1. now apply insert_id.
  - apply (Hsync b (git.withRepo h1 dir (git.setRef r ("refs/heads/" ++ def) c)
                                 (git.RanSetRef dir ("refs/heads/" ++ def) c))).
    + rewrite Hbd. now rewrite (gogit_update_eq h1 repo r def c Hr1 Ht Hd).
    + cbn [git.withRepo git.disk]. rewrite Hd1.
      assert (E : git.setRef r ("refs/heads/" ++ def) c = r).
      { unfold git.setRef. rewrite (insert_id _ _ _ Hc). now destruct r. }
      rewrite E. now apply insert_id.
Qed.
(** X24: with the library backend, in a clone with a branch checked out
    and a default branch not called [HEAD], a [SyncDefaultBranch] that
    reports no error leaves the clone in a state where doing it again
    changes nothing: the second run reports no error and no change
    ([false]), and every repository on disk is what the first run left,
    whether the first run synced the checked-out branch, another branch, or
    skipped the clone. *)
Theorem X24_goGit_sync_again_changes_nothing (h : git.Host) (repo : Repo)
    (r : git.Repository) (b : string) :
  git.disk h !! HostPath repo = Some r ->
  git.HEAD r = git.OnBranch b ->
  defaultBranchOf goGit h repo <> Ok "HEAD" ->
  let first := goGitClient.SyncDefaultBranch h repo in
  snd (fst first) = None ->
  let second := goGitClient.SyncDefaultBranch (snd first) repo in
  fst second = (false, None) /\ git.disk (snd second) = git.disk (snd first).
Proof.
  intros Hr Hh Hdef first Hok second. subst second first.
  destruct (goGitClient.SyncDefaultBranch h repo) as [[flag err] h2] eqn:E0.
  cbn [fst snd] in Hok |- *. subst err.
  assert (Hskip : goGitClient.SyncDefaultBranch h repo = ((false, None), h) ->
            fst (goGitClient.SyncDefaultBranch h2 repo) = (false, None)
            /\ git.disk (snd (goGitClient.SyncDefaultBranch h2 repo)) = git.disk h2).
  { intros E. rewrite E in E0. injection E0 as <- <-. rewrite E. now split. }
  pose proof E0 as E1. unfold goGitClient.SyncDefaultBranch in E1.
  destruct (negb _) eqn:Hen; [injection E1 as <- <-; now apply Hskip|].
  destruct (goGitClient.GetRemoteURL h repo "origin") as [u|e] eqn:Hurl;
    [|injection E1 as <- <-; now apply Hskip].
  destruct (goGitClient.HasLocalChanges h repo) as [[|]|e] eqn:Hlc;
    [injection E1 as <- <-; now apply Hskip | | discriminate E1].
  rewrite (gogit_GetCurrentBranch_attached h repo r b Hr Hh) in E1.
  destruct (git.refs r !! ("refs/heads/" ++ b)%string) as [cb|] eqn:Hcb; [|discriminate E1].
  cbv zeta in E1.
  destruct (match goGitClient.GetRemoteDefaultBranch h repo with
            | Ok b0 => Ok b0
            | Err e => if String.eqb (CloneBranch repo) "" then Err e else Ok (CloneBranch repo)
            end) as [def|e] eqn:Hdet; [|discriminate E1].
  assert (Hd : def <> "HEAD").
  { intros ->. apply Hdef. exact Hdet. }
  destruct (if String.eqb b def then _ else false) eqn:Hunsafe;
    [injection E1 as <- <-; now apply Hskip|].
  clear Hskip.
  destruct (gogit_HasLocalChanges_bare h repo r false Hr Hlc) as [w Hw].
  assert (Hclean : existsb isChanged (git.status w) = false).
  { rewrite (gogit_HasLocalChanges_status h repo r w Hr Hw) in Hlc. now injection Hlc. }
  (* the first run *)
  unfold goGitClient.syncFrom in E1.
  set (repo' := goGitClient.withCloneBranch repo def) in E1.
  set (dir := HostPath repo) in *.
  destruct (goGitClient.FetchCloneBranch h repo') as [[e|] h1] eqn:Hf; [discriminate E1|].
  destruct (gogit_fetch_done h repo' r h1 Hr Hf)
    as (url & urls & rm & c & r1 & Hrem & Hnet & Hrc & -> & Ht1 & Hh1 & Hrem1 & Hw1 & Hrefs1).
  change (CloneBranch repo') with def in *. change (HostPath repo') with dir in *.
  set (h1 := git.withRepo h dir r1 (git.RanFetch dir def)) in *.
  assert (Hr1 : git.disk h1 !! dir = Some r1)
    by (cbn [h1 git.withRepo git.disk]; apply lookup_insert_eq).
  assert (Hfinish : forall r2 a,
            h2 = git.withRepo h1 dir r2 a ->
            git.HEAD r2 = git.OnBranch b ->
            (exists cb2, git.refs r2 !! ("refs/heads/" ++ b)%string = Some cb2) ->
            (exists w2, git.worktree r2 = Some w2 /\ existsb isChanged (git.status w2) = false) ->
            git.remotes r2 = git.remotes r ->
            git.refs r2 !! ("refs/heads/" ++ def)%string = Some c ->
            git.refs r2 !! ("refs/remotes/origin/" ++ def)%string = Some c ->
            (b = def -> git.moveHead r2 c = r2) ->
            fst (goGitClient.SyncDefaultBranch h2 repo) = (false, None)
            /\ git.disk (snd (goGitClient.SyncDefaultBranch h2 repo)) = git.disk h2).
  { intros r2 a -> Hh2 [cb2 Hcb2] (w2 & Hw2 & Hclean2) Hrem2 Hc2 Ht2 Hmove.
    assert (Hr2 : git.disk (git.withRepo h1 dir r2 a) !! dir = Some r2)
      by (cbn [git.withRepo git.disk]; apply lookup_insert_eq).
    apply (gogit_sync_settled _ repo r2 b cb2 def c url urls rm); try assumption.
    - rewrite (gogit_HasLocalChanges_status _ repo r2 w2 Hr2 Hw2). now rewrite Hclean2.
    - unfold defaultBranchOf. cbn [GetRemoteDefaultBranch goGit].
      rewrite (gogit_default_branch_stable h _ repo r r2 Hr Hr2 Hrem2 eq_refl).
      exact Hdet.
    - now rewrite Hrem2. }
  destruct (String.eqb b def) eqn:Hbd.
  - (* the checked-out branch is the default branch: reset to the fetched commit *)
    apply String.eqb_eq in Hbd. subst def.
    rewrite (gogit_merge_eq h1 repo' r1 c Hr1 Ht1 Hd) in E1.
    rewrite Hw1, Hw in E1.
    destruct (git.commits r1 !! c) as [ps|] eqn:Hps; [|discriminate E1].
    cbn [option_map] in E1.
    assert (E2 : h2 = git.withRepo h1 dir (git.moveHead r1 c) (git.RanReset dir c)).
    { destruct (goGitClient.GetRefHash _ repo _); now injection E1. }
    rewrite Hh in Hh1.
    apply (Hfinish _ _ E2).
    + unfold git.moveHead. now rewrite Hh1.
    + exists c. unfold git.moveHead. rewrite Hh1. cbn [git.refs]. apply lookup_insert_eq.
    + exists (git.mkWorkTree c (List.filter git.isUntracked (git.status w))).
      split.
      * unfold git.moveHead. rewrite Hh1, Hw1, Hw. reflexivity.
      * cbn [git.status]. now apply existsb_filter_false.
    + unfold git.moveHead. rewrite Hh1. cbn [git.remotes]. exact Hrem1.
    + unfold git.moveHead. rewrite Hh1. cbn [git.refs]. apply lookup_insert_eq.
    + unfold git.moveHead. rewrite Hh1. cbn [git.refs].
      etransitivity; [apply lookup_insert_ne, heads_not_remotes | exact Ht1].
    + intros _. now apply (moveHead_again r1 b c).
  - (* another branch is checked out: only the reference is set *)
    rewrite (gogit_update_eq h1 repo r1 def c Hr1 Ht1 Hd) in E1.
    cbn [option_map] in E1.
    assert (E2 : h2 = git.withRepo h1 dir (git.setRef r1 ("refs/heads/" ++ def) c)
                                   (git.RanSetRef dir ("refs/heads/" ++ def) c)).
    { destruct (goGitClient.GetRefHash _ repo _); now injection E1. }
    apply String.eqb_neq in Hbd.
    apply (Hfinish _ _ E2); cbn [git.setRef git.HEAD git.refs git.worktree git.remotes].
    + now rewrite Hh1.
    + exists cb. etransitivity; [|exact Hcb].
      etransitivity; [|apply Hrefs1, heads_not_remotes].
      apply lookup_insert_ne. intros Heq. apply Hbd. symmetry. now apply heads_inj.
    + exists w. split; [now rewrite Hw1 | exact Hclean].
    + exact Hrem1.
    + apply lookup_insert_eq.
    + etransitivity; [apply lookup_insert_ne, heads_not_remotes | exact Ht1].
    + intros Hb. now destruct Hbd.
Qed.

Lemma X24_goGit_sync_again_changes_nothing_witness :
  fst (goGitClient.SyncDefaultBranch (Fixture.host Fixture.onDefault) Fixture.repo)
  = (true, None)
  /\ fst (goGitClient.SyncDefaultBranch
            (snd (goGitClient.SyncDefaultBranch (Fixture.host Fixture.onDefault) Fixture.repo))
            Fixture.repo) = (false, None)
  /\ git.disk (snd (goGitClient.SyncDefaultBranch
                      (snd (goGitClient.SyncDefaultBranch (Fixture.host Fixture.onDefault)
                                                          Fixture.repo))
                      Fixture.repo))
     = git.disk (snd (goGitClient.SyncDefaultBranch (Fixture.host Fixture.onDefault)
                                                    Fixture.repo)).
Proof.
  split; [vm_compute; reflexivity|].
  apply (X24_goGit_sync_again_changes_nothing
           (Fixture.host Fixture.onDefault) Fixture.repo Fixture.onDefault "main");
    [vm_compute; reflexivity | reflexivity | vm_compute; intros H; discriminate H
    | vm_compute; reflexivity].
Defined.

(** ** Running the sync a second time, with the subprocess backend *)

Lemma isAncestor_refl g c : git.isAncestor g c c = true.
Proof.
  unfold git.isAncestor. cbn [git.reaches existsb]. now rewrite String.eqb_refl.
Qed.

Lemma fetched_again r rm branch c :
  git.refs r !! ("refs/remotes/origin/" ++ branch)%string = Some c ->
  git.commits r ∪ git.remoteCommits rm = git.commits r ->
  git.fetched r rm branch c = r.
Proof.
  intros Hc Hu. unfold git.fetched. rewrite Hu, (insert_id _ _ _ Hc). now destruct r.
Qed.

Lemma origin_not_self x : ("origin/" ++ x)%string <> x.
Proof.
  intros E. apply (f_equal String.length) in E. rewrite length_sapp in E.
  cbn [String.length] in E. lia.
Qed.

Lemma slashHEAD_not_HEAD x : (x ++ "/HEAD")%string <> "HEAD".
Proof.
  intros E. apply (f_equal String.length) in E. rewrite length_sapp in E.
  cbn [String.length] in E. lia.
Qed.

Lemma resolveName_plain r n :
  String.eqb n "HEAD" = false ->
  String.eqb n "refs/remotes/origin/HEAD" = false ->
  gitcli.resolveName r n = git.refs r !! n.
Proof. intros H1 H2. unfold gitcli.resolveName. now rewrite H1, H2. Qed.

Lemma revParse_full_name r n c :
  String.eqb n "HEAD" = false ->
  String.eqb n "refs/remotes/origin/HEAD" = false ->
  git.refs r !! n = Some c ->
  gitcli.revParse r n = Some c.
Proof.
  intros H1 H2 Hc. unfold gitcli.revParse, gitcli.firstResolved.
  now rewrite (resolveName_plain r n H1 H2), Hc.
Qed.

(** Resolving [origin/<def>] looks at no branch called [def]. *)
Lemma revParse_origin_kept r r' def :
  def <> "HEAD" ->
  git.commits r' = git.commits r ->
  (forall n, n <> ("refs/heads/" ++ def)%string -> git.refs r' !! n = git.refs r !! n) ->
  gitcli.revParse r' ("origin/" ++ def) = gitcli.revParse r ("origin/" ++ def).
Proof.
  intros Hd Hcommits Hrefs.
  assert (R : forall n, n <> ("refs/heads/" ++ def)%string ->
                String.eqb n "HEAD" = false ->
                String.eqb n "refs/remotes/origin/HEAD" = false ->
                gitcli.resolveName r' n = gitcli.resolveName r n).
  { intros n Hn H1 H2. rewrite !resolveName_plain by assumption. now apply Hrefs. }
  unfold gitcli.revParse, gitcli.firstResolved. rewrite Hcommits.
  rewrite (R ("origin/" ++ def)%string) by (first [by_prefix | reflexivity]).
  rewrite (R ("refs/" ++ ("origin/" ++ def))%string) by (first [by_prefix | reflexivity]).
  rewrite (R ("refs/tags/" ++ ("origin/" ++ def))%string) by (first [by_prefix | reflexivity]).
  rewrite (R ("refs/heads/" ++ ("origin/" ++ def))%string)
    by (first [ reflexivity
              | intros E; apply heads_inj in E; exact (origin_not_self def E)]).
  rewrite (R ("refs/remotes/" ++ ("origin/" ++ def))%string)
    by (first [by_prefix | reflexivity | now apply remotes_originHEAD]).
  rewrite (R ("refs/remotes/" ++ (("origin/" ++ def) ++ "/HEAD"))%string)
    by (first [ by_prefix | reflexivity
              | apply String.eqb_neq; intros E;
                injection E as E; exact (slashHEAD_not_HEAD def E) ]).
  reflexivity.
Qed.
Lemma exec_HasLocalChanges_status h repo r w :
  git.disk h !! HostPath repo = Some r ->
  git.worktree r = Some w ->
  GitClient.HasLocalChanges h repo = Ok (existsb isChanged (git.status w)).
Proof.
  intros Hr Hw.
  unfold GitClient.HasLocalChanges, GitClient.ShortStatus, GitClient.runGitCommandWithOutput,
    gitcli.run.
  rewrite Hr, Hw. cbn [fst]. f_equal.
  destruct (existsb isChanged (git.status w)) eqn:Hc.
  - destruct (statusLines_changed _ Hc) as (a & c & b & -> & Hv).
    apply negb_true_iff, String.eqb_neq. now apply TrimSpace_visible.
  - now rewrite (statusLines_unchanged _ Hc).
Qed.

Lemma exec_HasLocalChanges_bare h repo r x :
  git.disk h !! HostPath repo = Some r ->
  GitClient.HasLocalChanges h repo = Ok x ->
  exists w, git.worktree r = Some w.
Proof.
  intros Hr. unfold GitClient.HasLocalChanges, GitClient.ShortStatus,
    GitClient.runGitCommandWithOutput, gitcli.run. rewrite Hr.
  destruct (git.worktree r) as [w|]; [now exists w | discriminate].
Qed.

Lemma exec_GetCurrentBranch_attached h repo r b :
  git.disk h !! HostPath repo = Some r ->
  git.HEAD r = git.OnBranch b ->
  noSpace b = true ->
  GitClient.GetCurrentBranch h repo
  = match git.refs r !! ("refs/heads/" ++ b)%string with
    | Some _ => Ok b
    | None => Err "exit status 128"
    end.
Proof.
  intros Hr Hh Hb.
  unfold GitClient.GetCurrentBranch, GitClient.runGitCommandWithOutput, gitcli.run.
  rewrite Hr, Hh.
  destruct (git.refs r !! ("refs/heads/" ++ b)%string); [|reflexivity].
  cbn [fst]. now rewrite (TrimSpace_line b Hb).
Qed.

(** The default branch the subprocess backend finds depends on the clone
    only through [refs/remotes/origin/HEAD] and the URLs of [origin]. *)
Lemma exec_default_branch_stable h h' repo r r' :
  git.disk h !! HostPath repo = Some r ->
  git.disk h' !! HostPath repo = Some r' ->
  git.originHEAD r' = git.originHEAD r ->
  git.remotes r' = git.remotes r ->
  git.network h' = git.network h ->
  GitClient.GetRemoteDefaultBranch h' repo = GitClient.GetRemoteDefaultBranch h repo.
Proof.
  intros Hr Hr' Ho Hrem Hnet.
  unfold GitClient.GetRemoteDefaultBranch, GitClient.runGitCommandWithOutput, gitcli.run.
  rewrite Hr, Hr', Ho, Hrem, Hnet. cbn [String.eqb Ascii.eqb Bool.eqb].
  destruct (git.originHEAD r) as [target|]; [reflexivity|]. cbn [fst].
  destruct (git.remotes r !! "origin") as [[|url urls]|]; try reflexivity.
  destruct (git.network h !! url) as [rm|]; [|reflexivity].
  destruct (git.remoteHEAD rm); reflexivity.
Qed.

Lemma exec_fetch_done h repo r h1 :
  git.disk h !! HostPath repo = Some r ->
  GitClient.FetchCloneBranch h repo = (None, h1) ->
  exists url urls rm c,
    git.remotes r !! "origin" = Some (url :: urls)
    /\ git.network h !! url = Some rm
    /\ git.heads rm !! CloneBranch repo = Some c
    /\ h1 = git.withRepo h (HostPath repo) (git.fetched r rm (CloneBranch repo) c)
                         (git.RanFetch (HostPath repo) (CloneBranch repo)).
Proof.
  intros Hr. unfold GitClient.FetchCloneBranch, GitClient.runGitCommand, gitcli.run.
  rewrite Hr.
  destruct (git.remotes r !! "origin") as [[|url urls]|]; try discriminate.
  destruct (git.network h !! url) as [rm|] eqn:Hnet; [|discriminate].
  destruct (git.heads rm !! CloneBranch repo) as [c|] eqn:Hc; [|discriminate].
  intros [= <-]. now exists url, urls, rm, c.
Qed.

Lemma exec_fetch_settled h repo r url urls rm c :
  git.disk h !! HostPath repo = Some r ->
  git.remotes r !! "origin" = Some (url :: urls) ->
  git.network h !! url = Some rm ->
  git.heads rm !! CloneBranch repo = Some c ->
  git.refs r !! ("refs/remotes/origin/" ++ CloneBranch repo)%string = Some c ->
  git.commits r ∪ git.remoteCommits rm = git.commits r ->
  GitClient.FetchCloneBranch h repo
  = (None, git.withRepo h (HostPath repo) r (git.RanFetch (HostPath repo) (CloneBranch repo))).
Proof.
  intros Hr Hrem Hnet Hc Ht Hu.
  unfold GitClient.FetchCloneBranch, GitClient.runGitCommand, gitcli.run.
  rewrite Hr, Hrem, Hnet, Hc. now rewrite (fetched_again r rm _ c Ht Hu).
Qed.

Lemma exec_merge_done h repo r b cb h2 :
  git.disk h !! HostPath repo = Some r ->
  git.HEAD r = git.OnBranch b ->
  git.refs r !! ("refs/heads/" ++ b)%string = Some cb ->
  GitClient.MergeFastForward h repo = (None, h2) ->
  exists w theirs,
    git.worktree r = Some w
    /\ gitcli.revParse r ("origin/" ++ CloneBranch repo) = Some theirs
    /\ ((git.isAncestor (git.commits r) theirs cb = true
         /\ h2 = git.note h (git.RanMerge (HostPath repo) ("origin/" ++ CloneBranch repo)))
        \/ h2 = git.withRepo h (HostPath repo) (git.moveHead r theirs)
                  (git.RanMerge (HostPath repo) ("origin/" ++ CloneBranch repo))).
Proof.
  intros Hr Hh Hcb.
  assert (Hours : gitcli.resolveName r "HEAD" = Some cb).
  { unfold gitcli.resolveName. cbn [String.eqb Ascii.eqb Bool.eqb]. now rewrite Hh. }
  unfold GitClient.MergeFastForward, GitClient.runGitCommand, gitcli.run.
  rewrite Hr, Hours.
  destruct (git.worktree r) as [w|]; [|discriminate].
  destruct (gitcli.revParse r ("origin/" ++ CloneBranch repo)) as [theirs|]; [|discriminate].
  destruct (git.isAncestor (git.commits r) theirs cb) eqn:Hup.
  - intros [= <-]. exists w, theirs. split; [reflexivity|]. split; [reflexivity|]. now left.
  - destruct (git.isAncestor (git.commits r) cb theirs); [|discriminate].
    destruct (gitcli.hasTrackedChanges w); [discriminate|].
    intros [= <-]. exists w, theirs. split; [reflexivity|]. split; [reflexivity|]. now right.
Qed.

Lemma exec_merge_settled h repo r b cb w theirs :
  git.disk h !! HostPath repo = Some r ->
  git.HEAD r = git.OnBranch b ->
  git.refs r !! ("refs/heads/" ++ b)%string = Some cb ->
  git.worktree r = Some w ->
  gitcli.revParse r ("origin/" ++ CloneBranch repo) = Some theirs ->
  git.isAncestor (git.commits r) theirs cb = true ->
  GitClient.MergeFastForward h repo
  = (None, git.note h (git.RanMerge (HostPath repo) ("origin/" ++ CloneBranch repo))).
Proof.
  intros Hr Hh Hcb Hw Hrev Hup.
  assert (Hours : gitcli.resolveName r "HEAD" = Some cb).
  { unfold gitcli.resolveName. cbn [String.eqb Ascii.eqb Bool.eqb]. now rewrite Hh. }
  unfold GitClient.MergeFastForward, GitClient.runGitCommand, gitcli.run.
  now rewrite Hr, Hours, Hw, Hrev, Hup.
Qed.

Lemma exec_update_eq h repo r def c :
  git.disk h !! HostPath repo = Some r ->
  git.refs r !! ("refs/remotes/origin/" ++ def)%string = Some c ->
  def <> "HEAD" ->
  let sha := strings.TrimSpace (c ++ gitcli.nl) in
  GitClient.UpdateRef h repo ("refs/heads/" ++ def) ("refs/remotes/origin/" ++ def)
  = match git.commits r !! sha with
    | Some _ => (None, git.withRepo h (HostPath repo) (git.setRef r ("refs/heads/" ++ def) sha)
                                    (git.RanSetRef (HostPath repo) ("refs/heads/" ++ def) sha))
    | None => (Some "exit status 128",
               git.note h (git.RanSetRef (HostPath repo) ("refs/heads/" ++ def) sha))
    end.
Proof.
  intros Hr Ht Hd sha. subst sha.
  unfold GitClient.UpdateRef, GitClient.runGitCommandWithOutput.
  rewrite (run_RevParse h _ r _ Hr).
  rewrite (revParse_full_name r _ c (remotes_not_HEAD def) (remotes_originHEAD def Hd) Ht).
  unfold GitClient.runGitCommand, gitcli.run. rewrite Hr.
  now destruct (git.commits r !! strings.TrimSpace (c ++ gitcli.nl)).
Qed.
(** A clone whose default branch already has what the remote has is left
    as it is by the subprocess backend. *)
Lemma exec_sync_settled h repo r b cb def x c url urls rm :
  git.disk h !! HostPath repo = Some r ->
  git.HEAD r = git.OnBranch b ->
  noSpace b = true ->
  git.refs r !! ("refs/heads/" ++ b)%string = Some cb ->
  GitClient.HasLocalChanges h repo = Ok false ->
  defaultBranchOf execGit h repo = Ok def ->
  def <> "HEAD" ->
  git.refs r !! ("refs/heads/" ++ def)%string = Some x ->
  git.refs r !! ("refs/remotes/origin/" ++ def)%string = Some c ->
  git.remotes r !! "origin" = Some (url :: urls) ->
  git.network h !! url = Some rm ->
  git.heads rm !! def = Some c ->
  git.commits r ∪ git.remoteCommits rm = git.commits r ->
  (b = def -> exists theirs,
      gitcli.revParse r ("origin/" ++ def) = Some theirs
      /\ git.isAncestor (git.commits r) theirs cb = true) ->
  (b <> def -> x = strings.TrimSpace (c ++ gitcli.nl) /\ is_Some (git.commits r !! x)) ->
  fst (GitClient.SyncDefaultBranch h repo) = (false, None)
  /\ git.disk (snd (GitClient.SyncDefaultBranch h repo)) = git.disk h.
Proof.
  intros Hr Hh Hb Hcb Hlc Hdef Hd Hx Ht Hrem Hnet Hrc Hu Hmerge Hupdate.
  unfold defaultBranchOf in Hdef. cbn [GetRemoteDefaultBranch execGit] in Hdef.
  unfold GitClient.SyncDefaultBranch.
  destruct (negb _); [now split|].
  destruct (GitClient.GetRemoteURL h repo "origin") as [u|e]; [|now split].
  cbv zeta. rewrite Hdef.
  rewrite (exec_GetCurrentBranch_attached h repo r b Hr Hh Hb), Hcb, Hlc.
  set (repo' := goGitClient.withCloneBranch repo def).
  set (dir := HostPath repo).
  set (h1 := git.withRepo h dir r (git.RanFetch dir def)).
  assert (Hr1 : git.disk h1 !! dir = Some r)
    by (cbn [h1 git.withRepo git.disk]; apply lookup_insert_eq).
  assert (Hd1 : git.disk h1 = git.disk h).
  { cbn [h1 git.withRepo git.disk]. now apply insert_id. }
  assert (Hfetch : GitClient.FetchCloneBranch h repo' = (None, h1)).
  { exact (exec_fetch_settled h repo' r url urls rm c Hr Hrem Hnet Hrc Ht Hu). }
  assert (Hhash : forall h', git.disk h' = git.disk h ->
            GitClient.GetRefHash h' repo ("refs/heads/" ++ def)
            = Ok (strings.TrimSpace (x ++ gitcli.nl))).
  { intros h' Hdisk.
    assert (Hr' : git.disk h' !! HostPath repo = Some r) by (rewrite Hdisk; exact Hr).
    rewrite (exec_GetRefHash h' repo r _ Hr').
    now rewrite (revParse_full_name r _ x (heads_not_HEAD def) (heads_not_originHEAD def) Hx). }
  assert (Hsync : forall cur h2,
            (if String.eqb cur def
             then (let (e, h2) := GitClient.MergeFastForward h1 repo' in
                   (option_map (git.wrap "failed to merge remote changes") e, h2))
             else (let (e, h2) := GitClient.UpdateRef h1 repo ("refs/heads/" ++ def)
                                    ("refs/remotes/origin/" ++ def) in
                   (option_map (git.wrap "failed to update branch reference") e, h2)))
            = (None, h2) ->
            git.disk h2 = git.disk h ->
            fst (GitClient.syncFrom h repo cur def) = (false, None)
            /\ git.disk (snd (GitClient.syncFrom h repo cur def)) = git.disk h).
  { intros cur h2 Hstep Hdisk. unfold GitClient.syncFrom. fold repo'.
    rewrite (Hhash h eq_refl), Hfetch, Hstep, (Hhash h2 Hdisk), String.eqb_refl.
    now split. }
  destruct (String.eqb b def) eqn:Hbd.
  - apply String.eqb_eq in Hbd.
    destruct (match GitClient.HasUnpushedCommits h repo with
              | Ok hasUnpushedCommits => hasUnpushedCommits
              | Err _ => true
              end); [now split|].
    destruct (Hmerge Hbd) as (theirs & Hrev & Hup).
    destruct (exec_HasLocalChanges_bare h repo r false Hr Hlc) as [w Hw].
    apply (Hsync b (git.note h1 (git.RanMerge dir ("origin/" ++ def)))).
    + rewrite Hbd, String.eqb_refl.
      now rewrite (exec_merge_settled h1 repo' r b cb w theirs Hr1 Hh Hcb Hw Hrev Hup).
    + cbn [git.note git.disk]. exact Hd1.
  - apply String.eqb_neq in Hbd. destruct (Hupdate Hbd) as [-> [ps Hps]].
    set (sha := strings.TrimSpace (c ++ gitcli.nl)) in *.
    apply (Hsync b (git.withRepo h1 dir (git.setRef r ("refs/heads/" ++ def) sha)
                                 (git.RanSetRef dir ("refs/heads/" ++ def) sha))).
    + apply String.eqb_neq in Hbd. rewrite Hbd.
      rewrite (exec_update_eq h1 repo r def c Hr1 Ht Hd). cbv zeta. fold sha.
      now rewrite Hps.
    + cbn [git.withRepo git.disk]. rewrite Hd1.
      assert (E : git.setRef r ("refs/heads/" ++ def) sha = r).
      { unfold git.setRef. rewrite (insert_id _ _ _ Hx). now destruct r. }
      rewrite E. now apply insert_id.
Qed.
(** X25: the same with the subprocess backend.  In a clone with a branch
    checked out whose name has no white space, and a default branch not
    called [HEAD], a [SyncDefaultBranch] that reports no error leaves the
    clone settled: running it again reports no error and no change
    ([false]), and every repository on disk is what the first run left,
    whether the first run fast-forwarded the checked-out default branch,
    found it up to date, set the reference of a default branch that is not
    checked out, or skipped the clone. *)
Theorem X25_exec_sync_again_changes_nothing (h : git.Host) (repo : Repo)
    (r : git.Repository) (b : string) :
  git.disk h !! HostPath repo = Some r ->
  git.HEAD r = git.OnBranch b ->
  noSpace b = true ->
  defaultBranchOf execGit h repo <> Ok "HEAD" ->
  let first := GitClient.SyncDefaultBranch h repo in
  snd (fst first) = None ->
  let second := GitClient.SyncDefaultBranch (snd first) repo in
  fst second = (false, None) /\ git.disk (snd second) = git.disk (snd first).
Proof.
  intros Hr Hh Hb Hdef first Hok second. subst second first.
  destruct (GitClient.SyncDefaultBranch h repo) as [[flag err] h2] eqn:E0.
  cbn [fst snd] in Hok |- *. subst err.
  assert (Hskip : GitClient.SyncDefaultBranch h repo = ((false, None), h) ->
            fst (GitClient.SyncDefaultBranch h2 repo) = (false, None)
            /\ git.disk (snd (GitClient.SyncDefaultBranch h2 repo)) = git.disk h2).
  { intros E. rewrite E in E0. injection E0 as <- <-. rewrite E. now split. }
  pose proof E0 as E1. unfold GitClient.SyncDefaultBranch in E1.
  destruct (negb _) eqn:Hen; [injection E1 as <- <-; now apply Hskip|].
  destruct (GitClient.GetRemoteURL h repo "origin") as [u|e] eqn:Hurl;
    [|injection E1 as <- <-; now apply Hskip].
  cbv zeta in E1.
  destruct (match GitClient.GetRemoteDefaultBranch h repo with
            | Ok b0 => Ok b0
            | Err e => if String.eqb (CloneBranch repo) "" then Err e else Ok (CloneBranch repo)
            end) as [def|e] eqn:Hdet; [|discriminate E1].
  assert (Hd : def <> "HEAD").
  { intros ->. apply Hdef. exact Hdet. }
  rewrite (exec_GetCurrentBranch_attached h repo r b Hr Hh Hb) in E1.
  destruct (git.refs r !! ("refs/heads/" ++ b)%string) as [cb|] eqn:Hcb; [|discriminate E1].
  destruct (GitClient.HasLocalChanges h repo) as [[|]|e] eqn:Hlc;
    [injection E1 as <- <-; now apply Hskip | | discriminate E1].
  destruct (if String.eqb b def then _ else false) eqn:Hunsafe;
    [injection E1 as <- <-; now apply Hskip|].
  clear Hskip.
  destruct (exec_HasLocalChanges_bare h repo r false Hr Hlc) as [w Hw].
  assert (Hclean : existsb isChanged (git.status w) = false).
  { rewrite (exec_HasLocalChanges_status h repo r w Hr Hw) in Hlc. now injection Hlc. }
  (* the first run *)
  unfold GitClient.syncFrom in E1.
  set (repo' := goGitClient.withCloneBranch repo def) in E1.
  set (dir := HostPath repo) in *.
  destruct (GitClient.FetchCloneBranch h repo') as [[e|] h1] eqn:Hf; [discriminate E1|].
  destruct (exec_fetch_done h repo' r h1 Hr Hf) as (url & urls & rm & c & Hrem & Hnet & Hrc & ->).
  change (CloneBranch repo') with def in *. change (HostPath repo') with dir in *.
  set (r1 := git.fetched r rm def c) in *.
  set (h1 := git.withRepo h dir r1 (git.RanFetch dir def)) in *.
  assert (Hr1 : git.disk h1 !! dir = Some r1)
    by (cbn [h1 git.withRepo git.disk]; apply lookup_insert_eq).
  assert (Ht1 : git.refs r1 !! ("refs/remotes/origin/" ++ def)%string = Some c)
    by (cbn [r1 git.fetched git.refs]; apply lookup_insert_eq).
  assert (Hcb1 : git.refs r1 !! ("refs/heads/" ++ b)%string = Some cb).
  { cbn [r1 git.fetched git.refs].
    etransitivity; [apply lookup_insert_ne, not_eq_sym, heads_not_remotes | exact Hcb]. }
  assert (Hu1 : git.commits r1 ∪ git.remoteCommits rm = git.commits r1).
  { cbn [r1 git.fetched git.commits]. now rewrite <- (assoc_L (∪)), (idemp_L (∪)). }
  assert (Hfinish : forall r2 cb2 x,
            git.disk h2 !! dir = Some r2 ->
            git.network h2 = git.network h ->
            git.HEAD r2 = git.OnBranch b ->
            git.refs r2 !! ("refs/heads/" ++ b)%string = Some cb2 ->
            (exists w2, git.worktree r2 = Some w2 /\ existsb isChanged (git.status w2) = false) ->
            git.originHEAD r2 = git.originHEAD r ->
            git.remotes r2 = git.remotes r ->
            git.commits r2 = git.commits r1 ->
            git.refs r2 !! ("refs/heads/" ++ def)%string = Some x ->
            git.refs r2 !! ("refs/remotes/origin/" ++ def)%string = Some c ->
            (b = def -> exists theirs,
                gitcli.revParse r2 ("origin/" ++ def) = Some theirs
                /\ git.isAncestor (git.commits r2) theirs cb2 = true) ->
            (b <> def -> x = strings.TrimSpace (c ++ gitcli.nl)
                         /\ is_Some (git.commits r2 !! x)) ->
            fst (GitClient.SyncDefaultBranch h2 repo) = (false, None)
            /\ git.disk (snd (GitClient.SyncDefaultBranch h2 repo)) = git.disk h2).
  { intros r2 cb2 x Hr2 Hnet2 Hh2 Hcb2 (w2 & Hw2 & Hclean2) Ho2 Hrem2 Hcommits2 Hx2 Ht2
           Hmerge Hupdate.
    apply (exec_sync_settled h2 repo r2 b cb2 def x c url urls rm); try assumption.
    - rewrite (exec_HasLocalChanges_status _ repo r2 w2 Hr2 Hw2). now rewrite Hclean2.
    - unfold defaultBranchOf. cbn [GetRemoteDefaultBranch execGit].
      rewrite (exec_default_branch_stable h h2 repo r r2 Hr Hr2 Ho2 Hrem2 Hnet2).
      exact Hdet.
    - now rewrite Hrem2.
    - now rewrite Hnet2.
    - now rewrite Hcommits2. }
  destruct (String.eqb b def) eqn:Hbd.
  - (* the checked-out branch is the default branch: git merge --ff-only *)
    apply String.eqb_eq in Hbd. subst def.
    destruct (GitClient.MergeFastForward h1 repo') as [[e|] h2'] eqn:Hm;
      cbn [option_map] in E1; [discriminate E1|].
    assert (E2 : h2 = h2').
    { destruct (GitClient.GetRefHash _ repo _); now injection E1. }
    subst h2'.
    destruct (exec_merge_done h1 repo' r1 b cb h2 Hr1 Hh Hcb1 Hm)
      as (w1 & theirs & Hw1 & Hrev & [[Hup ->] | ->]).
    + (* already up to date *)
      apply (Hfinish r1 cb cb); try reflexivity; try assumption.
      * exists w. now split.
      * intros _. exists theirs. now split.
      * intros Hne. now destruct Hne.
    + (* fast-forward *)
      assert (Hh1 : git.HEAD r1 = git.OnBranch b) by exact Hh.
      assert (Hrefs2 : forall n, n <> ("refs/heads/" ++ b)%string ->
                git.refs (git.moveHead r1 theirs) !! n = git.refs r1 !! n).
      { intros n Hn. unfold git.moveHead. rewrite Hh1. cbn [git.refs].
        now apply lookup_insert_ne, not_eq_sym. }
      assert (Hc2 : git.commits (git.moveHead r1 theirs) = git.commits r1).
      { unfold git.moveHead. now rewrite Hh1. }
      apply (Hfinish (git.moveHead r1 theirs) theirs theirs).
      * cbn [git.withRepo git.disk]. apply lookup_insert_eq.
      * reflexivity.
      * unfold git.moveHead. now rewrite Hh1.
      * unfold git.moveHead. rewrite Hh1. cbn [git.refs]. apply lookup_insert_eq.
      * exists (git.mkWorkTree theirs (List.filter git.isUntracked (git.status w))).
        split.
        -- unfold git.moveHead. rewrite Hh1. cbn [git.worktree r1 git.fetched]. now rewrite Hw.
        -- cbn [git.status]. now apply existsb_filter_false.
      * unfold git.moveHead. now rewrite Hh1.
      * unfold git.moveHead. now rewrite Hh1.
      * exact Hc2.
      * unfold git.moveHead. rewrite Hh1. cbn [git.refs]. apply lookup_insert_eq.
      * rewrite Hrefs2 by apply not_eq_sym, heads_not_remotes. exact Ht1.
      * intros _. exists theirs. split; [|apply isAncestor_refl].
        rewrite (revParse_origin_kept r1 _ b Hd Hc2 Hrefs2). exact Hrev.
      * intros Hne. now destruct Hne.
  - (* another branch is checked out: git update-ref *)
    rewrite (exec_update_eq h1 repo r1 def c Hr1 Ht1 Hd) in E1. cbv zeta in E1.
    set (sha := strings.TrimSpace (c ++ gitcli.nl)) in *.
    destruct (git.commits r1 !! sha) as [ps|] eqn:Hps; [|discriminate E1].
    cbn [option_map] in E1.
    assert (E2 : h2 = git.withRepo h1 dir (git.setRef r1 ("refs/heads/" ++ def) sha)
                                   (git.RanSetRef dir ("refs/heads/" ++ def) sha)).
    { destruct (GitClient.GetRefHash _ repo _); now injection E1. }
    subst h2. apply String.eqb_neq in Hbd.
    apply (Hfinish (git.setRef r1 ("refs/heads/" ++ def) sha) cb sha);
      cbn [git.setRef git.HEAD git.refs git.worktree git.remotes git.originHEAD git.commits].
    + cbn [git.withRepo git.disk]. apply lookup_insert_eq.
    + reflexivity.
    + exact Hh.
    + etransitivity; [|exact Hcb1].
      apply lookup_insert_ne. intros Heq. apply Hbd. symmetry. now apply heads_inj.
    + exists w. now split.
    + reflexivity.
    + reflexivity.
    + reflexivity.
    + apply lookup_insert_eq.
    + etransitivity; [apply lookup_insert_ne, heads_not_remotes | exact Ht1].
    + intros Hb'. now destruct Hbd.
    + intros _. split; [reflexivity|]. now exists ps.
Qed.

Lemma X25_exec_sync_again_changes_nothing_witness :
  fst (GitClient.SyncDefaultBranch (execHost Fixture.onDefault) Fixture.repo) = (true, None)
  /\ fst (GitClient.SyncDefaultBranch
            (snd (GitClient.SyncDefaultBranch (execHost Fixture.onDefault) Fixture.repo))
            Fixture.repo) = (false, None)
  /\ git.disk (snd (GitClient.SyncDefaultBranch
                      (snd (GitClient.SyncDefaultBranch (execHost Fixture.onDefault)
                                                        Fixture.repo))
                      Fixture.repo))
     = git.disk (snd (GitClient.SyncDefaultBranch (execHost Fixture.onDefault) Fixture.repo)).
Proof.
  split; [vm_compute; reflexivity|].
  apply (X25_exec_sync_again_changes_nothing
           (execHost Fixture.onDefault) Fixture.repo Fixture.onDefault "main");
    [vm_compute; reflexivity | reflexivity | reflexivity
    | vm_compute; intros H; discriminate H | vm_compute; reflexivity].
Defined.
